(** * HabitVoice: a shallow embedding of the command interpreter, the streak
    engine, the action executor and the confirmation gate.

    The first part embeds the program, file by file: [utils/constants.py],
    [models/habit.py], [services/ai_service.py],
    [services/analytics_service.py], [utils/helpers.py] and
    [services/habit_service.py], with the pieces of [re] and [datetime] they
    call. The second part states and proves the properties.

    Python values are modelled as follows.
    - [str] is [string]; the characters are 7-bit ASCII, which covers the
      taxonomy, every keyword list and every pattern of the program.
    - [int] is [Z] (arbitrary precision, as the language defines it; CPython's
      configurable guard on the digit count of [int(str)] is not part of the
      model).
    - a [date] is its ordinal in [Z]; subtracting days raises
      [OverflowError] below [date.min], as in Python.
    - a [float] that the program computes (a percentage, a timestamp in
      seconds) is a rational number in [Q]; rounding is left out.
    - a [dict] with string keys is a [gmap string _] where only lookups
      matter and an association list where a JSON object is taken apart; a
      [set] is a [gset].
    - an exception is the [Raise] branch of [result]; [try]/[except] is
      [try_except].
    - the wall clock, the answer of the text-completion service, the goal
      file and the buttons of the page are arguments of the functions that
      read them; what the code shows and saves is recorded in the session. *)

From Stdlib Require Import ZArith QArith Qminmax Qfield Ascii String List Lia.
From stdpp Require Import base option list gmap sets strings sorting pretty.

Local Open Scope Z_scope.

(** ** Exceptions *)

Inductive exn :=
| TypeError | ValueError | AttributeError | KeyError | OverflowError
| OracleError.

Inductive result (A : Type) :=
| Ok (a : A)
| Raise (e : exn).
Arguments Ok {A} a.
Arguments Raise {A} e.

Global Instance result_ret : MRet result := λ A a, Ok a.
Global Instance result_bind : MBind result := λ A B f r,
  match r with
  | Ok a => f a
  | Raise e => Raise e
  end.

(** [try: body / except Exception: handler] *)
Definition try_except {A} (body : result A) (handler : exn → result A) : result A :=
  match body with
  | Ok a => Ok a
  | Raise e => handler e
  end.

(** ** Text *)

Module Text.

Definition is_digit (c : ascii) : bool :=
  let n := N_of_ascii c in (48 <=? n)%N && (n <=? 57)%N.

Definition is_upper (c : ascii) : bool :=
  let n := N_of_ascii c in (65 <=? n)%N && (n <=? 90)%N.

Definition is_lower (c : ascii) : bool :=
  let n := N_of_ascii c in (97 <=? n)%N && (n <=? 122)%N.

(** [\w] *)
Definition is_word (c : ascii) : bool :=
  is_digit c || is_upper c || is_lower c || (N_of_ascii c =? 95)%N.

(** [str.isspace] on one character, which is also [\s]:
    tab, newline, vertical tab, form feed, carriage return, the four
    separators 28..31 and the space. *)
Definition is_space (c : ascii) : bool :=
  let n := N_of_ascii c in
  ((9 <=? n)%N && (n <=? 13)%N) || ((28 <=? n)%N && (n <=? 32)%N).

Definition lower_char (c : ascii) : ascii :=
  if is_upper c then ascii_of_N (N_of_ascii c + 32) else c.

(** [s.lower()] *)
Fixpoint lower (s : string) : string :=
  match s with
  | EmptyString => EmptyString
  | String c t => String (lower_char c) (lower t)
  end.

Fixpoint lstrip (s : string) : string :=
  match s with
  | EmptyString => EmptyString
  | String c t => if is_space c then lstrip t else s
  end.

(** [s.rstrip()]: a suffix of white space disappears. *)
Fixpoint rstrip (s : string) : string :=
  match s with
  | EmptyString => EmptyString
  | String c t =>
      match rstrip t with
      | EmptyString => if is_space c then EmptyString else String c EmptyString
      | t' => String c t'
      end
  end.

(** [s.strip()] *)
Definition strip (s : string) : string := rstrip (lstrip s).

(** [needle in hay] for two strings *)
Fixpoint contains (needle hay : string) : bool :=
  String.prefix needle hay
  || match hay with
     | EmptyString => false
     | String _ t => contains needle t
     end.

(** [any(k in text for k in keywords)] *)
Definition any_in (keywords : list string) (text : string) : bool :=
  existsb (λ k, contains k text) keywords.

(** [any(char.isdigit() for char in s)] *)
Fixpoint any_digit (s : string) : bool :=
  match s with
  | EmptyString => false
  | String c t => is_digit c || any_digit t
  end.

(** [s[:n]] *)
Definition slice_to (n : nat) (s : string) : string := String.substring 0 n s.

Definition digit_value (c : ascii) : Z := Z.of_N (N_of_ascii c) - 48.

Fixpoint int_of_digits_go (acc : Z) (s : string) : Z :=
  match s with
  | EmptyString => acc
  | String c t => int_of_digits_go (10 * acc + digit_value c) t
  end.

(** [int(s)] for a string of decimal digits. *)
Definition int_of_digits (s : string) : Z := int_of_digits_go 0 s.

(** the characters of a string, each as a string of length one *)
Fixpoint chars (s : string) : list string :=
  match s with
  | EmptyString => []
  | String c t => String c EmptyString :: chars t
  end.

(** [x in xs] for a string and a list of strings *)
Definition mem (x : string) (xs : list string) : bool :=
  bool_decide (x ∈ xs).

End Text.

(** ** A backtracking matcher for the fragment of [re] the program uses *)

Module Re.

Inductive regex :=
| Eps
| Lit (s : string)                      (* literal text *)
| Cls (p : ascii → bool)                (* one character of a class *)
| Many (p : ascii → bool) (least : nat) (* greedy [c*] (0) and [c+] (1) *)
| Seq (r1 r2 : regex)
| Alt (r1 r2 : regex)                   (* [r1|r2], left first *)
| Opt (r : regex)                       (* greedy [r?] *)
| Grp (i : nat) (r : regex).            (* capturing group number [i] *)

Abbreviation groups := (gmap nat (list ascii)).

Fixpoint strip_prefix (p s : list ascii) : option (list ascii) :=
  match p, s with
  | [], _ => Some s
  | a :: p', b :: s' => if Ascii.eqb a b then strip_prefix p' s' else None
  | _ :: _, [] => None
  end.

Definition or_else {R} (a b : option R) : option R :=
  match a with
  | Some r => Some r
  | None => b
  end.

Section Match.
Context {R : Type}.

(** The longest run first, then shorter ones, never fewer than [least]. *)
Fixpoint many (p : ascii → bool) (least : nat) (s : list ascii)
    (k : list ascii → option R) : option R :=
  let stop := match least with O => k s | S _ => None end in
  match s with
  | c :: t => if p c then or_else (many p (pred least) t k) stop else stop
  | [] => stop
  end.

(** [run r s g k]: match [r] at the head of [s], then continue with [k]
    on what is left; the first success in priority order wins. *)
Fixpoint run (r : regex) (s : list ascii) (g : groups)
    (k : list ascii → groups → option R) : option R :=
  match r with
  | Eps => k s g
  | Lit l =>
      match strip_prefix (list_ascii_of_string l) s with
      | Some s' => k s' g
      | None => None
      end
  | Cls p =>
      match s with
      | c :: t => if p c then k t g else None
      | [] => None
      end
  | Many p least => many p least s (λ s', k s' g)
  | Seq r1 r2 => run r1 s g (λ s' g', run r2 s' g' k)
  | Alt r1 r2 => or_else (run r1 s g k) (run r2 s g k)
  | Opt r1 => or_else (run r1 s g k) (k s g)
  | Grp i r1 =>
      run r1 s g
        (λ s' g', k s' (<[i := take (length s - length s') s]> g'))
  end.
End Match.

(** A match object: the text matched ([group(0)]), the numbered groups and
    what follows the match. *)
Record match_obj := {
  m_text : string;
  m_groups : gmap nat string;
  m_rest : list ascii
}.

Definition mk_match (s rest : list ascii) (g : groups) : match_obj :=
  {| m_text := string_of_list_ascii (take (length s - length rest) s);
     m_groups := string_of_list_ascii <$> g;
     m_rest := rest |}.

(** [re.match]: at the start of the text only *)
Definition match_at (r : regex) (s : list ascii) : option match_obj :=
  run r s ∅ (λ rest g, Some (mk_match s rest g)).

Fixpoint search_from (r : regex) (s : list ascii) : option match_obj :=
  or_else (match_at r s)
    match s with
    | [] => None
    | _ :: t => search_from r t
    end.

(** [re.search(r, text)] *)
Definition search (r : regex) (text : string) : option match_obj :=
  search_from r (list_ascii_of_string text).

(** [re.findall(r, text)] for a pattern without groups: the matches from
    left to right, none overlapping; an empty match moves on by one. Every
    round drops a character at least, so [fuel] above the length of the text
    is never used up. *)
Fixpoint findall_from (fuel : nat) (r : regex) (s : list ascii) : list string :=
  match fuel with
  | O => []
  | S fuel' =>
      match match_at r s with
      | Some m =>
          if (length (m_rest m) <? length s)%nat
          then m_text m :: findall_from fuel' r (m_rest m)
          else m_text m ::
               match s with
               | [] => []
               | _ :: t => findall_from fuel' r t
               end
      | None =>
          match s with
          | [] => []
          | _ :: t => findall_from fuel' r t
          end
      end
  end.

Definition findall (r : regex) (text : string) : list string :=
  let s := list_ascii_of_string text in
  findall_from (S (length s)) r s.

Definition seq_of (rs : list regex) : regex := foldr Seq Eps rs.
Definition alt_of (rs : list regex) : regex :=
  match rs with
  | [] => Eps
  | r :: rs' => foldl Alt r rs'
  end.

End Re.

(** ** utils/constants.py *)

Definition HABIT_CATEGORIES : list (string * list string) :=
  [ ("🏃 Health & Fitness",
      ["workout"; "yoga"; "running"; "gym"; "walking"; "stretching"; "sports"]);
    ("🧠 Mental & Learning",
      ["reading"; "meditating"; "journaling"; "learning"; "studying"; "gratitude"]);
    ("💻 Productivity",
      ["coding"; "writing"; "planning"; "organizing"; "learning english"]);
    ("🌱 Lifestyle",
      ["sleep early"; "no phone"; "drinking water"; "healthy eating"; "cleaning";
       "cooking"]);
    ("🎨 Creative",
      ["drawing"; "music"; "photography"; "crafting"; "dancing"]);
    ("👥 Social",
      ["calling family"; "meeting friends"; "networking"; "volunteering"]) ].

Definition COMMON_HABITS : list string :=
  Eval cbv in concat (snd <$> HABIT_CATEGORIES).

Definition DEFAULT_GOALS : gmap string Z :=
  list_to_map
    [ ("workout", 5); ("running", 4); ("yoga", 6); ("gym", 4);
      ("reading", 7); ("meditating", 7); ("journaling", 7);
      ("coding", 5); ("learning", 5); ("studying", 5);
      ("drinking water", 7); ("sleep early", 7); ("healthy eating", 7) ].

Import Re.

Definition word1 : regex := Many Text.is_word 1.
Definition digits1 : regex := Many Text.is_digit 1.

(** [(?:per|a|each)] and [(?:per|a)] *)
Definition per_a_each : regex := alt_of [Lit "per"; Lit "a"; Lit "each"].
Definition per_a : regex := alt_of [Lit "per"; Lit "a"].

Definition GOAL_PATTERNS : list regex :=
  [ (* set goal (?:for )?(\w+) (\d+) times? (?:per|a|each) week *)
    seq_of [Lit "set goal "; Opt (Lit "for "); Grp 1 word1; Lit " ";
            Grp 2 digits1; Lit " time"; Opt (Lit "s"); Lit " "; per_a_each;
            Lit " week"];
    (* i want to do (\w+) (\d+) times? (?:per|a|each) week *)
    seq_of [Lit "i want to do "; Grp 1 word1; Lit " "; Grp 2 digits1;
            Lit " time"; Opt (Lit "s"); Lit " "; per_a_each; Lit " week"];
    (* goal for (\w+) is (\d+) (?:per|a|each) week *)
    seq_of [Lit "goal for "; Grp 1 word1; Lit " is "; Grp 2 digits1; Lit " ";
            per_a_each; Lit " week"];
    (* (\w+) goal (\d+) times? weekly *)
    seq_of [Grp 1 word1; Lit " goal "; Grp 2 digits1; Lit " time";
            Opt (Lit "s"); Lit " weekly"];
    (* target (\w+) (\d+) times? (?:per|a) week *)
    seq_of [Lit "target "; Grp 1 word1; Lit " "; Grp 2 digits1; Lit " time";
            Opt (Lit "s"); Lit " "; per_a; Lit " week"] ].

Definition STREAK_KEYWORDS : list string :=
  ["streak"; "how many days"; "consecutive"; "in a row"; "daily streak"].
Definition PROGRESS_KEYWORDS : list string :=
  ["how am i doing"; "weekly progress"; "this week"; "my progress";
   "progress report"].
Definition DASHBOARD_KEYWORDS : list string :=
  ["progress"; "dashboard"; "stats"; "analytics"; "how am i doing"; "show my";
   "report"].

(** ** Values the interpreter handles: what [json.loads] can return *)

#[local] Unset Elimination Schemes.
Inductive pyval :=
| PNone
| PBool (b : bool)
| PInt (n : Z)
| PFloat (x : Q)
| PStr (s : string)
| PList (l : list pyval)
| PDict (items : list (string * pyval)).
#[local] Set Elimination Schemes.

(** A [dict] with string keys, in insertion order. *)
Definition dict := list (string * pyval).

Module Dict.

Fixpoint get (k : string) (d : dict) : option pyval :=
  match d with
  | [] => None
  | (k', v) :: d' => if String.eqb k k' then Some v else get k d'
  end.

Definition has (k : string) (d : dict) : bool :=
  match get k d with Some _ => true | None => false end.

(** [d[k] = v] *)
Fixpoint set (k : string) (v : pyval) (d : dict) : dict :=
  match d with
  | [] => [(k, v)]
  | (k', v') :: d' =>
      if String.eqb k k' then (k', v) :: d' else (k', v') :: set k v d'
  end.

(** [d.setdefault(k, v)] *)
Definition setdefault (k : string) (v : pyval) (d : dict) : dict :=
  if has k d then d else set k v d.

Definition keys (d : dict) : list string := fst <$> d.

End Dict.

(** ** models/habit.py: VoiceCommand

    A dataclass does not check the declared field types, so a field holds
    whatever value the caller passes. *)

Record VoiceCommand := {
  intent : pyval;
  habits : pyval;
  duration : pyval;
  target : pyval
}.

(** The constructor applied to the entries of [d] as keywords: a [TypeError]
    for a key that is no field and for a missing [intent] or [habits];
    [duration] and [target] have defaults. *)
Definition VoiceCommand_of (d : dict) : result VoiceCommand :=
  if forallb (λ k, Text.mem k ["intent"; "habits"; "duration"; "target"])
       (Dict.keys d)
  then
    match Dict.get "intent" d, Dict.get "habits" d with
    | Some i, Some h =>
        Ok {| intent := i; habits := h;
              duration := default (PStr "") (Dict.get "duration" d);
              target := default (PInt 0) (Dict.get "target" d) |}
    | _, _ => Raise TypeError
    end
  else Raise TypeError.

Definition str_list (l : list string) : pyval := PList (PStr <$> l).

(** The dict literal the interpreter returns on its deterministic paths. *)
Definition command_dict (i : string) (hs : list string) (d : string) (t : Z) : dict :=
  [("intent", PStr i); ("habits", str_list hs); ("duration", PStr d);
   ("target", PInt t)].

(** The dict literal of step 1, the goal patterns. *)
Definition goal_dict (habit : string) (n : Z) : dict :=
  [("intent", PStr "set_goal"); ("habits", str_list [habit]);
   ("target", PInt n); ("duration", PStr "")].

(** ** services/ai_service.py *)

(** What the text-completion service and [json.loads] leave behind: the call
    raised, timed out or answered with text that is no JSON ([OracleFailed]),
    or the decoded value. *)
Inductive oracle_reply :=
| OracleFailed
| OraclePayload (data : pyval).

Module AIService.

(** [for pattern in GOAL_PATTERNS: ...]; [None] when the loop ends without
    a return. *)
Fixpoint goal_patterns (patterns : list regex) (text_lower : string) : option dict :=
  match patterns with
  | [] => None
  | pattern :: rest =>
      match search pattern text_lower with
      | Some m =>
          match m_groups m !! 1%nat, m_groups m !! 2%nat with
          | Some habit, Some target =>
              if Text.mem habit COMMON_HABITS
              then Some (goal_dict habit (Text.int_of_digits target))
              else goal_patterns rest text_lower
          | _, _ => goal_patterns rest text_lower
          end
      | None => goal_patterns rest text_lower
      end
  end.

(** [r'(\d+)\s*(hour|minute|min)s?'] *)
Definition DURATION_PATTERN : regex :=
  seq_of [Grp 1 digits1; Many Text.is_space 0;
          Grp 2 (alt_of [Lit "hour"; Lit "minute"; Lit "min"]); Opt (Lit "s")].

Definition _simple_parse (text : string) : dict :=
  let text_lower := Text.lower text in
  if Text.any_in DASHBOARD_KEYWORDS text_lower then command_dict "dashboard" [] "" 0
  else
    let '(intent, target) :=
      if Text.contains "add" text_lower || Text.contains "create" text_lower
      then ("add", 0)
      else if Text.contains "delete" text_lower || Text.contains "remove" text_lower
      then ("delete", 0)
      else if Text.contains "goal" text_lower && Text.any_digit text_lower
      then ("set_goal",
            match findall digits1 text_lower with
            | n :: _ => Text.int_of_digits n
            | [] => 7
            end)
      else ("log", 0) in
    let habits := filter (λ habit, Text.contains habit text_lower = true) COMMON_HABITS in
    let duration :=
      match search DURATION_PATTERN text_lower with
      | Some m => m_text m
      | None => ""
      end in
    command_dict intent habits duration target.

(** [for h in v]: the elements of a list, the characters of a string, the
    keys of a dict; each must be a string for [h.strip()] to work. *)
Definition iter_strings (v : pyval) : result (list string) :=
  match v with
  | PList l =>
      mapM (λ x, match x with PStr s => Ok s | _ => Raise AttributeError end) l
  | PStr s => Ok (Text.chars s)
  | PDict items => Ok (Dict.keys items)
  | _ => Raise TypeError
  end.

Definition is_str (s : string) (v : pyval) : bool :=
  match v with PStr s' => String.eqb s s' | _ => false end.

(** From [data = json.loads(response_text)] to [return data]. *)
Definition validate (data : pyval) : result dict :=
  match data with
  | PDict d =>
      d ← match Dict.get "habits" d with
          | Some v =>
              hs ← iter_strings v;
              let hs := (λ h, Text.strip (Text.lower h))
                          <$> filter (λ h, Text.strip h ≠ "") hs in
              let hs := filter (λ h, Text.mem h COMMON_HABITS = true) hs in
              Ok (Dict.set "habits" (str_list hs) d)
          | None => Ok d
          end;
      Ok (Dict.setdefault "duration" (PStr "")
            (Dict.setdefault "target" (PInt 0) d))
  | PList l =>
      (* ["habits" in data] holds: [data["habits"]] on a list;
         otherwise [data.setdefault] on a list *)
      if existsb (is_str "habits") l then Raise TypeError else Raise AttributeError
  | PStr s =>
      if Text.contains "habits" s then Raise TypeError else Raise AttributeError
  | _ => Raise TypeError
  end.

Definition _call_openai_parse (raw_text : string) (reply : oracle_reply) : result dict :=
  try_except
    (match reply with
     | OracleFailed => Raise OracleError
     | OraclePayload data => validate data
     end)
    (λ _, Ok (_simple_parse raw_text)).

Definition first_habit_in (text_lower : string) : option string :=
  find (λ habit, Text.contains habit text_lower) COMMON_HABITS.

Definition _enhanced_voice_parsing (raw_text : string) (reply : oracle_reply)
    : result dict :=
  let text_lower := Text.strip (Text.lower raw_text) in
  match goal_patterns GOAL_PATTERNS text_lower with
  | Some d => Ok d
  | None =>
      if Text.any_in STREAK_KEYWORDS text_lower then
        match first_habit_in text_lower with
        | Some habit => Ok (command_dict "streak_query" [habit] "" 0)
        | None => Ok (command_dict "streak_query" [] "" 0)
        end
      else if Text.any_in PROGRESS_KEYWORDS text_lower then
        Ok (command_dict "progress_query" [] "" 0)
      else if Text.any_in DASHBOARD_KEYWORDS text_lower then
        Ok (command_dict "dashboard" [] "" 0)
      else if Text.any_in ["yes"; "confirm"; "correct"; "that's right"; "yep"] text_lower then
        Ok (command_dict "confirm" [] "" 0)
      else if Text.any_in ["no"; "cancel"; "wrong"; "not correct"; "nope"] text_lower then
        Ok (command_dict "cancel" [] "" 0)
      else if Text.any_in ["help"; "how to use"; "instructions"; "what can i say"] text_lower then
        Ok (command_dict "help" [] "" 0)
      else if Text.any_in ["export"; "download"; "backup"; "save data"] text_lower then
        Ok (command_dict "export" [] "" 0)
      else _call_openai_parse raw_text reply
  end.

Definition parse_voice_command (raw_text : string) (reply : oracle_reply)
    : result VoiceCommand :=
  try_except
    (parsed_data ← _enhanced_voice_parsing raw_text reply;
     VoiceCommand_of parsed_data)
    (λ _, VoiceCommand_of (_simple_parse raw_text)).

End AIService.


(** The intents of the glossary. *)
Definition SPEC_INTENTS : list string :=
  ["log"; "add"; "delete"; "set_goal"; "streak_query"; "progress_query";
   "dashboard"; "confirm"; "cancel"; "help"; "export"; "query"].

Definition is_intent (v : pyval) : bool :=
  match v with
  | PStr s => Text.mem s SPEC_INTENTS
  | _ => false
  end.

(** A habits field that is a list of taxonomy names. *)
Definition taxonomy_list (v : pyval) : Prop :=
  ∃ hs, v = str_list hs ∧ Forall (λ h, h ∈ COMMON_HABITS) hs.

(** None of the deterministic steps 1 to 7 answers: the text goes to the
    text-completion service. *)
Definition oracle_consulted (raw_text : string) : bool :=
  let text_lower := Text.strip (Text.lower raw_text) in
  match AIService.goal_patterns GOAL_PATTERNS text_lower with
  | Some _ => false
  | None =>
      negb (Text.any_in STREAK_KEYWORDS text_lower
            || Text.any_in PROGRESS_KEYWORDS text_lower
            || Text.any_in DASHBOARD_KEYWORDS text_lower
            || Text.any_in ["yes"; "confirm"; "correct"; "that's right"; "yep"] text_lower
            || Text.any_in ["no"; "cancel"; "wrong"; "not correct"; "nope"] text_lower
            || Text.any_in ["help"; "how to use"; "instructions"; "what can i say"] text_lower
            || Text.any_in ["export"; "download"; "backup"; "save data"] text_lower)
  end.

(** What a pattern denotes: the texts it matches, whatever the groups. *)
Inductive matches : regex → list ascii → Prop :=
| matches_eps : matches Eps []
| matches_lit l : matches (Lit l) (list_ascii_of_string l)
| matches_cls (p : ascii → bool) c : p c = true → matches (Cls p) [c]
| matches_many (p : ascii → bool) least w :
    Forall (λ c, p c = true) w → (least ≤ length w)%nat → matches (Many p least) w
| matches_seq r1 r2 w1 w2 :
    matches r1 w1 → matches r2 w2 → matches (Seq r1 r2) (w1 ++ w2)
| matches_alt_l r1 r2 w : matches r1 w → matches (Alt r1 r2) w
| matches_alt_r r1 r2 w : matches r2 w → matches (Alt r1 r2) w
| matches_opt_some r w : matches r w → matches (Opt r) w
| matches_opt_none r : matches (Opt r) []
| matches_grp i r w : matches r w → matches (Grp i r) w.

(** Every group number [i] of [r] is [c+] or [c*] over the class [P]. *)
Fixpoint group_class (i : nat) (P : ascii → bool) (r : regex) : Prop :=
  match r with
  | Grp j r1 =>
      if decide (j = i) then ∃ least, r1 = Many P least else group_class i P r1
  | Seq r1 r2 | Alt r1 r2 => group_class i P r1 ∧ group_class i P r2
  | Opt r1 => group_class i P r1
  | _ => True
  end.

(** A string of word characters only: one token, no space in it. *)
Definition single_word (s : string) : bool :=
  forallb Text.is_word (list_ascii_of_string s).

(** The taxonomy names of more than one word. *)
Definition MULTI_WORD_HABITS : list string :=
  Eval cbv in filter (λ h, Text.contains " " h = true) COMMON_HABITS.





(** ** datetime: dates, [strptime], comparison

    A [date] is its proleptic Gregorian ordinal ([date.toordinal()]):
    0001-01-01 is day 1, 9999-12-31 is day 3652059. The order of dates is the
    order of the ordinals, and a difference of one day is a difference of 1. *)

Module Calendar.

(** [date.min], 0001-01-01 *)
Definition date_min : Z := 1.

Definition is_leap (y : Z) : bool :=
  (y mod 4 =? 0) && (negb (y mod 100 =? 0) || (y mod 400 =? 0)).

Definition days_in_month (y m : Z) : Z :=
  if m =? 2 then (if is_leap y then 29 else 28)
  else if (m =? 4) || (m =? 6) || (m =? 9) || (m =? 11) then 30
  else 31.

Definition days_before_year (y : Z) : Z :=
  let y' := y - 1 in y' * 365 + y' / 4 - y' / 100 + y' / 400.

Fixpoint days_before_month_go (y : Z) (months : nat) : Z :=
  match months with
  | O => 0
  | S n => days_before_month_go y n + days_in_month y (Z.of_nat (S n))
  end.

(** the days of the year before the first of month [m] *)
Definition days_before_month (y m : Z) : Z :=
  days_before_month_go y (Z.to_nat (m - 1)).

Definition ymd2ord (y m d : Z) : Z :=
  days_before_year y + days_before_month y m + d.

(** [date(y, m, d)]: a [ValueError] outside the calendar *)
Definition date (y m d : Z) : result Z :=
  if (1 <=? y) && (y <=? 9999) && (1 <=? m) && (m <=? 12)
     && (1 <=? d) && (d <=? days_in_month y m)
  then Ok (ymd2ord y m d)
  else Raise ValueError.

(** [d - timedelta(days=n)] for a date of the calendar and [n >= 0]: an
    [OverflowError] when the result would be before [date.min]. *)
Definition sub_days (d n : Z) : result Z :=
  let o := d - n in
  if 0 <? o then Ok o else Raise OverflowError.

(** [d.weekday()], Monday is 0 *)
Definition weekday (d : Z) : Z := (d + 6) mod 7.

(** A naive [datetime]: the ordinal of its date and its time of day. *)
Record datetime := {
  dt_date : Z;
  dt_hour : Z;
  dt_minute : Z;
  dt_second : Z;
  dt_microsecond : Z
}.

(** Comparison of two datetimes: field by field, the date first. *)
Definition dt_compare (a b : datetime) : comparison :=
  match dt_date a ?= dt_date b with
  | Eq =>
      match dt_hour a ?= dt_hour b with
      | Eq =>
          match dt_minute a ?= dt_minute b with
          | Eq =>
              match dt_second a ?= dt_second b with
              | Eq => dt_microsecond a ?= dt_microsecond b
              | c => c
              end
          | c => c
          end
      | c => c
      end
  | c => c
  end.

(** [a >= b] *)
Definition dt_ge (a b : datetime) : bool :=
  match dt_compare a b with Lt => false | _ => true end.

Definition digit : regex := Cls Text.is_digit.
Definition range (lo hi : N) : regex :=
  Cls (λ c, (lo <=? N_of_ascii c)%N && (N_of_ascii c <=? hi)%N).

(** The directives as CPython's [_strptime.TimeRE] spells them. *)
(** [%Y]: [\d\d\d\d] *)
Definition re_Y : regex := seq_of [digit; digit; digit; digit].
(** [%m]: [1[0-2]|0[1-9]|[1-9]] *)
Definition re_m : regex :=
  alt_of [Seq (Lit "1") (range 48 50); Seq (Lit "0") (range 49 57); range 49 57].
(** [%d]: [3[0-1]|[1-2]\d|0[1-9]|[1-9]| [1-9]] *)
Definition re_d : regex :=
  alt_of [Seq (Lit "3") (range 48 49); Seq (range 49 50) digit;
          Seq (Lit "0") (range 49 57); range 49 57; Seq (Lit " ") (range 49 57)].
(** [%H]: [2[0-3]|[0-1]\d|\d] *)
Definition re_H : regex :=
  alt_of [Seq (Lit "2") (range 48 51); Seq (range 48 49) digit; digit].
(** [%M]: [[0-5]\d|\d] *)
Definition re_M : regex := alt_of [Seq (range 48 53) digit; digit].
(** [%S]: [6[0-1]|[0-5]\d|\d] *)
Definition re_S : regex :=
  alt_of [Seq (Lit "6") (range 48 49); Seq (range 48 53) digit; digit].

(** [int(s)] for the text of a directive; [int] skips surrounding blanks. *)
Definition int_of (s : string) : Z := Text.int_of_digits (Text.strip s).

Definition group_int (m : match_obj) (i : nat) : Z :=
  int_of (default "" (m_groups m !! i)).

(** The whole text has to be converted, or [strptime] raises. *)
Definition full_match (r : regex) (s : string) : result match_obj :=
  match match_at r (list_ascii_of_string s) with
  | Some m => match m_rest m with [] => Ok m | _ => Raise ValueError end
  | None => Raise ValueError
  end.

(** [datetime.strptime(s, "%Y-%m-%d").date()] *)
Definition strptime_date (s : string) : result Z :=
  m ← full_match (seq_of [Grp 1 re_Y; Lit "-"; Grp 2 re_m; Lit "-"; Grp 3 re_d]) s;
  date (group_int m 1) (group_int m 2) (group_int m 3).

(** [datetime.strptime(s, "%Y-%m-%d %H:%M:%S")]; a blank in the format
    stands for [\s+]. *)
Definition strptime_datetime (s : string) : result datetime :=
  m ← full_match
        (seq_of [Grp 1 re_Y; Lit "-"; Grp 2 re_m; Lit "-"; Grp 3 re_d;
                 Many Text.is_space 1;
                 Grp 4 re_H; Lit ":"; Grp 5 re_M; Lit ":"; Grp 6 re_S]) s;
  d ← date (group_int m 1) (group_int m 2) (group_int m 3);
  let second := group_int m 6 in
  if second <=? 59
  then Ok {| dt_date := d; dt_hour := group_int m 4; dt_minute := group_int m 5;
             dt_second := second; dt_microsecond := 0 |}
  else Raise ValueError.

End Calendar.

(** ** The event log

    One entry of [habit_logs]: a dict with the keys [habit], [action], [time]
    and [type]; [duration] is there for entries of type [log] only. *)

Module Log.
Record t := {
  habit : string;
  action : string;
  time : string;
  type : string;
  duration : option string
}.
End Log.

(** One entry of [habit_goals], keyed by habit. *)
Record HabitGoal := {
  target_per_week : Z;
  created : string;
  category : string
}.

(** ** services/analytics_service.py *)

Module AnalyticsService.
Import Calendar.

(** [log.get("type") == "log"] *)
Definition is_log (log : Log.t) : bool := String.eqb (Log.type log) "log".

(** The date of an entry; [None] where [strptime] raises and the loop moves
    on to the next entry. *)
Definition log_date (log : Log.t) : option Z :=
  match strptime_date (Text.slice_to 10 (Log.time log)) with
  | Ok d => Some d
  | Raise _ => None
  end.

(** [sorted(set(habit_dates), reverse=True)] for the entries of [habit] *)
Definition habit_dates (logged_habits : list Log.t) (habit : string) : list Z :=
  let habit_dates :=
    omap (λ log, if String.eqb (Log.habit log) habit then log_date log else None)
      logged_habits in
  merge_sort Z.ge (elements (list_to_set habit_dates : gset Z)).

(** The loop over the dates, newest first, with the running [streak] and
    [current_date]. *)
Fixpoint streak_loop (habit_dates : list Z) (streak : nat) (current_date : Z)
    : result nat :=
  match habit_dates with
  | [] => Ok streak
  | habit_date :: rest =>
      if habit_date =? current_date then
        current_date ← sub_days current_date 1;
        streak_loop rest (S streak) current_date
      else if habit_date <? current_date then
        if (current_date - habit_date =? 1) && (streak =? 0)%nat then
          current_date ← sub_days habit_date 1;
          streak_loop rest 1 current_date
        else Ok streak
      else streak_loop rest streak current_date
  end.

(** [today] is [date.today()]. *)
Definition calculate_streaks (habit_logs : list Log.t) (today : Z)
    : result (gmap string nat) :=
  match habit_logs with
  | [] => Ok ∅
  | _ =>
      let logged_habits := filter (λ log, is_log log = true) habit_logs in
      let unique_habits : gset string := list_to_set (Log.habit <$> logged_habits) in
      set_fold
        (λ habit acc,
           streaks ← acc;
           streak ← streak_loop (habit_dates logged_habits habit) 0 today;
           Ok (if (0 <? streak)%nat then <[habit := streak]> streaks else streaks))
        (Ok ∅) unique_habits
  end.

(** One entry of the progress report. The percentage is a rational number:
    Python computes it in binary floating point, whose rounding is left out. *)
Module Progress.
Record t := {
  completed : Z;
  target : Z;
  percentage : Q;
  status : string
}.
End Progress.

(** Monday 00:00:00 of the week of [now]. The subtraction stays in the
    calendar, since day 1 is a Monday. *)
Definition week_start (now : datetime) : datetime :=
  let days_since_monday := weekday (dt_date now) in
  {| dt_date := dt_date now - days_since_monday;
     dt_hour := 0; dt_minute := 0; dt_second := 0; dt_microsecond := 0 |}.

(** One round of the loop that counts the completions of the week. *)
Definition count_log (week_start : datetime) (weekly_counts : gmap string Z)
    (log : Log.t) : gmap string Z :=
  if is_log log then
    match strptime_datetime (Log.time log) with
    | Ok log_datetime =>
        if dt_ge log_datetime week_start then
          let habit := Log.habit log in
          <[habit := default 0 (weekly_counts !! habit) + 1]> weekly_counts
        else weekly_counts
    | Raise _ => weekly_counts
    end
  else weekly_counts.

Definition progress_of (weekly_counts : gmap string Z) (habit : string)
    (goal_data : HabitGoal) : Progress.t :=
  let completed := default 0 (weekly_counts !! habit) in
  let target := target_per_week goal_data in
  {| Progress.completed := completed;
     Progress.target := target;
     Progress.percentage :=
       if 0 <? target
       then Qmin 100 (inject_Z completed / inject_Z target * 100)
       else 0%Q;
     Progress.status :=
       if target <=? completed then "completed"
       else if 0 <? completed then "in_progress"
       else "not_started" |}.

(** [now] is [datetime.now()]. *)
Definition check_weekly_progress (habit_logs : list Log.t)
    (habit_goals : gmap string HabitGoal) (now : datetime)
    : gmap string Progress.t :=
  if decide (habit_goals = ∅) then ∅
  else
    let weekly_counts := foldl (count_log (week_start now)) ∅ habit_logs in
    map_imap (λ habit goal_data, Some (progress_of weekly_counts habit goal_data))
      habit_goals.

End AnalyticsService.


(** *** Notions for the properties of the analytics *)

(** Habit [habit] has an entry of type [log] dated [d]. *)
Definition logged_on (habit_logs : list Log.t) (habit : string) (d : Z) : Prop :=
  ∃ log, log ∈ habit_logs ∧ AnalyticsService.is_log log = true
    ∧ Log.habit log = habit ∧ AnalyticsService.log_date log = Some d.

(** [n] consecutive days ending at [last] satisfy [P], the day before them
    does not. *)
Definition is_streak (P : Z → Prop) (last : Z) (n : nat) : Prop :=
  (∀ i, 0 ≤ i < Z.of_nat n → P (last - i)) ∧ ¬ P (last - Z.of_nat n).

(** An entry of type [log] for [habit] whose timestamp is read and is not
    before [start]. *)
Definition counts_for (start : Calendar.datetime) (habit : string) (log : Log.t)
    : bool :=
  AnalyticsService.is_log log && String.eqb (Log.habit log) habit
  && match Calendar.strptime_datetime (Log.time log) with
     | Ok t => Calendar.dt_ge t start
     | Raise _ => false
     end.

(** A completion entry as the executor writes it. *)
Definition completed_at (habit time : string) : Log.t :=
  {| Log.habit := habit; Log.action := "Completed " +:+ habit; Log.time := time;
     Log.type := "log"; Log.duration := Some "" |}.

(** ** utils/helpers.py and services/habit_service.py

    The Streamlit session is an explicit state. What the code shows on the
    page and what it hands to the storage service is recorded, in order, in
    [effects]. *)

Inductive effect :=
| Success (text : string)
| Warning (text : string)
| Info (text : string)
| Write (text : string)
| SaveUserData (user : string) (logs : list Log.t)
| SaveUserGoals (user : string) (goals : gmap string HabitGoal)
| Rerun.

Module Pending.
Record t := {
  habit : string;
  duration : string;
  action_text : string;
  action_type : string;
  user : string;
  timestamp : Q
}.
End Pending.

(** [st.session_state]. A key that may be missing is an [option]:
    [habit_goals = None] is "no such key"; [pending_action = Some None] is
    the key holding [None]. *)
Record session_state := {
  habit_logs : list Log.t;
  habit_goals : option (gmap string HabitGoal);
  pending_action : option (option Pending.t);
  show_dashboard : bool;
  effects : list effect
}.

(** The readings of the clock that one interaction uses. *)
Record clock := {
  now_text : string;     (* [datetime.now().strftime("%Y-%m-%d %H:%M:%S")] *)
  now_iso : string;      (* [datetime.now().isoformat()] *)
  now_timestamp : Q      (* [datetime.now().timestamp()], in seconds *)
}.

(** The buttons of the confirmation dialog in one run of the script. *)
Inductive click := NoClick | ClickYes | ClickNo.

(** [command_data], with the field types that [VoiceCommand] declares. *)
Record command_data := {
  cd_intent : string;
  cd_habits : list string;
  cd_duration : string;
  cd_target : Z
}.

Definition emit (e : effect) (st : session_state) : session_state :=
  {| habit_logs := habit_logs st; habit_goals := habit_goals st;
     pending_action := pending_action st; show_dashboard := show_dashboard st;
     effects := effects st ++ [e] |}.

Definition set_habit_logs (logs : list Log.t) (st : session_state) : session_state :=
  {| habit_logs := logs; habit_goals := habit_goals st;
     pending_action := pending_action st; show_dashboard := show_dashboard st;
     effects := effects st |}.

Definition set_habit_goals (goals : option (gmap string HabitGoal))
    (st : session_state) : session_state :=
  {| habit_logs := habit_logs st; habit_goals := goals;
     pending_action := pending_action st; show_dashboard := show_dashboard st;
     effects := effects st |}.

Definition set_pending_action (p : option (option Pending.t))
    (st : session_state) : session_state :=
  {| habit_logs := habit_logs st; habit_goals := habit_goals st;
     pending_action := p; show_dashboard := show_dashboard st;
     effects := effects st |}.

Definition set_show_dashboard (b : bool) (st : session_state) : session_state :=
  {| habit_logs := habit_logs st; habit_goals := habit_goals st;
     pending_action := pending_action st; show_dashboard := b;
     effects := effects st |}.

Module Helpers.

Definition get_habit_category (habit : string) : string :=
  match find (λ entry, Text.mem habit entry.2) HABIT_CATEGORIES with
  | Some (category, _) => category
  | None => "🔄 Other"
  end.

(** [time.time() - pending_action.get('timestamp', 0) > 300]; [now] is
    [time.time()]. *)
Definition check_session_timeout (st : session_state) (now : Q)
    : bool * session_state :=
  match pending_action st with
  | Some (Some action) =>
      if Qle_bool (now - Pending.timestamp action) 300
      then (false, st)
      else (true, set_pending_action (Some None) st)
  | _ => (false, st)
  end.

End Helpers.

Module HabitService.
Import Helpers.

Section Storage.
(** [auth_service.load_user_goals]: what the goal file of a user holds. *)
Variable load_user_goals : string → gmap string HabitGoal.

Definition set_habit_goal (user habit : string) (target_per_week : Z)
    (now : clock) (st : session_state) : session_state :=
  let goals :=
    match habit_goals st with
    | Some goals => goals
    | None => load_user_goals user
    end in
  let goals :=
    <[habit := {| target_per_week := target_per_week; created := now_iso now;
                  category := get_habit_category habit |}]> goals in
  emit (SaveUserGoals user goals) (set_habit_goals (Some goals) st).

(** The line feed of ["\n"]. *)
Definition newline : string := String (ascii_of_nat 10) EmptyString.

Definition completed_text (habit duration : string) : string :=
  let action_text := "Completed " +:+ habit in
  if decide (duration = "") then action_text
  else action_text +:+ " for " +:+ duration.

Definition _execute_confirmed_action (now : clock) (st : session_state)
    : result session_state :=
  match pending_action st with
  | None => Ok st
  | Some None => Raise TypeError      (* [action['habit']] on [None] *)
  | Some (Some action) =>
      let habit := Pending.habit action in
      let duration := Pending.duration action in
      let action_type := Pending.action_type action in
      let user := Pending.user action in
      let st :=
        if String.eqb action_type "log" then
          let action_text := completed_text habit duration in
          let st :=
            set_habit_logs
              (habit_logs st ++
                 [{| Log.habit := habit; Log.action := action_text;
                     Log.time := now_text now; Log.type := "log";
                     Log.duration := Some duration |}]) st in
          emit (Success ("✅ Logged: **" +:+ action_text +:+ "**")) st
        else if String.eqb action_type "add" then
          let existing_habits := Log.habit <$> habit_logs st in
          if Text.mem habit existing_habits then
            emit (Info ("ℹ️ **" +:+ habit +:+ "** already exists in your habits!")) st
          else
            let st :=
              set_habit_logs
                (habit_logs st ++
                   [{| Log.habit := habit;
                       Log.action := "Added habit: " +:+ habit;
                       Log.time := now_text now; Log.type := "add";
                       Log.duration := None |}]) st in
            let st := emit (Success ("➕ Added habit: **" +:+ habit +:+ "**")) st in
            match DEFAULT_GOALS !! habit with
            | Some goal =>
                let st := set_habit_goal user habit goal now st in
                emit (Info ("🎯 Set default goal: " +:+ pretty goal
                            +:+ " times per week")) st
            | None => st
            end
        else if String.eqb action_type "delete" then
          let initial_count := length (habit_logs st) in
          let st :=
            set_habit_logs
              (filter (λ log, Log.habit log ≠ habit) (habit_logs st)) st in
          let removed_count := (initial_count - length (habit_logs st))%nat in
          if (0 <? removed_count)%nat then
            let st :=
              emit (Success ("🗑️ Deleted **" +:+ habit +:+ "** ("
                             +:+ pretty removed_count +:+ " entries removed)")) st in
            match habit_goals st with
            | Some goals =>
                if decide (is_Some (goals !! habit)) then
                  let goals := delete habit goals in
                  emit (SaveUserGoals user goals) (set_habit_goals (Some goals) st)
                else st
            | None => st
            end
          else emit (Warning ("⚠️ No entries found for **" +:+ habit +:+ "**")) st
        else st in
      let st := emit (SaveUserData user (habit_logs st)) st in
      let st := set_pending_action None st in
      Ok (emit Rerun st)
  end.

Definition _handle_habit_confirmation (habit duration action_type user : string)
    (now : clock) (button : click) (st : session_state) : result session_state :=
  let '(action_text, icon) :=
    if String.eqb action_type "log" then (completed_text habit duration, "✅")
    else if String.eqb action_type "add"
    then ("Add " +:+ habit +:+ " to your habits", "➕")
    else if String.eqb action_type "delete"
    then ("Delete " +:+ habit +:+ " and all its logs", "🗑️")
    else (action_type +:+ " " +:+ habit, "🔄") in
  let st :=
    set_pending_action
      (Some (Some {| Pending.habit := habit; Pending.duration := duration;
                     Pending.action_text := action_text;
                     Pending.action_type := action_type; Pending.user := user;
                     Pending.timestamp := now_timestamp now |})) st in
  let st :=
    emit (Warning ("🤔 **Confirm Action:**" +:+ newline
                   +:+ icon +:+ " " +:+ action_text)) st in
  match button with
  | ClickYes => _execute_confirmed_action now st
  | ClickNo =>
      Ok (emit Rerun (emit (Info "❌ Action cancelled") (set_pending_action None st)))
  | NoClick => Ok st
  end.

(** [habit.title()] *)
Fixpoint title_go (after_letter : bool) (s : string) : string :=
  match s with
  | EmptyString => EmptyString
  | String c t =>
      let letter := Text.is_upper c || Text.is_lower c in
      let c' :=
        if after_letter then Text.lower_char c
        else if Text.is_lower c then ascii_of_N (N_of_ascii c - 32) else c in
      String c' (title_go letter t)
  end.
Definition title (s : string) : string := title_go false s.

Definition _query_habit (habit user : string) (st : session_state) : session_state :=
  let logs := filter (λ log, Text.contains habit (Log.habit log) = true) (habit_logs st) in
  match logs with
  | [] => emit (Warning ("❌ No records found for **" +:+ habit +:+ "**")) st
  | _ =>
      let st :=
        emit (Info ("📊 **" +:+ title habit +:+ "** - Found "
                    +:+ pretty (length logs) +:+ " entries:")) st in
      foldl (λ st log,
               emit (Write ("  • " +:+ Log.action log +:+ " - " +:+ Log.time log)) st)
        st (drop (length logs - 5) logs)
  end.

Definition handle_habit_action (command_data : command_data) (current_user : string)
    (now : clock) (button : click) (st : session_state) : result session_state :=
  let intent := cd_intent command_data in
  let habits := cd_habits command_data in
  let duration := cd_duration command_data in
  let target := cd_target command_data in
  if String.eqb intent "dashboard" then
    Ok (emit (Success "📊 Opening your comprehensive dashboard!")
          (set_show_dashboard true st))
  else if String.eqb intent "set_goal" then
    match habits with
    | habit :: _ =>
        if 0 <? target then
          let st := set_habit_goal current_user habit target now st in
          Ok (emit (Success ("🎯 Set goal for **" +:+ habit +:+ "**: "
                             +:+ pretty target +:+ " times per week")) st)
        else
          Ok (emit (Warning "⚠️ Please specify a habit and target number for goal setting.") st)
    | [] =>
        Ok (emit (Warning "⚠️ Please specify a habit and target number for goal setting.") st)
    end
  else if Text.mem intent
            ["streak_query"; "progress_query"; "help"; "export"; "confirm"; "cancel"]
  then Ok st
  else
    match habits with
    | [] =>
        Ok (emit (Warning ("⚠️ No valid habits recognized. Try mentioning: "
                           +:+ String.concat ", " (take 5 COMMON_HABITS) +:+ "...")) st)
    | habit :: _ =>
        if Text.mem intent ["add"; "log"; "delete"] then
          _handle_habit_confirmation habit duration intent current_user now button st
        else if String.eqb intent "query" then Ok (_query_habit habit current_user st)
        else Ok st
    end.

End Storage.
End HabitService.

(** The goals in effect for a user: those of the session, or the stored
    ones while the session has not loaded any. *)
Definition goals_in_effect (load_user_goals : string → gmap string HabitGoal)
    (user : string) (st : session_state) : gmap string HabitGoal :=
  match habit_goals st with
  | Some goals => goals
  | None => load_user_goals user
  end.

(** The goal the session holds for a habit, if any. *)
Definition session_goal (st : session_state) (habit : string) : option HabitGoal :=
  goals ← habit_goals st; goals !! habit.

Definition warned (st : session_state) : Prop :=
  ∃ text, Warning text ∈ effects st.

(** *** Sample data for the examples *)

Definition sample_clock : clock :=
  {| now_text := "2024-01-03 18:00:05"; now_iso := "2024-01-03T18:00:05";
     now_timestamp := 1704300005 |}.

Definition sample_pending (action_type : string) : Pending.t :=
  {| Pending.habit := "yoga"; Pending.duration := "";
     Pending.action_text := action_type +:+ " yoga";
     Pending.action_type := action_type; Pending.user := "john";
     Pending.timestamp := 1704300000 |}.

Definition sample_session (action_type : string) : session_state :=
  {| habit_logs := [completed_at "yoga" "2024-01-02 18:00:00";
                    completed_at "reading" "2024-01-03 07:30:00"];
     habit_goals :=
       Some {[ "yoga" := {| target_per_week := 6; created := "2024-01-01T09:00:00";
                            category := Helpers.get_habit_category "yoga" |} ]};
     pending_action := Some (Some (sample_pending action_type));
     show_dashboard := false;
     effects := [] |}.


(** Wednesday 2024-01-03, noon. *)
Definition sample_now : Calendar.datetime :=
  {| Calendar.dt_date := Calendar.ymd2ord 2024 1 3; Calendar.dt_hour := 12;
     Calendar.dt_minute := 0; Calendar.dt_second := 0;
     Calendar.dt_microsecond := 0 |}.

(** A user without a goal file. *)
Definition no_stored_goals : string → gmap string HabitGoal := λ _, ∅.

(** ** More of the program: the rest of the cited files *)

(** *** models/habit.py: [VoiceCommand.to_dict] *)

Definition VoiceCommand_to_dict (c : VoiceCommand) : dict :=
  [("intent", intent c); ("habits", habits c); ("duration", duration c);
   ("target", target c)].

(** The field names of [VoiceCommand]. *)
Definition VOICE_COMMAND_FIELDS : list string :=
  ["intent"; "habits"; "duration"; "target"].

(** The habits of an oracle payload after the two list comprehensions. *)
Definition clean_habits (hs : list string) : list string :=
  filter (λ h, Text.mem h COMMON_HABITS = true)
    ((λ h, Text.strip (Text.lower h)) <$> filter (λ h, Text.strip h ≠ "") hs).

(** *** services/analytics_service.py: [get_longest_streaks] *)

(** [sorted(set(habit_dates))] for the entries of [habit] *)
Definition habit_dates_ascending (logged_habits : list Log.t) (habit : string)
    : list Z :=
  let habit_dates :=
    omap (λ log, if String.eqb (Log.habit log) habit
                 then AnalyticsService.log_date log else None)
      logged_habits in
  merge_sort Z.le (elements (list_to_set habit_dates : gset Z)).

(** [for i in range(1, len(habit_dates))]: [previous] is [habit_dates[i-1]]
    and the list holds [habit_dates[i:]]. The difference of two dates is
    always defined. *)
Fixpoint longest_loop (previous : Z) (habit_dates : list Z)
    (current_streak max_streak : nat) : nat :=
  match habit_dates with
  | [] => max_streak
  | habit_date :: rest =>
      if habit_date - previous =? 1 then
        let current_streak := S current_streak in
        longest_loop habit_date rest current_streak
          (Nat.max max_streak current_streak)
      else longest_loop habit_date rest 1 max_streak
  end.

Definition get_longest_streaks (habit_logs : list Log.t) : gmap string nat :=
  match habit_logs with
  | [] => ∅
  | _ =>
      let logged_habits :=
        filter (λ log, AnalyticsService.is_log log = true) habit_logs in
      let unique_habits : gset string := list_to_set (Log.habit <$> logged_habits) in
      set_fold
        (λ habit longest_streaks,
           match habit_dates_ascending logged_habits habit with
           | [] => longest_streaks
           | first :: rest =>
               <[habit := longest_loop first rest 1 1]> longest_streaks
           end)
        ∅ unique_habits
  end.

(** *** utils/helpers.py: [get_smart_suggestions] *)

Definition POPULAR_HABITS : list string :=
  ["reading"; "workout"; "meditating"; "journaling"; "drinking water"].

(** [HABIT_CATEGORIES[category]], [None] when [category] is no key. *)
Definition category_habits (category : string) : option (list string) :=
  snd <$> find (λ entry, String.eqb entry.1 category) HABIT_CATEGORIES.

(** [for habit in habits: if habit not in user_habits and habit not in
    suggestions: suggestions.append(habit); if len(suggestions) >= limit:
    break]: the loop over one category, with limit 3, and the loop over the
    popular habits, with limit 5. *)
Fixpoint suggest_from (limit : nat) (user_habits : gset string)
    (habits suggestions : list string) : list string :=
  match habits with
  | [] => suggestions
  | habit :: rest =>
      if bool_decide (habit ∉ user_habits) && negb (Text.mem habit suggestions)
      then
        let suggestions := suggestions ++ [habit] in
        if (limit <=? length suggestions)%nat then suggestions
        else suggest_from limit user_habits rest suggestions
      else suggest_from limit user_habits rest suggestions
  end.

Section Suggestions.
(** The order in which [for category in user_categories] goes through the
    set, which Python leaves open. *)
Variable set_order : gset string → list string.

(** The result is the pair of the [suggestions] and the [reason]. *)
Definition get_smart_suggestions (habit_logs : list Log.t) : list string * string :=
  match habit_logs with
  | [] => (["reading"; "workout"; "meditating"; "journaling"; "drinking water"],
           "Popular habits for beginners")
  | _ =>
      let user_habits : gset string :=
        list_to_set
          (Log.habit <$> filter (λ log, AnalyticsService.is_log log = true) habit_logs) in
      if decide (user_habits = ∅)
      then (["reading"; "workout"; "meditating"], "Recommended starter habits")
      else
        let user_categories : gset string :=
          set_map Helpers.get_habit_category user_habits in
        let suggestions :=
          foldl (λ suggestions category,
                   match category_habits category with
                   | Some habits => suggest_from 3 user_habits habits suggestions
                   | None => suggestions
                   end)
            [] (set_order user_categories) in
        let suggestions := suggest_from 5 user_habits POPULAR_HABITS suggestions in
        (take 5 suggestions, "Based on your habits")
  end.

End Suggestions.

(** What the suggestion loops keep: no name twice, only names of the
    taxonomy, none that the user has. *)
Definition suggestions_ok (user_habits : gset string) (suggestions : list string)
    : Prop :=
  NoDup suggestions
  ∧ ∀ habit, habit ∈ suggestions → habit ∈ COMMON_HABITS ∧ habit ∉ user_habits.

(** The entry that the executor appends for a pending [log]. *)
Definition log_entry (habit duration : string) (now : clock) : Log.t :=
  {| Log.habit := habit;
     Log.action := HabitService.completed_text habit duration;
     Log.time := now_text now; Log.type := "log";
     Log.duration := Some duration |}.

(** *** services/auth_service.py: the files of the users

    The directory is read through [os.listdir]; its answer is an argument. *)

Module AuthService.

(** [s.endswith(suffix)] *)
Fixpoint endswith (s suffix : string) : bool :=
  String.eqb s suffix
  || match s with
     | EmptyString => false
     | String _ t => endswith t suffix
     end.

(** [s.replace(old, new)] for a non-empty [old]: the occurrences of [old]
    are taken from left to right, without overlap. [skip] is the number of
    characters of the last occurrence that are still to be passed over. *)
Fixpoint replace_go (old new : string) (skip : nat) (s : string) : string :=
  match s with
  | EmptyString => EmptyString
  | String c t =>
      match skip with
      | S k => replace_go old new k t
      | O =>
          if String.prefix old s
          then new +:+ replace_go old new (String.length old - 1) t
          else String c (replace_go old new 0 t)
      end
  end.

Definition replace (old new s : string) : string := replace_go old new 0 s.

(** [os.path.join(a, b)] of [posixpath] *)
Definition path_join (a b : string) : string :=
  if String.prefix "/" b then b
  else if String.eqb a "" || endswith a "/" then a +:+ b
  else a +:+ "/" +:+ b.

Definition get_user_file (users_dir username : string) : string :=
  path_join users_dir (username +:+ "_habits.json").

Definition get_goals_file (users_dir username : string) : string :=
  path_join users_dir (username +:+ "_goals.json").

(** The order of [sorted] on strings: by code point, a prefix first. *)
Definition str_le (a b : string) : Prop := String.leb a b = true.

#[global] Instance str_le_dec a b : Decision (str_le a b).
Proof. unfold str_le. apply _. Defined.

(** [listdir] is [None] when [users_dir] does not exist, and else the names
    that [os.listdir] gives. *)
Definition get_all_users (listdir : option (list string)) : list string :=
  let users :=
    match listdir with
    | Some filenames =>
        omap (λ filename,
                if endswith filename "_habits.json"
                then Some (replace "_habits.json" "" filename)
                else None)
          filenames
    | None => []
    end in
  merge_sort str_le users.

End AuthService.

(** *** services/voice_service.py: the retries of the recording

    What one attempt to record and recognise meets is an argument: the text
    that the recogniser returns, or the exception that the attempt raises. *)

Module VoiceService.

Inductive outcome :=
| Recognized (text : string)
| UnknownValueError
| RequestError
| OSError
| OtherError.

Section Recording.
(** The outcome of the attempt with a given number, from 0 on. *)
Variable attempt_outcome : Z → outcome.
(** What the user types into the fallback input, and whether the button
    next to it is pressed. *)
Variable fallback_text : string.
Variable fallback_button : bool.

Definition _fallback_text_input : string :=
  if negb (String.eqb fallback_text "") && fallback_button then fallback_text
  else "".

(** [for attempt in range(max_retries)], from [attempt] on, with [rounds]
    rounds left; the empty string after the loop. *)
Fixpoint recording_loop (rounds : nat) (attempt max_retries : Z) : string :=
  match rounds with
  | O => ""
  | S rounds =>
      match attempt_outcome attempt with
      | Recognized text => text
      | UnknownValueError =>
          if attempt <? max_retries - 1
          then recording_loop rounds (attempt + 1) max_retries
          else _fallback_text_input
      | RequestError =>
          if attempt <? max_retries - 1
          then recording_loop rounds (attempt + 1) max_retries
          else ""
      | OSError => ""
      | OtherError =>
          if attempt <? max_retries - 1
          then recording_loop rounds (attempt + 1) max_retries
          else ""
      end
  end.

Definition _robust_voice_recording (duration max_retries : Z) : string :=
  recording_loop (Z.to_nat max_retries) 0 max_retries.

End Recording.

(** An attempt after which the loop goes on, when it is not the last. *)
Definition retried (o : outcome) : Prop :=
  o = UnknownValueError ∨ o = RequestError ∨ o = OtherError.

End VoiceService.

(** *** From the command of the interpreter to the command of the gate

    [handle_habit_action] reads the four entries of [parsed_command.to_dict()];
    the entries have the declared types when this gives a command. *)
Definition command_data_of (c : VoiceCommand) : option command_data :=
  match intent c, habits c, duration c, target c with
  | PStr i, PList hs, PStr d, PInt t =>
      hs ← mapM (λ h, match h with PStr s => Some s | _ => None end) hs;
      Some {| cd_intent := i; cd_habits := hs; cd_duration := d; cd_target := t |}
  | _, _, _, _ => None
  end.

(** *** More sample data for the examples *)

Definition sample_log_yoga : command_data :=
  {| cd_intent := "log"; cd_habits := ["yoga"]; cd_duration := "20 minutes";
     cd_target := 0 |}.

Definition sample_add_coding : command_data :=
  {| cd_intent := "add"; cd_habits := ["coding"; "yoga"]; cd_duration := "";
     cd_target := 0 |}.

Definition sample_goal_reading : command_data :=
  {| cd_intent := "set_goal"; cd_habits := ["reading"]; cd_duration := "";
     cd_target := 3 |}.

(** The session of the samples after the page has run without a button. *)
Definition sample_idle_session : session_state :=
  {| habit_logs := [completed_at "yoga" "2024-01-02 18:00:00";
                    completed_at "reading" "2024-01-03 07:30:00"];
     habit_goals :=
       Some {[ "yoga" := {| target_per_week := 6; created := "2024-01-01T09:00:00";
                            category := Helpers.get_habit_category "yoga" |} ]};
     pending_action := None;
     show_dashboard := false;
     effects := [] |}.

Definition sample_query_yoga : command_data :=
  {| cd_intent := "query"; cd_habits := ["yoga"]; cd_duration := "";
     cd_target := 0 |}.

(** * Properties *)

(** ** Dictionaries *)

Lemma dict_get_set_eq k v d : Dict.get k (Dict.set k v d) = Some v.
Proof.
  induction d as [|[k' v'] d IH]; simpl.
  - by rewrite String.eqb_refl.
  - destruct (String.eqb k k') eqn:E; simpl; rewrite E; done.
Qed.

Lemma dict_get_set_ne k k' v d :
  k ≠ k' → Dict.get k (Dict.set k' v d) = Dict.get k d.
Proof.
  intros Hne. induction d as [|[k0 v0] d IH]; simpl.
  - destruct (String.eqb k k') eqn:E; [|done].
    by apply String.eqb_eq in E.
  - destruct (String.eqb k' k0) eqn:E; simpl.
    + apply String.eqb_eq in E as <-.
      destruct (String.eqb k k') eqn:E'; [|done].
      by apply String.eqb_eq in E'.
    + by rewrite IH.
Qed.

Lemma dict_get_setdefault_ne k k' v d :
  k ≠ k' → Dict.get k (Dict.setdefault k' v d) = Dict.get k d.
Proof.
  intros Hne. unfold Dict.setdefault.
  destruct (Dict.has k' d); [done|]. by apply dict_get_set_ne.
Qed.

(** ** Text *)

Example lower_ex : Text.lower "Set GOAL for Reading 5" = "set goal for reading 5".
Proof. reflexivity. Qed.

Example strip_ex : Text.strip "  a b  " = "a b".
Proof. reflexivity. Qed.

(** ** The matcher *)

Section Matcher.
Import Re.

(** [findall] never runs out of fuel: more of it changes nothing. *)
Lemma findall_from_fuel r fuel1 fuel2 s :
  (length s < fuel1)%nat → (length s < fuel2)%nat →
  findall_from fuel1 r s = findall_from fuel2 r s.
Proof.
  revert fuel2 s. induction fuel1 as [|fuel1 IH]; intros [|fuel2] s H1 H2; try lia.
  simpl. destruct (match_at r s) as [m|].
  - destruct (length (m_rest m) <? length s)%nat eqn:E.
    + apply Nat.ltb_lt in E. f_equal. apply IH; lia.
    + f_equal. destruct s as [|c t]; [done|]. simpl in *. apply IH; lia.
  - destruct s as [|c t]; [done|]. simpl in *. apply IH; lia.
Qed.

Example findall_numbers : findall digits1 "ab 12 c345" = ["12"; "345"].
Proof. reflexivity. Qed.

Example search_duration :
  m_text <$> search AIService.DURATION_PATTERN "i did yoga for 30  minutes today"
  = Some "30  minutes".
Proof. reflexivity. Qed.

Lemma many_inv {R} p least s (k : list ascii → option R) res :
  many p least s k = Some res →
  ∃ m, (least ≤ m ≤ length s)%nat
    ∧ Forall (λ c, p c = true) (take m s)
    ∧ k (drop m s) = Some res.
Proof.
  revert least. induction s as [|c t IH]; intros least; simpl.
  - destruct least; [|done]. intros Hk. exists 0%nat. eauto.
  - assert (match least with O => k (c :: t) | S _ => None end = Some res →
            ∃ m, (least ≤ m ≤ S (length t))%nat
              ∧ Forall (λ c, p c = true) (take m (c :: t))
              ∧ k (drop m (c :: t)) = Some res) as Hstop.
    { destruct least; [|done]. intros Hk. exists 0%nat.
      split; [lia|]. split; [constructor|done]. }
    destruct (p c) eqn:Hc; [|done].
    destruct (many p (pred least) t k) as [r|] eqn:Hm; simpl; [|done].
    intros [= ->]. apply IH in Hm as (m & Hle & Hall & Hk).
    exists (S m). split; [lia|]. split; [by constructor|done].
Qed.

(** The matcher keeps "group [i] holds characters of class [P] only". *)
Lemma run_group_class {R} i P r :
  group_class i P r →
  ∀ s g (k : list ascii → groups → option R) res,
    run r s g k = Some res →
    (∀ w, g !! i = Some w → Forall (λ c, P c = true) w) →
    ∃ s' g', (∀ w, g' !! i = Some w → Forall (λ c, P c = true) w)
      ∧ k s' g' = Some res.
Proof.
  induction r as [|l|p|p least|r1 IH1 r2 IH2|r1 IH1 r2 IH2|r1 IH1|j r1 IH1];
    simpl; intros Hcl s g k res Hrun Hg.
  - eauto.
  - destruct (strip_prefix _ _); [eauto|done].
  - destruct s as [|c t]; [done|]. destruct (p c); [eauto|done].
  - apply many_inv in Hrun as (m & _ & _ & Hk). eauto.
  - destruct Hcl as [Hc1 Hc2].
    apply (IH1 Hc1) in Hrun as (s1 & g1 & Hg1 & Hrun); [|done].
    by apply (IH2 Hc2) in Hrun.
  - destruct Hcl as [Hc1 Hc2].
    destruct (run r1 s g k) eqn:H1; simpl in Hrun.
    + injection Hrun as ->. by apply (IH1 Hc1) in H1.
    + by apply (IH2 Hc2) in Hrun.
  - destruct (run r1 s g k) eqn:H1; simpl in Hrun.
    + injection Hrun as ->. by apply (IH1 Hcl) in H1.
    + eauto.
  - destruct (decide (j = i)) as [->|Hne].
    + destruct Hcl as [least ->]. simpl in Hrun.
      apply many_inv in Hrun as (m & [_ Hm] & Hall & Hk).
      rewrite length_drop in Hk.
      replace (length s - (length s - m))%nat with m in Hk by lia.
      exists (drop m s), (<[i := take m s]> g). split; [|done].
      intros w. rewrite lookup_insert_eq. by intros [= <-].
    + apply (IH1 Hcl) in Hrun as (s' & g' & Hg' & Hk); [|done].
      exists s', (<[j := take (length s - length s') s]> g'). split; [|done].
      intros w. rewrite lookup_insert_ne by done. apply Hg'.
Qed.

Lemma strip_prefix_app p s s' : strip_prefix p s = Some s' → s = p ++ s'.
Proof.
  revert s. induction p as [|a p IH]; intros [|b s]; simpl; try done.
  - by intros [= <-].
  - by intros [= <-].
  - destruct (Ascii.eqb_spec a b) as [->|]; [|done].
    intros ->%IH. done.
Qed.

(** What the matcher consumes is a text the pattern denotes. *)
Lemma run_sound {R} r :
  ∀ s g (k : list ascii → groups → option R) res,
    run r s g k = Some res →
    ∃ w s' g', s = w ++ s' ∧ matches r w ∧ k s' g' = Some res.
Proof.
  induction r as [|l|p|p least|r1 IH1 r2 IH2|r1 IH1 r2 IH2|r1 IH1|j r1 IH1];
    simpl; intros s g k res Hrun.
  - exists [], s, g. split; [done|]. split; [constructor|done].
  - destruct (strip_prefix _ s) as [s'|] eqn:E; [|done].
    apply strip_prefix_app in E as ->.
    eexists _, s', g. split; [done|]. split; [constructor|done].
  - destruct s as [|c t]; [done|]. destruct (p c) eqn:Hc; [|done].
    exists [c], t, g. split; [done|]. split; [by constructor|done].
  - apply many_inv in Hrun as (m & [Hl Hm] & Hall & Hk).
    exists (take m s), (drop m s), g. split; [by rewrite take_drop|].
    split; [|done]. constructor; [done|]. rewrite length_take. lia.
  - apply IH1 in Hrun as (w1 & s1 & g1 & -> & Hm1 & Hrun).
    apply IH2 in Hrun as (w2 & s2 & g2 & -> & Hm2 & Hk).
    exists (w1 ++ w2), s2, g2. split; [by rewrite app_assoc|].
    split; [by constructor|done].
  - destruct (run r1 s g k) eqn:H1; simpl in Hrun.
    + injection Hrun as ->. apply IH1 in H1 as (w & s' & g' & -> & Hm & Hk).
      exists w, s', g'. split; [done|]. split; [by apply matches_alt_l|done].
    + apply IH2 in Hrun as (w & s' & g' & -> & Hm & Hk).
      exists w, s', g'. split; [done|]. split; [by apply matches_alt_r|done].
  - destruct (run r1 s g k) eqn:H1; simpl in Hrun.
    + injection Hrun as ->. apply IH1 in H1 as (w & s' & g' & -> & Hm & Hk).
      exists w, s', g'. split; [done|]. split; [by apply matches_opt_some|done].
    + exists [], s, g. split; [done|]. split; [apply matches_opt_none|done].
  - apply IH1 in Hrun as (w & s' & g' & -> & Hm & Hk).
    eexists w, s', _. split; [done|]. split; [by constructor|exact Hk].
Qed.

Lemma search_from_sound r s m :
  search_from r s = Some m →
  ∃ pre, s = pre ++ list_ascii_of_string (m_text m) ++ m_rest m
    ∧ matches r (list_ascii_of_string (m_text m)).
Proof.
  assert (∀ s0, match_at r s0 = Some m →
            s0 = list_ascii_of_string (m_text m) ++ m_rest m
            ∧ matches r (list_ascii_of_string (m_text m))) as Hat.
  { intros s0 Hm. unfold match_at in Hm.
    apply run_sound in Hm as (w & s' & g' & -> & Hw & [= <-]). simpl.
    rewrite list_ascii_of_string_of_list_ascii, length_app.
    replace (length w + length s' - length s')%nat with (length w) by lia.
    by rewrite take_app_length. }
  induction s as [|c t IH]; simpl.
  - destruct (match_at r []) eqn:E; simpl; [|done]. intros [= ->].
    exists []. by apply Hat.
  - destruct (match_at r (c :: t)) eqn:E; simpl.
    + intros [= ->]. exists []. by apply Hat.
    + intros (pre & -> & Hm)%IH. by exists (c :: pre).
Qed.

(** What [re.search] reports is a piece of the text that the pattern
    denotes. *)
Lemma search_sound r text m :
  search r text = Some m →
  ∃ pre post, text = pre +:+ m_text m +:+ post
    ∧ matches r (list_ascii_of_string (m_text m)).
Proof.
  intros (pre & Heq & Hm)%search_from_sound.
  exists (string_of_list_ascii pre), (string_of_list_ascii (m_rest m)).
  split; [|done].
  rewrite <-(string_of_list_ascii_of_string text), Heq.
  rewrite <-(string_of_list_ascii_of_string (m_text m)) at 2.
  assert (∀ a b, string_of_list_ascii (a ++ b)
                 = string_of_list_ascii a +:+ string_of_list_ascii b) as Happ.
  { intros a b. induction a as [|x a IHa]; simpl; [done|]. by rewrite IHa. }
  by rewrite !Happ.
Qed.

Lemma search_from_match_at r s m :
  search_from r s = Some m → ∃ s0, match_at r s0 = Some m.
Proof.
  induction s as [|c t IH]; simpl.
  - destruct (match_at r []) eqn:E; simpl; [intros [= <-]; eauto|done].
  - destruct (match_at r (c :: t)) eqn:E; simpl; [intros [= <-]; eauto|done].
Qed.

(** A group that [re.search] reports for a pattern of [group_class i P] is
    made of characters of [P]. *)
Lemma search_group_class i P r text m w :
  group_class i P r →
  search r text = Some m →
  m_groups m !! i = Some w →
  forallb P (list_ascii_of_string w) = true.
Proof.
  intros Hcl [s0 Hm]%search_from_match_at Hw.
  unfold match_at in Hm.
  apply (run_group_class i P r Hcl) in Hm as (s' & g' & Hg' & [= <-]).
  - simpl in Hw. rewrite lookup_fmap in Hw.
    destruct (g' !! i) as [w'|] eqn:E; [|done]. injection Hw as <-.
    rewrite list_ascii_of_string_of_list_ascii.
    apply forallb_forall. intros c Hc.
    specialize (Hg' _ eq_refl). rewrite Forall_forall in Hg'.
    by apply Hg', list_elem_of_In.
  - intros w'. by rewrite lookup_empty.
Qed.





End Matcher.

#[local] Arguments Dict.set : simpl never.
#[local] Arguments Dict.setdefault : simpl never.

(** ** The interpreter *)

Section Interpreter.
Import AIService.

Lemma VoiceCommand_of_command_dict i hs d t :
  VoiceCommand_of (command_dict i hs d t)
  = Ok {| intent := PStr i; habits := str_list hs; duration := PStr d;
          target := PInt t |}.
Proof. reflexivity. Qed.


Lemma simple_parse_shape text :
  ∃ i hs d t, _simple_parse text = command_dict i hs d t
    ∧ Text.mem i SPEC_INTENTS = true
    ∧ Forall (λ h, h ∈ COMMON_HABITS) hs.
Proof.
  unfold _simple_parse.
  destruct (Text.any_in DASHBOARD_KEYWORDS _).
  { by exists "dashboard", [], "", 0. }
  match goal with
  | |- context [filter ?P COMMON_HABITS] =>
      assert (Forall (λ h, h ∈ COMMON_HABITS) (filter P COMMON_HABITS)) as Hsub
        by (apply Forall_forall; intros h [_ ?]%list_elem_of_filter; done)
  end.
  repeat match goal with
  | |- context [if ?b then _ else _] => destruct b
  end; cbn beta iota; eauto 10.
Qed.

(** What [_simple_parse] returns always makes a command. *)
Lemma simple_parse_command text :
  ∃ cmd, VoiceCommand_of (_simple_parse text) = Ok cmd
    ∧ is_intent (intent cmd) = true ∧ taxonomy_list (habits cmd).
Proof.
  destruct (simple_parse_shape text) as (i & hs & d & t & -> & Hi & Hhs).
  rewrite VoiceCommand_of_command_dict. eexists; split; [done|].
  split; [done|]. by exists hs.
Qed.



Lemma goal_patterns_some ps text d :
  goal_patterns ps text = Some d →
  ∃ habit n, habit ∈ COMMON_HABITS ∧ d = goal_dict habit n.
Proof.
  induction ps as [|p ps IH]; simpl; [done|].
  destruct (search p text) as [m|]; [|done].
  destruct (m_groups m !! 1%nat) as [habit|]; [|done].
  destruct (m_groups m !! 2%nat) as [tgt|]; [|done].
  unfold Text.mem. case_bool_decide; [|done].
  intros [= <-]. eauto.
Qed.

Lemma validate_fields data d :
  validate data = Ok d →
  ∃ d0, data = PDict d0
    ∧ Dict.get "intent" d = Dict.get "intent" d0
    ∧ ∀ v, Dict.get "habits" d = Some v → taxonomy_list v.
Proof.
  destruct data as [|b|n|x|s|l|d0]; simpl; try done.
  { by destruct (Text.contains _ _). }
  { by destruct (existsb _ _). }
  intros Hd. exists d0. split; [done|].
  destruct (Dict.get "habits" d0) as [v0|] eqn:Hh; simpl in Hd.
  - destruct (iter_strings v0) as [hs|]; simpl in Hd; [|done].
    injection Hd as <-.
    split; [by rewrite !dict_get_setdefault_ne, dict_get_set_ne by done|].
    intros v. rewrite !dict_get_setdefault_ne, dict_get_set_eq by done.
    intros [= <-]. eexists; split; [done|].
    apply Forall_forall. intros h [Hm _]%list_elem_of_filter.
    unfold Text.mem in Hm. by apply bool_decide_eq_true in Hm.
  - injection Hd as <-.
    split; [by rewrite !dict_get_setdefault_ne by done|].
    intros v. rewrite !dict_get_setdefault_ne by done. by rewrite Hh.
Qed.



Lemma GOAL_PATTERNS_group_class :
  Forall (group_class 1 Text.is_word) GOAL_PATTERNS.
Proof.
  unfold GOAL_PATTERNS.
  repeat (apply Forall_cons_2;
    [cbn; repeat split; try (case_decide; [by eexists|done])|]).
  apply Forall_nil_2.
Qed.

Lemma goal_patterns_single_word ps text d :
  Forall (group_class 1 Text.is_word) ps →
  goal_patterns ps text = Some d →
  ∃ habit n, d = goal_dict habit n
    ∧ habit ∈ COMMON_HABITS ∧ single_word habit = true.
Proof.
  induction 1 as [|p ps Hp Hps IH]; simpl; [done|].
  destruct (search p text) as [m|] eqn:Hs; [|done].
  destruct (m_groups m !! 1%nat) as [habit|] eqn:Hh; [|done].
  destruct (m_groups m !! 2%nat) as [tgt|]; [|done].
  unfold Text.mem. case_bool_decide; [|done].
  intros [= <-]. exists habit, (Text.int_of_digits tgt).
  split; [done|]. split; [done|].
  exact (search_group_class 1 Text.is_word p text m habit Hp Hs Hh).
Qed.

(** C10. Whatever the text, when step 1 (the loop over [GOAL_PATTERNS])
    returns, the habit of the [set_goal] dict is a taxonomy name captured by
    [\w+]: a single word token, so none of the multi-word taxonomy habits
    (drinking water, sleep early, learning english, calling family, ...).
    A goal phrasing that names such a habit is therefore left to the later
    steps. *)
Theorem goal_step_single_word_only text d :
  goal_patterns GOAL_PATTERNS text = Some d →
  ∃ habit n, d = goal_dict habit n
    ∧ habit ∈ COMMON_HABITS
    ∧ single_word habit = true
    ∧ habit ∉ MULTI_WORD_HABITS.
Proof.
  intros (habit & n & -> & Hin & Hw)%goal_patterns_single_word;
    [|apply GOAL_PATTERNS_group_class].
  exists habit, n. repeat split; try done.
  intros Hm. unfold MULTI_WORD_HABITS in Hm.
  repeat (apply elem_of_cons in Hm as [->|Hm]; [discriminate Hw|]).
  by apply elem_of_nil in Hm.
Qed.

Lemma goal_step_single_word_only_witness :
  goal_patterns GOAL_PATTERNS "set goal for reading 5 times per week"
    = Some (goal_dict "reading" 5)
  ∧ ∃ habit n, goal_dict "reading" 5 = goal_dict habit n
      ∧ habit ∈ COMMON_HABITS
      ∧ single_word habit = true
      ∧ habit ∉ MULTI_WORD_HABITS.
Proof.
  split; [reflexivity|].
  apply (goal_step_single_word_only "set goal for reading 5 times per week").
  reflexivity.
Defined.

Example goal_step_drinking_water :
  goal_patterns GOAL_PATTERNS "set goal for drinking water 5 times per week" = None.
Proof. reflexivity. Qed.



(** The duration the fallback reports is empty or a piece of the lowercased
    text that the duration pattern denotes. *)
Lemma simple_parse_duration text d :
  Dict.get "duration" (_simple_parse text) = Some (PStr d) →
  d = "" ∨ ∃ pre post, Text.lower text = pre +:+ d +:+ post
             ∧ matches DURATION_PATTERN (list_ascii_of_string d).
Proof.
  unfold _simple_parse.
  destruct (Text.any_in DASHBOARD_KEYWORDS _).
  { intros [= <-]. by left. }
  destruct (if Text.contains "add" _ || _ then _ else _) as [i t]. simpl.
  destruct (search DURATION_PATTERN _) as [m|] eqn:E; intros [= <-]; [|by left].
  right. by apply search_sound.
Qed.


End Interpreter.

(** ** The calendar *)

Section CalendarFacts.
Import Calendar.

Lemma days_before_year_nonneg y : 1 ≤ y → 0 ≤ days_before_year y.
Proof.
  intros Hy. unfold days_before_year.
  assert ((y - 1) / 100 ≤ (y - 1) / 4) by (apply Z.div_le_compat_l; lia).
  assert (0 ≤ (y - 1) / 400) by (apply Z.div_pos; lia).
  lia.
Qed.

Lemma days_in_month_pos y m : 0 < days_in_month y m.
Proof.
  unfold days_in_month.
  repeat match goal with |- context [if ?b then _ else _] => destruct b end; lia.
Qed.

Lemma days_before_month_nonneg y m : 0 ≤ days_before_month y m.
Proof.
  unfold days_before_month.
  induction (Z.to_nat (m - 1)) as [|n IH]; cbn [days_before_month_go]; [done|].
  pose proof (days_in_month_pos y (Z.of_nat (S n))). lia.
Qed.

(** A date that [date] builds is not before [date.min]. *)
Lemma date_ordinal_pos y m d o : date y m d = Ok o → date_min ≤ o.
Proof.
  unfold date, date_min, ymd2ord.
  destruct (_ && _) eqn:E; [|done]. intros [= <-].
  repeat (apply andb_true_iff in E as [E ?]).
  pose proof (days_before_year_nonneg y). pose proof (days_before_month_nonneg y m).
  lia.
Qed.

Lemma strptime_date_pos s o : strptime_date s = Ok o → date_min ≤ o.
Proof.
  unfold strptime_date. destruct (full_match _ s) as [m|]; simpl; [|done].
  apply date_ordinal_pos.
Qed.

Lemma week_start_in_calendar now :
  date_min ≤ dt_date now →
  date_min ≤ dt_date (AnalyticsService.week_start now) ≤ dt_date now.
Proof.
  unfold AnalyticsService.week_start, weekday, date_min. simpl. intros Hn.
  pose proof (Z.mod_pos_bound (dt_date now + 6) 7 ltac:(lia)).
  pose proof (Z.div_mod (dt_date now + 6) 7 ltac:(lia)).
  assert (1 ≤ (dt_date now + 6) / 7) by (apply Z.div_le_lower_bound; lia).
  lia.
Qed.

End CalendarFacts.

(** ** The streak engine *)

Section Streaks.
Import Calendar AnalyticsService.

#[local] Instance Zge_total : Total Z.ge.
Proof. intros x y. lia. Qed.
#[local] Instance Zge_trans : Transitive Z.ge.
Proof. intros x y z. lia. Qed.

Lemma sorted_ge_nodup_strict (l : list Z) :
  Sorted Z.ge l → NoDup l → StronglySorted (λ a b, b < a) l.
Proof.
  intros Hs%Sorted_StronglySorted Hn; [|apply _].
  induction Hs as [|x l Hs IH Hx]; [constructor|].
  apply NoDup_cons in Hn as [Hx' Hn]. constructor; [by apply IH|].
  apply Forall_forall. intros y Hy. rewrite Forall_forall in Hx.
  specialize (Hx y Hy). assert (x ≠ y) by (by intros ->). lia.
Qed.

Lemma habit_dates_sorted logged habit :
  StronglySorted (λ a b, b < a) (habit_dates logged habit).
Proof.
  unfold habit_dates. cbv zeta. apply sorted_ge_nodup_strict.
  - apply Sorted_merge_sort. apply _.
  - rewrite merge_sort_Permutation. apply NoDup_elements.
Qed.

Lemma elem_of_habit_dates logged habit d :
  d ∈ habit_dates logged habit
  ↔ ∃ log, log ∈ logged ∧ Log.habit log = habit ∧ log_date log = Some d.
Proof.
  unfold habit_dates. cbv zeta.
  rewrite merge_sort_Permutation, elem_of_elements, elem_of_list_to_set,
    list_elem_of_omap.
  split; intros (log & Hin & H); exists log.
  - destruct (String.eqb_spec (Log.habit log) habit); [done|done].
  - destruct H as [-> ->]. by rewrite String.eqb_refl.
Qed.

(** The loop once the streak has begun: every date left is at most
    [current_date]. *)
Lemma streak_loop_run ds streak current_date :
  (0 < streak)%nat →
  StronglySorted (λ a b, b < a) ds →
  Forall (λ d, date_min < d ≤ current_date) ds →
  ∃ n, streak_loop ds streak current_date = Ok (streak + n)%nat
    ∧ (∀ i, 0 ≤ i < Z.of_nat n → current_date - i ∈ ds)
    ∧ current_date - Z.of_nat n ∉ ds.
Proof.
  unfold date_min. intros Hpos Hs. revert streak current_date Hpos.
  induction Hs as [|d ds Hs IH Hd]; intros streak c Hpos Hall.
  - exists 0%nat. simpl. split; [by rewrite Nat.add_0_r|].
    split; [lia|apply not_elem_of_nil].
  - apply Forall_cons in Hall as [[Hd1 Hdc] Hall]. simpl.
    rewrite Forall_forall in Hd.
    destruct (Z.eqb_spec d c) as [->|Hne].
    + unfold sub_days.
      replace (0 <? c - 1) with true by (symmetry; apply Z.ltb_lt; lia).
      simpl. destruct (IH (S streak) (c - 1)) as (n & Hn & Hin & Hout); [lia| |].
      { apply Forall_forall. intros y Hy. rewrite Forall_forall in Hall.
        specialize (Hall y Hy). specialize (Hd y Hy). lia. }
      exists (S n). split; [rewrite Hn; f_equal; lia|]. split.
      * intros i Hi. destruct (decide (i = 0)) as [->|].
        -- rewrite Z.sub_0_r. by left.
        -- right. replace (c - i) with (c - 1 - (i - 1)) by lia.
           apply Hin. lia.
      * intros [Heq|Hin']%elem_of_cons; [lia|].
        apply Hout. replace (c - 1 - Z.of_nat n) with (c - Z.of_nat (S n)) by lia. done.
    + destruct (Z.ltb_spec d c) as [Hlt|Hge]; [|lia].
      replace (streak =? 0)%nat with false by (symmetry; apply Nat.eqb_neq; lia).
      rewrite andb_false_r. exists 0%nat.
      split; [by rewrite Nat.add_0_r|]. split; [lia|].
      rewrite Z.sub_0_r. intros [->|Hin]%elem_of_cons; [lia|].
      specialize (Hd c Hin). lia.
Qed.

(** The streak that starts at the newest date [d] of the list. *)
Lemma streak_loop_started d ds :
  StronglySorted (λ a b, b < a) (d :: ds) →
  Forall (λ d, date_min < d) (d :: ds) →
  ∃ n, streak_loop ds 1 (d - 1) = Ok (S n)
    ∧ is_streak (λ x, x ∈ d :: ds) d (S n).
Proof.
  intros [Hs Hd]%StronglySorted_inv [Hd1 Hall]%Forall_cons.
  destruct (streak_loop_run ds 1 (d - 1)) as (n & Hn & Hin & Hout); [lia|done| |].
  { rewrite Forall_forall in Hd, Hall. apply Forall_forall. intros y Hy.
    specialize (Hd y Hy). specialize (Hall y Hy). lia. }
  exists n. split; [done|]. split.
  - intros i Hi. destruct (decide (i = 0)) as [->|].
    + rewrite Z.sub_0_r. by left.
    + right. replace (d - i) with (d - 1 - (i - 1)) by lia. apply Hin. lia.
  - intros [Heq|Hin']%elem_of_cons; [lia|].
    apply Hout. by replace (d - 1 - Z.of_nat n) with (d - Z.of_nat (S n)) by lia.
Qed.

(** The loop from its start: the streak ends today, or yesterday when
    today is missing, and is 0 otherwise. *)
Lemma streak_loop_start ds today :
  StronglySorted (λ a b, b < a) ds →
  Forall (λ d, date_min < d) ds →
  ∃ n, streak_loop ds 0 today = Ok n
    ∧ (today ∈ ds → (0 < n)%nat ∧ is_streak (λ x, x ∈ ds) today n)
    ∧ (today ∉ ds → today - 1 ∈ ds →
       (0 < n)%nat ∧ is_streak (λ x, x ∈ ds) (today - 1) n)
    ∧ (today ∉ ds → today - 1 ∉ ds → n = 0%nat).
Proof.
  intros Hs. induction Hs as [|d ds Hs IH Hd]; intros Hall.
  { exists 0%nat. split; [done|]. rewrite !elem_of_nil. tauto. }
  pose proof (streak_loop_started d ds ltac:(by constructor) Hall)
    as (n' & Hrun & Hstreak).
  pose proof Hall as [Hd1 Hall']%Forall_cons. unfold date_min in Hd1.
  rewrite Forall_forall in Hd. simpl.
  destruct (Z.eqb_spec d today) as [->|Hne].
  - unfold sub_days. replace (0 <? today - 1) with true by (symmetry; apply Z.ltb_lt; lia).
    simpl. exists (S n'). split; [done|].
    split; [intros _; split; [lia|done]|].
    split; intros []; by left.
  - destruct (Z.ltb_spec d today) as [Hlt|Hge].
    + assert (today ∉ d :: ds) as Hnot.
      { intros [->|Hin]%elem_of_cons; [lia|]. specialize (Hd _ Hin). lia. }
      destruct (Z.eqb_spec (today - d) 1) as [Heq|Hfar]; simpl.
      * unfold sub_days. replace (0 <? d - 1) with true by (symmetry; apply Z.ltb_lt; lia).
        simpl. replace (today - 1) with d by lia.
        exists (S n'). split; [done|].
        split; [done|]. split; [intros _ _; split; [lia|done]|].
        intros _ []. by left.
      * exists 0%nat. split; [done|]. split; [done|].
        split; [|done]. intros _ [Heq|Hin]%elem_of_cons; [lia|].
        specialize (Hd _ Hin). lia.
    + destruct (IH Hall') as (n & Hn & H1 & H2 & H3). exists n. split; [done|].
      assert (∀ a m, a ≤ today →
                is_streak (λ x, x ∈ ds) a m → is_streak (λ x, x ∈ d :: ds) a m) as Hlift.
      { intros a m Ha [Hin Hout]. split.
        - intros i Hi. right. by apply Hin.
        - intros [Heq|Hin']%elem_of_cons; [lia|done]. }
      assert (∀ a, a ≤ today → a ∈ d :: ds ↔ a ∈ ds) as Hmem.
      { intros a Ha. rewrite elem_of_cons. split; [intros [?|?]; [lia|done]|auto]. }
      rewrite !Hmem by lia.
      split; [intros Ht; destruct (H1 Ht); split; [done|apply Hlift; [lia|done]]|].
      split; [|done].
      intros Ht Hy; destruct (H2 Ht Hy); split; [done|apply Hlift; [lia|done]].
Qed.

(** The loop over [unique_habits]: when no walk raises, it records the
    positive streaks and nothing else. *)
Lemma fold_streaks logged today (f : string → nat) (X : gset string) :
  (∀ h, streak_loop (habit_dates logged h) 0 today = Ok (f h)) →
  ∃ m : gmap string nat, set_fold
         (λ habit acc,
            streaks ← acc;
            streak ← streak_loop (habit_dates logged habit) 0 today;
            Ok (if (0 <? streak)%nat then <[habit := streak]> streaks else streaks))
         (Ok ∅) X = Ok m
    ∧ ∀ h, m !! h = if decide (h ∈ X ∧ (0 < f h)%nat) then Some (f h) else None.
Proof.
  intros Hf. revert X.
  apply (set_fold_ind_L (λ r (Y : gset string), ∃ m : gmap string nat, r = Ok m
    ∧ ∀ h, m !! h = if decide (h ∈ Y ∧ (0 < f h)%nat) then Some (f h) else None)).
  - exists ∅. split; [done|]. intros h. rewrite lookup_empty.
    case_decide as H; [|done]. destruct H as [[]%not_elem_of_empty _].
  - intros x Y r Hx (m & -> & Hm). simpl. rewrite Hf. simpl.
    eexists; split; [done|]. intros h.
    destruct (Nat.ltb_spec 0 (f x)) as [Hpos|Hzero].
    + rewrite lookup_insert. case_decide as Hxh.
      * subst h. rewrite decide_True; [done|].
        split; [|done]. apply elem_of_union_l. by apply elem_of_singleton.
      * rewrite Hm.
        assert (h ∈ Y ∧ (0 < f h)%nat ↔ h ∈ {[x]} ∪ Y ∧ (0 < f h)%nat) as Hiff.
        { rewrite elem_of_union, elem_of_singleton. intuition congruence. }
        destruct (decide (h ∈ Y ∧ _)), (decide (h ∈ {[x]} ∪ Y ∧ _)); tauto || done.
    + rewrite Hm.
      assert (h ∈ Y ∧ (0 < f h)%nat ↔ h ∈ {[x]} ∪ Y ∧ (0 < f h)%nat) as Hiff.
      { rewrite elem_of_union, elem_of_singleton.
        split; [tauto|]. intros [[->|?] ?]; [lia|done]. }
      destruct (decide (h ∈ Y ∧ _)), (decide (h ∈ {[x]} ∪ Y ∧ _)); tauto || done.
Qed.

Lemma logged_on_habit_dates habit_logs habit d :
  d ∈ habit_dates (filter (λ log, is_log log = true) habit_logs) habit
  ↔ logged_on habit_logs habit d.
Proof.
  rewrite elem_of_habit_dates. unfold logged_on.
  split; intros (log & H); exists log; rewrite list_elem_of_filter in *; tauto.
Qed.

(** The length of a streak is determined by its last day. *)
Lemma is_streak_unique (P : Z → Prop) last n m :
  is_streak P last n → is_streak P last m → n = m.
Proof.
  intros [Hn Hn'] [Hm Hm'].
  destruct (Nat.lt_trichotomy n m) as [Hlt|[Heq|Hgt]]; [|done|].
  - destruct Hn'. apply Hm. lia.
  - destruct Hm'. apply Hn. lia.
Qed.

Lemma is_streak_iff (P Q : Z → Prop) last n :
  (∀ x, P x ↔ Q x) → is_streak P last n → is_streak Q last n.
Proof.
  intros HPQ [Hin Hout]. split.
  - intros i Hi. by apply HPQ, Hin.
  - by rewrite <-HPQ.
Qed.

Lemma calculate_streaks_general habit_logs today :
  (∀ log, log ∈ habit_logs → is_log log = true → log_date log ≠ Some date_min) →
  ∃ streaks, calculate_streaks habit_logs today = Ok streaks
    ∧ ∀ habit,
        (logged_on habit_logs habit today →
         ∃ n, (0 < n)%nat ∧ streaks !! habit = Some n
           ∧ is_streak (logged_on habit_logs habit) today n)
      ∧ (¬ logged_on habit_logs habit today →
         logged_on habit_logs habit (today - 1) →
         ∃ n, (0 < n)%nat ∧ streaks !! habit = Some n
           ∧ is_streak (logged_on habit_logs habit) (today - 1) n)
      ∧ (¬ logged_on habit_logs habit today →
         ¬ logged_on habit_logs habit (today - 1) →
         streaks !! habit = None).
Proof.
  intros Hmin.
  set (logged := filter (λ log, is_log log = true) habit_logs).
  assert (∀ h, Forall (λ d, date_min < d) (habit_dates logged h)) as Hlow.
  { intros h. apply Forall_forall. intros d Hd.
    apply logged_on_habit_dates in Hd as (log & Hin & Hlog & _ & Hdate).
    specialize (Hmin log Hin Hlog).
    assert (date_min ≤ d); [|assert (d ≠ date_min) by congruence; lia].
    unfold log_date in Hdate.
    destruct (strptime_date _) as [o|] eqn:E; [|done].
    injection Hdate as ->. by apply strptime_date_pos in E. }
  pose proof (λ h, streak_loop_start (habit_dates logged h) today
                     (habit_dates_sorted logged h) (Hlow h)) as Hwalk.
  set (f := λ h, match streak_loop (habit_dates logged h) 0 today with
                 | Ok n => n
                 | Raise _ => 0%nat
                 end).
  assert (∀ h, streak_loop (habit_dates logged h) 0 today = Ok (f h)) as Hf.
  { intros h. unfold f. by destruct (Hwalk h) as (n & -> & _). }
  destruct (fold_streaks logged today f
              (list_to_set (Log.habit <$> logged)) Hf) as (m & Hfold & Hm).
  assert (∀ h d, logged_on habit_logs h d →
            h ∈ (list_to_set (Log.habit <$> logged) : gset string)) as Hdom.
  { intros h d (log & Hin & Hlog & Hh & _).
    apply elem_of_list_to_set, list_elem_of_fmap. exists log.
    split; [done|]. by apply list_elem_of_filter. }
  assert (∀ h, (0 < f h)%nat → ∃ d, logged_on habit_logs h d) as Hsome.
  { intros h Hpos. destruct (Hwalk h) as (n & Hn & _ & _ & H3).
    assert (f h = n) as Hfn by (unfold f; by rewrite Hn).
    destruct (decide (today ∈ habit_dates logged h)) as [Ht|Ht].
    { exists today. by apply logged_on_habit_dates. }
    destruct (decide (today - 1 ∈ habit_dates logged h)) as [Hy|Hy].
    { exists (today - 1). by apply logged_on_habit_dates. }
    specialize (H3 Ht Hy). lia. }
  assert (∃ streaks, calculate_streaks habit_logs today = Ok streaks
            ∧ ∀ h, streaks !! h
                   = if decide (0 < f h)%nat then Some (f h) else None)
    as (streaks & -> & Hs).
  { destruct habit_logs as [|log0 rest] eqn:Hl.
    - exists ∅. split; [done|]. intros h. rewrite lookup_empty.
      case_decide as H; [|done].
      destruct (Hsome h H) as (d & log & []%elem_of_nil & _).
    - exists m. split; [exact Hfold|]. intros h. rewrite Hm.
      destruct (decide (0 < f h)%nat) as [Hpos|]; [|by rewrite decide_False by tauto].
      destruct (Hsome h Hpos) as [d Hd]. rewrite decide_True; eauto. }
  exists streaks. split; [done|]. intros h.
  destruct (Hwalk h) as (n & Hn & H1 & H2 & H3).
  assert (f h = n) as Hfn by (unfold f; by rewrite Hn).
  rewrite <-!(logged_on_habit_dates habit_logs h). fold logged.
  rewrite Hs, Hfn. split; [|split].
  - intros Ht. destruct (H1 Ht) as [Hpos Hst]. exists n. split; [done|].
    split; [by rewrite decide_True|].
    eapply is_streak_iff; [|exact Hst]. intros x. apply logged_on_habit_dates.
  - intros Ht Hy. destruct (H2 Ht Hy) as [Hpos Hst]. exists n. split; [done|].
    split; [by rewrite decide_True|].
    eapply is_streak_iff; [|exact Hst]. intros x. apply logged_on_habit_dates.
  - intros Ht Hy. rewrite decide_False; [done|]. specialize (H3 Ht Hy). lia.
Qed.

(** C3. For every event list in which no completion is dated 0001-01-01
    (where Python's date arithmetic ends) and every [today],
    [calculate_streaks] returns a mapping that gives each habit the number of
    consecutive days with a completion of that habit, ending today, or ending
    yesterday when there is none today but one yesterday; a habit with
    neither has no entry. Completions on 2024-01-01, 01-02 and 01-03 with
    today = 2024-01-03 give 3; on 01-01 and 01-03 only, 1; on yesterday only,
    1. *)
Theorem calculate_streaks_spec habit_logs today :
  (∀ log, log ∈ habit_logs → is_log log = true → log_date log ≠ Some date_min) →
  (∃ streaks, calculate_streaks habit_logs today = Ok streaks
    ∧ ∀ habit,
        (logged_on habit_logs habit today →
         ∃ n, (0 < n)%nat ∧ streaks !! habit = Some n
           ∧ is_streak (logged_on habit_logs habit) today n)
      ∧ (¬ logged_on habit_logs habit today →
         logged_on habit_logs habit (today - 1) →
         ∃ n, (0 < n)%nat ∧ streaks !! habit = Some n
           ∧ is_streak (logged_on habit_logs habit) (today - 1) n)
      ∧ (¬ logged_on habit_logs habit today →
         ¬ logged_on habit_logs habit (today - 1) →
         streaks !! habit = None))
  ∧ calculate_streaks
      [completed_at "reading" "2024-01-01 07:30:00";
       completed_at "reading" "2024-01-02 07:30:00";
       completed_at "reading" "2024-01-03 07:30:00"] (ymd2ord 2024 1 3)
    = Ok {[ "reading" := 3%nat ]}
  ∧ calculate_streaks
      [completed_at "reading" "2024-01-01 07:30:00";
       completed_at "reading" "2024-01-03 07:30:00"] (ymd2ord 2024 1 3)
    = Ok {[ "reading" := 1%nat ]}
  ∧ calculate_streaks
      [completed_at "reading" "2024-01-02 07:30:00"] (ymd2ord 2024 1 3)
    = Ok {[ "reading" := 1%nat ]}.
Proof.
  intros Hmin. split; [by apply calculate_streaks_general|].
  repeat split; vm_compute; reflexivity.
Qed.

Lemma calculate_streaks_spec_witness :
  ∃ streaks,
    calculate_streaks
      [completed_at "yoga" "2024-01-02 18:00:00";
       completed_at "yoga" "2024-01-03 18:00:00"] (ymd2ord 2024 1 3)
    = Ok streaks
    ∧ streaks !! "yoga" = Some 2%nat.
Proof.
  destruct (calculate_streaks_spec
              [completed_at "yoga" "2024-01-02 18:00:00";
               completed_at "yoga" "2024-01-03 18:00:00"] (ymd2ord 2024 1 3))
    as [(streaks & Hs & _) _].
  - intros log Hin _.
    apply elem_of_cons in Hin as [->|Hin]; [vm_compute; discriminate|].
    apply elem_of_cons in Hin as [->|Hin]; [vm_compute; discriminate|].
    by apply elem_of_nil in Hin.
  - exists streaks. split; [exact Hs|].
    vm_compute in Hs. injection Hs as <-. reflexivity.
Defined.

(** C7. The result of [calculate_streaks] is a function of the entries of
    type [log] and of [today], whatever the order of those entries: two event
    lists whose entries of type [log] are the same up to order give the same
    result. Entries of another type may be added, removed or moved. *)
Theorem calculate_streaks_log_entries_only l1 l2 today :
  filter (λ log, is_log log = true) l1 ≡ₚ filter (λ log, is_log log = true) l2 →
  calculate_streaks l1 today = calculate_streaks l2 today.
Proof.
  intros Hperm.
  assert (∀ l, calculate_streaks l today
    = set_fold
        (λ habit acc,
           streaks ← acc;
           streak ← streak_loop
                      (habit_dates (filter (λ log, is_log log = true) l) habit) 0 today;
           Ok (if (0 <? streak)%nat then <[habit := streak]> streaks else streaks))
        (Ok ∅)
        (list_to_set (Log.habit <$> filter (λ log, is_log log = true) l)
           : gset string)) as Hunfold.
  { intros [|log l]; [|done]. simpl. by rewrite set_fold_empty. }
  rewrite !Hunfold.
  assert (∀ habit, habit_dates (filter (λ log, is_log log = true) l1) habit
                   = habit_dates (filter (λ log, is_log log = true) l2) habit) as Hd.
  { intros habit. unfold habit_dates. cbv zeta. by rewrite Hperm. }
  rewrite Hperm. unfold set_fold. simpl.
  apply foldr_ext; [|done..]. intros habit acc. by rewrite Hd.
Qed.

Lemma calculate_streaks_log_entries_only_witness :
  calculate_streaks
    [ {| Log.habit := "yoga"; Log.action := "Added habit: yoga";
         Log.time := "2024-01-01 09:00:00"; Log.type := "add";
         Log.duration := None |};
      completed_at "yoga" "2024-01-02 18:00:00";
      completed_at "reading" "2024-01-03 07:30:00" ] (ymd2ord 2024 1 3)
  = calculate_streaks
      [ completed_at "reading" "2024-01-03 07:30:00";
        completed_at "yoga" "2024-01-02 18:00:00" ] (ymd2ord 2024 1 3).
Proof.
  apply calculate_streaks_log_entries_only.
  vm_compute. apply perm_swap.
Defined.

End Streaks.

(** ** Weekly progress *)

Section Weekly.
Import Calendar AnalyticsService.

(** Each round of the counting loop adds one to the habit of an entry that
    counts and leaves the other habits alone. *)
Lemma count_log_lookup start counts log habit :
  default 0 (count_log start counts log !! habit)
  = default 0 (counts !! habit) + (if counts_for start habit log then 1 else 0).
Proof.
  unfold count_log, counts_for.
  destruct (is_log log); simpl; [|lia].
  destruct (strptime_datetime (Log.time log)) as [t|]; [|rewrite andb_false_r; lia].
  destruct (dt_ge t start); [|rewrite andb_false_r; lia].
  rewrite andb_true_r. destruct (String.eqb_spec (Log.habit log) habit) as [->|Hne].
  - by rewrite lookup_insert_eq.
  - rewrite lookup_insert_ne by done. lia.
Qed.

Lemma weekly_counts_lookup start habit_logs counts habit :
  default 0 (foldl (count_log start) counts habit_logs !! habit)
  = default 0 (counts !! habit)
    + Z.of_nat (length (filter (λ log, counts_for start habit log = true) habit_logs)).
Proof.
  revert counts. induction habit_logs as [|log logs IH]; intros counts; simpl.
  - lia.
  - rewrite IH, count_log_lookup.
    destruct (counts_for start habit log) eqn:E.
    + rewrite filter_cons_True by done. simpl length. lia.
    + rewrite filter_cons_False by (by rewrite E). lia.
Qed.




Example week_boundary_2024 :
  strptime_datetime "2024-01-01 00:00:00" = Ok (week_start sample_now)
  ∧ counts_for (week_start sample_now) "reading"
      (completed_at "reading" "2023-12-31 23:59:59") = false
  ∧ counts_for (week_start sample_now) "reading"
      (completed_at "reading" "2024-01-01 00:00:00") = true.
Proof. repeat split; vm_compute; reflexivity. Qed.


End Weekly.

(** ** The confirmation gate and the executor *)

Section Executor.
Import Helpers HabitService.
Variable load_user_goals : string → gmap string HabitGoal.

Lemma filter_all {A} (P : A → Prop) `{∀ x, Decision (P x)} (l : list A) :
  (∀ x, x ∈ l → P x) → filter P l = l.
Proof.
  induction l as [|x l IH]; intros Hall; [done|].
  rewrite filter_cons_True by (apply Hall; by left).
  f_equal. apply IH. intros y Hy. apply Hall. by right.
Qed.

(** [removed_count > 0] says that some entry has the habit. *)
Lemma removed_count_positive (habit : string) (logs : list Log.t) :
  (0 <? length logs - length (filter (λ log, Log.habit log ≠ habit) logs))%nat = true
  ↔ ∃ log, log ∈ logs ∧ Log.habit log = habit.
Proof.
  rewrite Nat.ltb_lt. split.
  - intros Hpos. apply Exists_exists, dec_stable. intros Hno.
    rewrite filter_all in Hpos; [lia|].
    intros log Hin Hh. apply Hno, Exists_exists. eauto.
  - intros (log & Hin & Hh).
    pose proof (length_filter_lt (λ log, Log.habit log ≠ habit) logs log Hin) as Hlt.
    assert (length (filter (λ log, Log.habit log ≠ habit) logs) < length logs)%nat; [|lia].
    apply Hlt. by intros [].
Qed.


(** What the executor does with a pending [delete]. *)
Lemma execute_delete now st action :
  pending_action st = Some (Some action) →
  Pending.action_type action = "delete" →
  let habit := Pending.habit action in
  ∃ st', _execute_confirmed_action load_user_goals now st = Ok st'
    ∧ habit_logs st' = filter (λ log, Log.habit log ≠ habit) (habit_logs st)
    ∧ pending_action st' = None
    ∧ ((∃ log, log ∈ habit_logs st ∧ Log.habit log = habit) →
       habit_goals st' = delete habit <$> habit_goals st
       ∧ session_goal st' habit = None)
    ∧ ((∀ log, log ∈ habit_logs st → Log.habit log ≠ habit) →
       habit_logs st' = habit_logs st
       ∧ habit_goals st' = habit_goals st
       ∧ ∃ text, effects st'
           = effects st ++ [Warning text;
                            SaveUserData (Pending.user action) (habit_logs st);
                            Rerun]).
Proof.
  intros Hp Ht habit. unfold _execute_confirmed_action. rewrite Hp, Ht.
  cbn [String.eqb Ascii.eqb Bool.eqb]. fold habit.
  eexists; split; [done|].
  cbn [habit_logs set_habit_logs].
  destruct (0 <? _)%nat eqn:Hex;
    [apply removed_count_positive in Hex
    |apply not_true_iff_false in Hex; rewrite removed_count_positive in Hex].
  - assert (¬ ∀ log, log ∈ habit_logs st → Log.habit log ≠ habit) as Hnot.
    { intros Hno. destruct Hex as (l & ? & ?). by destruct (Hno l). }
    destruct (habit_goals st) as [goals|] eqn:Hg; cbn [habit_goals emit set_habit_logs];
      rewrite ?Hg.
    + case_decide as Hsome; simpl.
      * split; [done|]. split; [done|]. split; [|done].
        intros _. unfold session_goal. simpl. by rewrite lookup_delete_eq.
      * rewrite Hg. split; [done|]. split; [done|]. split; [|done].
        intros _. apply eq_None_not_Some in Hsome.
        unfold session_goal. simpl. rewrite Hg. simpl.
        by rewrite delete_id.
    + simpl. rewrite Hg. split; [done|]. split; [done|]. split; [|done].
      intros _. unfold session_goal. simpl. by rewrite Hg.
  - simpl. split; [done|]. split; [done|].
    split; [intros (l & ? & ?); destruct Hex; eauto|].
    intros Hno. rewrite filter_all by done. split; [done|]. split; [done|].
    eexists. by rewrite <-!app_assoc.
Qed.

(** What the executor does with a pending [add]: only entries of the habit
    are new, and the habit has an entry afterwards. *)
Lemma execute_add now st action :
  pending_action st = Some (Some action) →
  Pending.action_type action = "add" →
  let habit := Pending.habit action in
  ∃ st', _execute_confirmed_action load_user_goals now st = Ok st'
    ∧ filter (λ log, Log.habit log ≠ habit) (habit_logs st')
      = filter (λ log, Log.habit log ≠ habit) (habit_logs st)
    ∧ (∃ log, log ∈ habit_logs st' ∧ Log.habit log = habit)
    ∧ ((∀ log, log ∈ habit_logs st → Log.habit log ≠ habit) →
       ∃ added, habit_logs st' = habit_logs st ++ [added] ∧ Log.habit added = habit).
Proof.
  intros Hp Ht habit. unfold _execute_confirmed_action. rewrite Hp, Ht.
  cbn [String.eqb Ascii.eqb Bool.eqb]. fold habit.
  eexists; split; [done|]. unfold Text.mem. case_bool_decide as Hex.
  - simpl. split; [done|].
    apply list_elem_of_fmap in Hex as (log & Hh & Hin).
    split; [eauto|]. intros Hno. by destruct (Hno log Hin).
  - assert (∀ st0 : session_state,
              habit_logs (match DEFAULT_GOALS !! habit with
                          | Some goal =>
                              emit (Info ("🎯 Set default goal: " +:+ pretty goal
                                          +:+ " times per week"))
                                (set_habit_goal load_user_goals (Pending.user action)
                                   habit goal now st0)
                          | None => st0
                          end) = habit_logs st0) as Hlogs.
    { intros st0. by destruct (DEFAULT_GOALS !! habit). }
    simpl. rewrite Hlogs. simpl.
    split; [|split].
    + rewrite filter_app, filter_cons_False, filter_nil, app_nil_r; [done|].
      simpl. by intros [].
    + eexists. split; [apply elem_of_app; right; by left|done].
    + intros _. eauto.
Qed.

(** C6. A confirmed [delete] of habit [h] removes every entry whose habit is
    [h] and keeps the other entries as they are. When some entry matched,
    the goal of [h] goes too; when none matched, the log and the goals stay as
    they were and a warning is shown. Hence a confirmed [add] of [h] followed
    by a confirmed [delete] of [h] leaves the log without any entry of [h]
    (that is, as it was before, when [h] was new) and the session without a
    goal for [h]. *)
Theorem delete_removes_habit h :
  (∀ now st action,
     pending_action st = Some (Some action) →
     Pending.action_type action = "delete" →
     Pending.habit action = h →
     ∃ st', _execute_confirmed_action load_user_goals now st = Ok st'
       ∧ habit_logs st' = filter (λ log, Log.habit log ≠ h) (habit_logs st)
       ∧ pending_action st' = None
       ∧ ((∃ log, log ∈ habit_logs st ∧ Log.habit log = h) →
          habit_goals st' = delete h <$> habit_goals st
          ∧ session_goal st' h = None)
       ∧ ((∀ log, log ∈ habit_logs st → Log.habit log ≠ h) →
          habit_logs st' = habit_logs st
          ∧ habit_goals st' = habit_goals st
          ∧ ∃ text, effects st'
              = effects st ++ [Warning text;
                               SaveUserData (Pending.user action) (habit_logs st);
                               Rerun]))
  ∧ (∀ user d1 d2 now1 now2 st0,
       ∃ st1 st2,
         _handle_habit_confirmation load_user_goals h d1 "add" user now1 ClickYes st0
           = Ok st1
         ∧ _handle_habit_confirmation load_user_goals h d2 "delete" user now2 ClickYes st1
           = Ok st2
         ∧ habit_logs st2 = filter (λ log, Log.habit log ≠ h) (habit_logs st0)
         ∧ session_goal st2 h = None
         ∧ ((∀ log, log ∈ habit_logs st0 → Log.habit log ≠ h) →
            (∃ added, habit_logs st1 = habit_logs st0 ++ [added]
               ∧ Log.habit added = h)
            ∧ habit_logs st2 = habit_logs st0)).
Proof.
  split.
  - intros now st action Hp Ht <-. by apply execute_delete.
  - intros user d1 d2 now1 now2 st0. unfold _handle_habit_confirmation.
    cbn [String.eqb Ascii.eqb Bool.eqb].
    match goal with
    | |- context [_execute_confirmed_action _ now1 ?s] =>
        destruct (execute_add now1 s _ eq_refl eq_refl)
          as (st1 & H1 & Hkeep & Hhas & Hnew)
    end.
    cbn [Pending.habit habit_logs emit set_pending_action] in *.
    exists st1.
    match goal with
    | |- context [_execute_confirmed_action _ now2 ?s] =>
        destruct (execute_delete now2 s _ eq_refl eq_refl)
          as (st2 & H2 & Hlogs & _ & Hgoal & _)
    end.
    cbn [Pending.habit habit_logs emit set_pending_action] in *.
    exists st2. split; [done|]. split; [done|].
    split; [by rewrite Hlogs|]. split; [by apply Hgoal|].
    intros Hno. split; [by apply Hnew|].
    rewrite Hlogs, Hkeep. by apply filter_all.
Qed.

(** C8. With a pending action in the session: when more than 300 seconds
    have passed since its timestamp, [check_session_timeout] reports the
    timeout ([True]) and puts [None] in place of the pending action; the log,
    the goals and the recorded effects stay as they were, so nothing was
    executed, and the executor finds no action to run afterwards. When at
    most 300 seconds have passed, the check reports [False] and leaves the
    session, pending action included, as it is. *)
Theorem check_session_timeout_spec st now action :
  pending_action st = Some (Some action) →
  ((300 < now - Pending.timestamp action)%Q →
     ∃ st', check_session_timeout st now = (true, st')
       ∧ pending_action st' = Some None
       ∧ habit_logs st' = habit_logs st
       ∧ habit_goals st' = habit_goals st
       ∧ effects st' = effects st
       ∧ ∀ clock, _execute_confirmed_action load_user_goals clock st' = Raise TypeError)
  ∧ ((now - Pending.timestamp action <= 300)%Q →
     check_session_timeout st now = (false, st)).
Proof.
  intros Hp. unfold check_session_timeout. rewrite Hp. split.
  - intros Hlate.
    destruct (Qle_bool _ 300) eqn:E.
    { apply Qle_bool_iff in E. exfalso. eapply Qlt_not_le; eauto. }
    eexists; split; [done|]. repeat split; done.
  - intros Hearly. apply Qle_bool_iff in Hearly. by rewrite Hearly.
Qed.



End Executor.

Section ExecutorExamples.
Import Helpers HabitService.

Lemma delete_removes_habit_witness :
  ∃ st', _execute_confirmed_action no_stored_goals sample_clock
           (sample_session "delete") = Ok st'
    ∧ habit_logs st' = [completed_at "reading" "2024-01-03 07:30:00"]
    ∧ session_goal st' "yoga" = None.
Proof.
  destruct (proj1 (delete_removes_habit no_stored_goals "yoga")
              sample_clock (sample_session "delete") _ eq_refl eq_refl eq_refl)
    as (st' & Hrun & Hlogs & _ & Hgoal & _).
  exists st'. split; [exact Hrun|]. split; [rewrite Hlogs; reflexivity|].
  apply Hgoal. exists (completed_at "yoga" "2024-01-02 18:00:00").
  split; [left|reflexivity].
Defined.

Lemma check_session_timeout_spec_witness :
  (∃ st', check_session_timeout (sample_session "log") 1704300301 = (true, st')
     ∧ pending_action st' = Some None)
  ∧ check_session_timeout (sample_session "log") 1704300300
    = (false, sample_session "log").
Proof.
  split.
  - destruct (proj1 (check_session_timeout_spec no_stored_goals (sample_session "log") 1704300301
                       (sample_pending "log") eq_refl))
      as (st' & Hrun & Hp & _); [reflexivity|].
    exists st'. split; [exact Hrun|exact Hp].
  - apply (proj2 (check_session_timeout_spec no_stored_goals (sample_session "log") 1704300300
                    (sample_pending "log") eq_refl)).
    vm_compute. discriminate.
Defined.


End ExecutorExamples.

(** * More properties of the program *)

(** ** Text: membership of a substring *)

Section TextFacts.

Lemma prefix_spec n h :
  String.prefix n h = true ↔ ∃ post, h = n +:+ post.
Proof.
  revert h. induction n as [|a n IH]; intros h.
  - destruct h; simpl; (split; [intros _; by eexists|done]).
  - destruct h as [|b h]; simpl.
    { split; [done|]. by intros [post ?]. }
    destruct (ascii_dec a b) as [->|Hne].
    + specialize (IH h). split.
      * intros Hp. apply IH in Hp as [post ->]. by exists post.
      * intros [post [= ->]]. apply IH. by exists post.
    + split; [done|]. intros [post [= ? _]]. done.
Qed.

Lemma append_cons c (a b : string) : String c a +:+ b = String c (a +:+ b).
Proof. reflexivity. Qed.

Lemma append_nil (b : string) : "" +:+ b = b.
Proof. reflexivity. Qed.

(** [needle in hay] says that [hay] is [pre + needle + post]. *)
Lemma contains_spec n h :
  Text.contains n h = true ↔ ∃ pre post, h = pre +:+ n +:+ post.
Proof.
  induction h as [|c h IH].
  - change (Text.contains n "") with (String.prefix n "" || false).
    rewrite orb_false_r, prefix_spec. split.
    + intros [post Hp]. by exists "", post.
    + intros (pre & post & Hp). destruct pre; [by exists post|done].
  - change (Text.contains n (String c h))
      with (String.prefix n (String c h) || Text.contains n h).
    rewrite orb_true_iff, prefix_spec, IH. split.
    + intros [[post Hp]|(pre & post & Hp)].
      * by exists "", post.
      * exists (String c pre), post. by rewrite append_cons, Hp.
    + intros (pre & post & Hp). destruct pre as [|c' pre].
      * left. by exists post.
      * right. rewrite append_cons in Hp. injection Hp as _ Hp.
        by exists pre, post.
Qed.

Lemma string_app_assoc (a b c : string) : (a +:+ b) +:+ c = a +:+ b +:+ c.
Proof.
  induction a as [|x a IH]; [done|]. by rewrite !append_cons, IH.
Qed.

Lemma contains_trans a b c :
  Text.contains a b = true → Text.contains b c = true → Text.contains a c = true.
Proof.
  rewrite !contains_spec. intros (p1 & q1 & ->) (p2 & q2 & ->).
  exists (p2 +:+ p1), (q1 +:+ q2). by rewrite !string_app_assoc.
Qed.

End TextFacts.

(** ** The interpreter: the payload of the oracle, the streak query *)

Section InterpreterMore.
Import AIService.

Lemma find_first {A} (f : A → bool) l x :
  find f l = Some x →
  ∃ before after, l = before ++ x :: after ∧ f x = true
    ∧ ∀ y, y ∈ before → f y = false.
Proof.
  induction l as [|a l IH]; simpl; [done|].
  destruct (f a) eqn:Ha.
  - intros [= ->]. exists [], l. split; [done|]. split; [done|].
    intros y Hy. by apply elem_of_nil in Hy.
  - intros (before & after & -> & Hx & Hb)%IH.
    exists (a :: before), after. split; [done|]. split; [done|].
    intros y [->|Hy]%elem_of_cons; auto.
Qed.

Lemma find_none_all {A} (f : A → bool) l :
  find f l = None → ∀ y, y ∈ l → f y = false.
Proof.
  induction l as [|a l IH]; simpl; intros Hf y Hy.
  - by apply elem_of_nil in Hy.
  - destruct (f a) eqn:Ha; [done|].
    apply elem_of_cons in Hy as [->|Hy]; auto.
Qed.

Lemma oracle_consulted_steps raw_text reply :
  oracle_consulted raw_text = true →
  _enhanced_voice_parsing raw_text reply = _call_openai_parse raw_text reply.
Proof.
  unfold oracle_consulted, _enhanced_voice_parsing.
  destruct (goal_patterns _ _); [done|].
  repeat (destruct (Text.any_in _ _); [done|]). done.
Qed.

(** X1. When a deterministic step answers with a streak query, the command
    names at most one habit: the first name of the taxonomy, in the order of
    the taxonomy, that occurs in the lowered and stripped text, and none when
    no name occurs. A name that contains an earlier name is therefore never
    the one named: a streak query never names "learning english". *)
Theorem streak_query_names_first_habit raw_text reply d :
  oracle_consulted raw_text = false →
  _enhanced_voice_parsing raw_text reply = Ok d →
  Dict.get "intent" d = Some (PStr "streak_query") →
  ∃ hs, d = command_dict "streak_query" hs "" 0 ∧
    match hs with
    | [] => ∀ h, h ∈ COMMON_HABITS →
              Text.contains h (Text.strip (Text.lower raw_text)) = false
    | [h] =>
        (∃ before after, COMMON_HABITS = before ++ h :: after
           ∧ Text.contains h (Text.strip (Text.lower raw_text)) = true
           ∧ ∀ h', h' ∈ before →
               Text.contains h' (Text.strip (Text.lower raw_text)) = false)
        ∧ h ≠ "learning english"
    | _ => False
    end.
Proof.
  unfold oracle_consulted, _enhanced_voice_parsing.
  set (text_lower := Text.strip (Text.lower raw_text)).
  destruct (goal_patterns _ _) as [d0|] eqn:Hg.
  { intros _ [= <-] Hi. apply goal_patterns_some in Hg as (h & n & _ & ->).
    done. }
  destruct (Text.any_in STREAK_KEYWORDS _).
  2:{ repeat (destruct (Text.any_in _ _); [by intros _ [= <-]|]). done. }
  intros _ Hd _. unfold first_habit_in in Hd.
  destruct (find _ _) as [h|] eqn:Hf; injection Hd as <-.
  - exists [h]. split; [done|].
    pose proof (find_first _ _ _ Hf) as (before & after & Hl & Hh & Hb).
    split; [by exists before, after|].
    intros ->.
    assert (Text.contains "learning" text_lower = true) as Hlearn.
    { by apply (contains_trans _ "learning english"). }
    assert ("learning" ∈ before) as Hin; [|apply Hb in Hin; congruence].
    assert (before = take 17 COMMON_HABITS) as ->.
    2:{ apply (bool_decide_unpack _). by vm_compute. }
    clear -Hl.
    assert (NoDup COMMON_HABITS) as Hnd.
    { apply (bool_decide_unpack (NoDup COMMON_HABITS)). by vm_compute. }
    assert (COMMON_HABITS !! length before = Some "learning english") as Hi.
    { rewrite Hl. by apply list_lookup_middle. }
    assert (length before = 17%nat) as Hlen.
    { by eapply NoDup_lookup. }
    rewrite <-Hlen. rewrite Hl at 1. by rewrite take_app_length.
  - exists []. split; [done|]. by apply find_none_all.
Qed.

Lemma streak_query_names_first_habit_witness :
  ∃ hs, command_dict "streak_query" ["learning"] "" 0
        = command_dict "streak_query" hs "" 0 ∧
    match hs with
    | [] => ∀ h, h ∈ COMMON_HABITS →
              Text.contains h
                (Text.strip (Text.lower "My Learning English streak")) = false
    | [h] =>
        (∃ before after, COMMON_HABITS = before ++ h :: after
           ∧ Text.contains h
               (Text.strip (Text.lower "My Learning English streak")) = true
           ∧ ∀ h', h' ∈ before →
               Text.contains h'
                 (Text.strip (Text.lower "My Learning English streak")) = false)
        ∧ h ≠ "learning english"
    | _ => False
    end.
Proof.
  apply (streak_query_names_first_habit "My Learning English streak" OracleFailed);
    by vm_compute.
Defined.

Lemma dict_set_cons k v k' v' d :
  Dict.set k v ((k', v') :: d)
  = if String.eqb k k' then (k', v) :: d else (k', v') :: Dict.set k v d.
Proof. reflexivity. Qed.

Lemma dict_keys_set k v d :
  Dict.keys (Dict.set k v d)
  = if Dict.has k d then Dict.keys d else Dict.keys d ++ [k].
Proof.
  unfold Dict.has, Dict.keys.
  induction d as [|[k' v'] d IH]; [done|].
  rewrite dict_set_cons. cbn [Dict.get].
  destruct (String.eqb k k') eqn:E; rewrite !fmap_cons; [done|].
  rewrite IH. by destruct (Dict.get k d).
Qed.

Lemma dict_keys_setdefault k v d :
  Dict.keys (Dict.setdefault k v d)
  = if Dict.has k d then Dict.keys d else Dict.keys d ++ [k].
Proof.
  unfold Dict.setdefault. destruct (Dict.has k d) eqn:E; [done|].
  by rewrite dict_keys_set, E.
Qed.

Lemma dict_get_setdefault_eq k v d :
  Dict.get k (Dict.setdefault k v d) = Some (default v (Dict.get k d)).
Proof.
  unfold Dict.setdefault, Dict.has.
  destruct (Dict.get k d) as [w|] eqn:E; simpl; [done|].
  apply dict_get_set_eq.
Qed.

Lemma dict_has_keys k d : Dict.has k d = true ↔ k ∈ Dict.keys d.
Proof.
  unfold Dict.has, Dict.keys.
  induction d as [|[k' v'] d IH]; simpl.
  - split; [done|]. intros H. by apply elem_of_nil in H.
  - rewrite elem_of_cons. destruct (String.eqb k k') eqn:E.
    + apply String.eqb_eq in E. tauto.
    + apply String.eqb_neq in E. rewrite IH. tauto.
Qed.

Lemma fields_keys d :
  forallb (λ k, Text.mem k ["intent"; "habits"; "duration"; "target"])
    (Dict.keys d) = true
  ↔ Forall (λ k, k ∈ VOICE_COMMAND_FIELDS) (Dict.keys d).
Proof.
  rewrite forallb_forall, Forall_forall. unfold Text.mem, VOICE_COMMAND_FIELDS.
  split; intros H k Hk.
  - apply list_elem_of_In, H in Hk. by apply bool_decide_eq_true in Hk.
  - apply bool_decide_eq_true, H. by apply list_elem_of_In.
Qed.

(** The keys and entries of a payload after the validation. *)
Lemma validate_dict d0 d :
  validate (PDict d0) = Ok d →
  (∀ k, k ∈ Dict.keys d0 → k ∈ Dict.keys d)
  ∧ (∀ k, k ∈ Dict.keys d → k ∈ Dict.keys d0 ∨ k = "target" ∨ k = "duration")
  ∧ Dict.get "intent" d = Dict.get "intent" d0
  ∧ Dict.has "habits" d = Dict.has "habits" d0
  ∧ Dict.get "target" d = Some (default (PInt 0) (Dict.get "target" d0))
  ∧ Dict.get "duration" d = Some (default (PStr "") (Dict.get "duration" d0)).
Proof.
  simpl. intros Hd.
  assert (∃ d1, d = Dict.setdefault "duration" (PStr "")
                      (Dict.setdefault "target" (PInt 0) d1)
                ∧ Dict.keys d1 = Dict.keys d0
                ∧ (∀ k, k ≠ "habits" → Dict.get k d1 = Dict.get k d0)
                ∧ Dict.has "habits" d1 = Dict.has "habits" d0)
    as (d1 & -> & Hk & Hg & Hh).
  { destruct (Dict.get "habits" d0) as [v0|] eqn:Hh; simpl in Hd.
    - destruct (iter_strings v0) as [hs|]; simpl in Hd; [|done].
      injection Hd as <-. eexists; split; [done|].
      split; [|split].
      + rewrite dict_keys_set. unfold Dict.has. by rewrite Hh.
      + intros k Hne. by apply dict_get_set_ne.
      + unfold Dict.has. by rewrite dict_get_set_eq, Hh.
    - injection Hd as <-. by exists d0. }
  rewrite !dict_keys_setdefault, Hk.
  split; [|split; [|split; [|split; [|split]]]].
  - intros k Hin. repeat destruct (Dict.has _ _); rewrite ?elem_of_app; auto.
  - intros k. repeat destruct (Dict.has _ _);
      rewrite ?elem_of_app, ?list_elem_of_singleton; tauto.
  - by rewrite !dict_get_setdefault_ne, Hg by done.
  - unfold Dict.has in *. by rewrite !dict_get_setdefault_ne by done.
  - by rewrite dict_get_setdefault_ne, dict_get_setdefault_eq, Hg by done.
  - by rewrite dict_get_setdefault_eq, dict_get_setdefault_ne, Hg by done.
Qed.

Lemma iter_strings_str_list hs : iter_strings (str_list hs) = Ok hs.
Proof.
  unfold str_list, iter_strings.
  induction hs as [|h hs IH]; [done|].
  rewrite fmap_cons. cbn [mapM]. by rewrite IH.
Qed.

(** X2. When no deterministic step answers and the payload of the oracle is
    not a dict whose keys are all fields of the command and that has both
    [intent] and [habits], the payload is discarded whole: the command is
    that of the fallback parse. *)
Theorem oracle_payload_discarded raw_text data :
  oracle_consulted raw_text = true →
  (∀ d, data = PDict d →
     ¬ (Forall (λ k, k ∈ VOICE_COMMAND_FIELDS) (Dict.keys d)
        ∧ Dict.has "intent" d = true ∧ Dict.has "habits" d = true)) →
  parse_voice_command raw_text (OraclePayload data)
  = VoiceCommand_of (_simple_parse raw_text).
Proof.
  intros Hc Hbad. unfold parse_voice_command.
  rewrite (oracle_consulted_steps _ _ Hc).
  destruct (simple_parse_command raw_text) as (cmd & Hcmd & _).
  unfold _call_openai_parse.
  destruct (validate data) as [d|e] eqn:Hv; simpl; [|by rewrite Hcmd].
  destruct (validate_fields _ _ Hv) as (d0 & -> & _).
  destruct (validate_dict _ _ Hv) as (Hsub & _ & Hi & Hh & _).
  destruct (VoiceCommand_of d) as [c|e] eqn:Hd; simpl; [|done].
  exfalso. apply (Hbad d0 eq_refl).
  unfold VoiceCommand_of in Hd.
  destruct (forallb _ _) eqn:Hk; [|done].
  apply fields_keys in Hk. rewrite Forall_forall in Hk.
  split; [apply Forall_forall; auto|].
  unfold Dict.has in *. rewrite <-Hi.
  destruct (Dict.get "intent" d); [|done].
  destruct (Dict.get "habits" d); [|done].
  split; [done|]. by destruct (Dict.get "habits" d0).
Qed.

Lemma oracle_payload_discarded_witness :
  parse_voice_command "I practised today"
    (OraclePayload (PDict [("intent", PStr "log"); ("habits", str_list ["yoga"]);
                           ("confidence", PFloat 1)]))
  = VoiceCommand_of (_simple_parse "I practised today").
Proof.
  apply oracle_payload_discarded; [by vm_compute|].
  intros d [= <-] [Hk _]. apply Forall_forall with (x := "confidence") in Hk.
  - revert Hk. apply (bool_decide_unpack (_ ∉ _)). by vm_compute.
  - apply (bool_decide_unpack _). by vm_compute.
Defined.

(** X3. When no deterministic step answers and the payload of the oracle is
    a dict whose keys are fields of the command, with an [intent] and with a
    list of strings as [habits], the command takes the payload's intent,
    duration and target as they are (an empty duration and a target of 0 when
    they are missing) and its habits lowered, stripped, without the blank
    ones and without the ones outside the taxonomy. *)
Theorem oracle_payload_accepted raw_text d i hs :
  oracle_consulted raw_text = true →
  Forall (λ k, k ∈ VOICE_COMMAND_FIELDS) (Dict.keys d) →
  Dict.get "intent" d = Some i →
  Dict.get "habits" d = Some (str_list hs) →
  parse_voice_command raw_text (OraclePayload (PDict d))
  = Ok {| intent := i; habits := str_list (clean_habits hs);
          duration := default (PStr "") (Dict.get "duration" d);
          target := default (PInt 0) (Dict.get "target" d) |}.
Proof.
  intros Hc Hk Hi Hh. unfold parse_voice_command.
  rewrite (oracle_consulted_steps _ _ Hc). unfold _call_openai_parse.
  destruct (validate (PDict d)) as [d'|e] eqn:Hv.
  2:{ simpl in Hv. rewrite Hh in Hv. cbn [mbind result_bind] in Hv.
      by rewrite iter_strings_str_list in Hv. }
  destruct (validate_dict _ _ Hv) as (_ & Hsub & Hi' & _ & Ht & Hdu).
  assert (Dict.get "habits" d' = Some (str_list (clean_habits hs))) as Hh'.
  { simpl in Hv. rewrite Hh in Hv. cbn [mbind result_bind] in Hv.
    rewrite iter_strings_str_list in Hv. simpl in Hv. injection Hv as <-.
    by rewrite !dict_get_setdefault_ne, dict_get_set_eq by done. }
  simpl. unfold VoiceCommand_of.
  assert (forallb (λ k, Text.mem k ["intent"; "habits"; "duration"; "target"])
            (Dict.keys d') = true) as ->.
  { apply fields_keys, Forall_forall. intros k [Hin|[->| ->]]%Hsub.
    - by apply (proj1 (Forall_forall _ _) Hk).
    - apply (bool_decide_unpack _). by vm_compute.
    - apply (bool_decide_unpack _). by vm_compute. }
  by rewrite Hi', Hi, Hh', Ht, Hdu.
Qed.

Lemma oracle_payload_accepted_witness :
  parse_voice_command "I practised today"
    (OraclePayload (PDict [("habits", str_list [" Yoga "; "flying"; " "]);
                           ("intent", PStr "remember")]))
  = Ok {| intent := PStr "remember"; habits := str_list ["yoga"];
          duration := PStr ""; target := PInt 0 |}.
Proof.
  apply (oracle_payload_accepted "I practised today"
           [("habits", str_list [" Yoga "; "flying"; " "]);
            ("intent", PStr "remember")] (PStr "remember")
           [" Yoga "; "flying"; " "]).
  - by vm_compute.
  - apply (bool_decide_unpack _). by vm_compute.
  - reflexivity.
  - reflexivity.
Defined.

(** X4. A command turned into a dict and built again from that dict is the
    same command; and a dict that builds a command comes back from it with
    its four fields, the defaults filled in. *)
Theorem VoiceCommand_round_trip :
  (∀ c, VoiceCommand_of (VoiceCommand_to_dict c) = Ok c)
  ∧ (∀ d c, VoiceCommand_of d = Ok c →
       Dict.keys (VoiceCommand_to_dict c) = VOICE_COMMAND_FIELDS
       ∧ ∀ k v, Dict.get k d = Some v →
           Dict.get k (VoiceCommand_to_dict c) = Some v).
Proof.
  split; [by intros []|].
  intros d c. unfold VoiceCommand_of.
  destruct (forallb _ _) eqn:Hk; [|done].
  destruct (Dict.get "intent" d) as [i|] eqn:Hi; [|done].
  destruct (Dict.get "habits" d) as [h|] eqn:Hh; [|done].
  intros [= <-]. split; [done|]. intros k v Hkv.
  assert (k ∈ VOICE_COMMAND_FIELDS) as Hin.
  { apply fields_keys in Hk. rewrite Forall_forall in Hk. apply Hk.
    apply dict_has_keys. unfold Dict.has. by rewrite Hkv. }
  unfold VOICE_COMMAND_FIELDS in Hin.
  rewrite !elem_of_cons in Hin.
  destruct Hin as [->|[->|[->|[->|Hin]]]]; simpl.
  - congruence.
  - congruence.
  - by rewrite Hkv.
  - by rewrite Hkv.
  - by apply elem_of_nil in Hin.
Qed.



End InterpreterMore.

(** ** The longest streaks *)

Section LongestStreaks.
Import Calendar AnalyticsService.

Lemma sorted_le_nodup_strict (l : list Z) :
  Sorted Z.le l → NoDup l → StronglySorted Z.lt l.
Proof.
  intros Hs%Sorted_StronglySorted Hn; [|intros x y z; lia].
  induction Hs as [|x l Hs IH Hx]; [constructor|].
  apply NoDup_cons in Hn as [Hx' Hn]. constructor; [by apply IH|].
  apply Forall_forall. intros y Hy. rewrite Forall_forall in Hx.
  specialize (Hx y Hy). assert (x ≠ y) by (by intros ->). lia.
Qed.

Lemma habit_dates_ascending_sorted logged habit :
  StronglySorted Z.lt (habit_dates_ascending logged habit).
Proof.
  unfold habit_dates_ascending. cbv zeta. apply sorted_le_nodup_strict.
  - apply Sorted_merge_sort. apply _.
  - rewrite merge_sort_Permutation. apply NoDup_elements.
Qed.

Lemma logged_on_habit_dates_ascending habit_logs habit d :
  d ∈ habit_dates_ascending (filter (λ log, is_log log = true) habit_logs) habit
  ↔ logged_on habit_logs habit d.
Proof.
  unfold habit_dates_ascending. cbv zeta.
  rewrite merge_sort_Permutation, elem_of_elements, elem_of_list_to_set,
    list_elem_of_omap.
  unfold logged_on.
  split; intros (log & Hin & H); exists log; rewrite list_elem_of_filter in *.
  - destruct (String.eqb_spec (Log.habit log) habit); [tauto|done].
  - destruct H as (? & -> & ->). by rewrite String.eqb_refl.
Qed.

Lemma is_streak_none (P : Z → Prop) e c : ¬ P e → is_streak P e c → c = 0%nat.
Proof.
  intros Hn [Hin _]. destruct c as [|c]; [done|].
  destruct Hn. replace e with (e - 0) by lia. apply Hin. lia.
Qed.

(** The scan of the ascending dates: [current_streak] is the streak that
    ends on [previous], [max_streak] the longest streak seen so far. *)
Lemma longest_loop_spec (P : Z → Prop) rest previous current_streak max_streak :
  StronglySorted Z.lt (previous :: rest) →
  (∀ x, x ∈ previous :: rest → P x) →
  (∀ x, P x → x ≤ previous ∨ x ∈ rest) →
  is_streak P previous current_streak →
  (∀ e c, e ≤ previous → is_streak P e c → (c ≤ max_streak)%nat) →
  (∃ e, is_streak P e max_streak) →
  (1 ≤ max_streak)%nat →
  let longest := longest_loop previous rest current_streak max_streak in
  (∀ e c, is_streak P e c → (c ≤ longest)%nat)
  ∧ (∃ e, is_streak P e longest)
  ∧ (1 ≤ longest)%nat.
Proof.
  revert previous current_streak max_streak.
  induction rest as [|d rest IH];
    intros previous current_streak max_streak Hs Hin Hlow Hcur Hmax Hex Hone.
  - simpl. split; [|done]. intros e c Hc.
    destruct (decide (e ≤ previous)) as [Hle|Hgt]; [eauto|].
    rewrite (is_streak_none P e c); [lia| |done].
    intros [?|[]%elem_of_nil]%Hlow. lia.
  - apply StronglySorted_inv in Hs as [Hs Hall].
    assert (previous < d) as Hlt.
    { rewrite Forall_forall in Hall. apply Hall. by left. }
    assert (∀ x, x ∈ rest → d < x) as Hd.
    { apply StronglySorted_inv in Hs as [_ Hd]. by rewrite Forall_forall in Hd. }
    assert (∀ x, P x → x ≤ d ∨ x ∈ rest) as Hlow'.
    { intros x [Hx|[->|Hx]%elem_of_cons]%Hlow; [left; lia|left; lia|by right]. }
    assert (∀ x, previous < x < d → ¬ P x) as Hgap.
    { intros x Hx [?|[->|?%Hd]%elem_of_cons]%Hlow; lia. }
    assert (∀ x, x ∈ d :: rest → P x) as Hin'.
    { intros x Hx. apply Hin. by right. }
    assert (P d) as HPd by (apply Hin'; by left).
    cbn [longest_loop]. destruct (Z.eqb_spec (d - previous) 1) as [Hone'|Hgap'].
    + assert (is_streak P d (S current_streak)) as Hcur'.
      { destruct Hcur as [Hc1 Hc2]. split.
        - intros i Hi. destruct (decide (i = 0)) as [->|Hi0].
          + by replace (d - 0) with d by lia.
          + replace (d - i) with (previous - (i - 1)) by lia. apply Hc1. lia.
        - by replace (d - Z.of_nat (S current_streak))
            with (previous - Z.of_nat current_streak) by lia. }
      apply IH; try done.
      * intros e c He Hc. destruct (decide (e ≤ previous)) as [Hle|Hgt].
        { specialize (Hmax e c Hle Hc). lia. }
        destruct (decide (e = d)) as [->|Hne].
        { rewrite (is_streak_unique P d c (S current_streak)); [lia|done..]. }
        rewrite (is_streak_none P e c); [lia| |done]. apply Hgap. lia.
      * destruct (Nat.max_spec max_streak (S current_streak)) as [[_ ->]|[_ ->]];
          [by exists d|done].
      * lia.
    + assert (is_streak P d 1) as Hcur'.
      { split.
        - intros i Hi. by replace (d - i) with d by lia.
        - apply Hgap. lia. }
      apply IH; try done.
      intros e c He Hc. destruct (decide (e ≤ previous)) as [Hle|Hgt]; [eauto|].
      destruct (decide (e = d)) as [->|Hne].
      { rewrite (is_streak_unique P d c 1); [lia|done..]. }
      rewrite (is_streak_none P e c); [lia| |done]. apply Hgap. lia.
Qed.

(** The scan from the start, over the whole of a strictly ascending list. *)
Lemma longest_loop_start (P : Z → Prop) first rest :
  StronglySorted Z.lt (first :: rest) →
  (∀ x, P x ↔ x ∈ first :: rest) →
  let longest := longest_loop first rest 1 1 in
  (∀ e c, is_streak P e c → (c ≤ longest)%nat)
  ∧ (∃ e, is_streak P e longest)
  ∧ (1 ≤ longest)%nat.
Proof.
  intros Hs HP.
  assert (∀ x, x ∈ rest → first < x) as Hfirst.
  { apply StronglySorted_inv in Hs as [_ Hd]. by rewrite Forall_forall in Hd. }
  assert (is_streak P first 1) as Hcur.
  { split.
    - intros i Hi. replace (first - i) with first by lia. apply HP. by left.
    - intros [?|?%Hfirst]%HP%elem_of_cons; lia. }
  apply longest_loop_spec with (current_streak := 1%nat); try done.
  - intros x Hx. by apply HP.
  - intros x [->|?]%HP%elem_of_cons; [left; lia|by right].
  - intros e c He Hc. destruct (decide (e = first)) as [->|Hne].
    { by rewrite (is_streak_unique P first c 1). }
    rewrite (is_streak_none P e c); [lia| |done].
    intros [?|?%Hfirst]%HP%elem_of_cons; lia.
  - by exists first.
Qed.

(** The loop over [unique_habits] records an entry for each habit that has
    a date, and nothing else. *)
Lemma fold_longest logged (X : gset string) h :
  set_fold
    (λ habit longest_streaks,
       match habit_dates_ascending logged habit with
       | [] => longest_streaks
       | first :: rest => <[habit := longest_loop first rest 1 1]> longest_streaks
       end) (∅ : gmap string nat) X !! h
  = if decide (h ∈ X)
    then match habit_dates_ascending logged h with
         | [] => None
         | first :: rest => Some (longest_loop first rest 1 1)
         end
    else None.
Proof.
  revert X.
  apply (set_fold_ind_L (λ (m : gmap string nat) (Y : gset string),
    m !! h = if decide (h ∈ Y)
             then match habit_dates_ascending logged h with
                  | [] => None
                  | first :: rest => Some (longest_loop first rest 1 1)
                  end
             else None)).
  - rewrite lookup_empty. by rewrite decide_False by apply not_elem_of_empty.
  - intros x Y m Hx Hm.
    destruct (decide (h = x)) as [->|Hne].
    + rewrite decide_True by (apply elem_of_union_l; by apply elem_of_singleton).
      rewrite decide_False in Hm by done.
      destruct (habit_dates_ascending logged x); [done|].
      by rewrite lookup_insert_eq.
    + assert (h ∈ {[x]} ∪ Y ↔ h ∈ Y) as Hiff.
      { rewrite elem_of_union, elem_of_singleton. tauto. }
      destruct (habit_dates_ascending logged x);
        rewrite ?lookup_insert_ne by done; rewrite Hm;
        destruct (decide (h ∈ Y)), (decide (h ∈ {[x]} ∪ Y)); tauto || done.
Qed.

Lemma get_longest_streaks_lookup habit_logs h :
  get_longest_streaks habit_logs !! h
  = match habit_dates_ascending (filter (λ log, is_log log = true) habit_logs) h with
    | [] => None
    | first :: rest => Some (longest_loop first rest 1 1)
    end.
Proof.
  set (logged := filter (λ log, is_log log = true) habit_logs).
  assert (∀ d, d ∈ habit_dates_ascending logged h →
            h ∈ (list_to_set (Log.habit <$> logged) : gset string)) as Hdom.
  { intros d (log & Hin & Hlog & Hh & _)%logged_on_habit_dates_ascending.
    apply elem_of_list_to_set, list_elem_of_fmap. exists log.
    split; [done|]. by apply list_elem_of_filter. }
  assert (get_longest_streaks habit_logs !! h
          = if decide (h ∈ (list_to_set (Log.habit <$> logged) : gset string))
            then match habit_dates_ascending logged h with
                 | [] => None
                 | first :: rest => Some (longest_loop first rest 1 1)
                 end
            else None) as ->.
  { destruct habit_logs as [|log0 logs].
    - rewrite decide_False; [done|]. apply not_elem_of_empty.
    - unfold get_longest_streaks. cbv beta iota zeta. apply fold_longest. }
  case_decide as Hin; [done|].
  destruct (habit_dates_ascending logged h) as [|d ds] eqn:Hd; [done|].
  destruct Hin. apply (Hdom d). by left.
Qed.

(** X6. [get_longest_streaks] gives each habit that has a completion with a
    readable date the greatest number of consecutive days with a completion
    of that habit: some day ends a streak of that length, no day ends a
    longer one, and the number is at least 1. A habit without such a
    completion has no entry. *)
Theorem get_longest_streaks_spec habit_logs habit :
  match get_longest_streaks habit_logs !! habit with
  | Some longest =>
      (1 ≤ longest)%nat
      ∧ (∃ last, is_streak (logged_on habit_logs habit) last longest)
      ∧ ∀ last n, is_streak (logged_on habit_logs habit) last n → (n ≤ longest)%nat
  | None => ∀ d, ¬ logged_on habit_logs habit d
  end.
Proof.
  rewrite get_longest_streaks_lookup.
  pose proof (habit_dates_ascending_sorted
                (filter (λ log, is_log log = true) habit_logs) habit) as Hs.
  pose proof (logged_on_habit_dates_ascending habit_logs habit) as HP.
  destruct (habit_dates_ascending _ habit) as [|first rest].
  - intros d [] %HP%elem_of_nil.
  - destruct (longest_loop_start (logged_on habit_logs habit) first rest Hs)
      as (Hmax & Hex & Hone).
    { intros x. by rewrite HP. }
    done.
Qed.

(** X7. The result of [get_longest_streaks] is a function of the entries
    of type [log], whatever their order: two event lists whose entries of
    type [log] are the same up to order give the same result. *)
Theorem get_longest_streaks_log_entries_only logs1 logs2 :
  filter (λ log, is_log log = true) logs1 ≡ₚ filter (λ log, is_log log = true) logs2 →
  get_longest_streaks logs1 = get_longest_streaks logs2.
Proof.
  intros Hperm. apply map_eq. intros habit.
  rewrite !get_longest_streaks_lookup.
  assert (habit_dates_ascending (filter (λ log, is_log log = true) logs1) habit
          = habit_dates_ascending (filter (λ log, is_log log = true) logs2) habit)
    as ->; [|done].
  unfold habit_dates_ascending. cbv zeta. by rewrite Hperm.
Qed.

Lemma get_longest_streaks_log_entries_only_witness :
  get_longest_streaks
    [ {| Log.habit := "yoga"; Log.action := "Added habit: yoga";
         Log.time := "2024-01-01 09:00:00"; Log.type := "add";
         Log.duration := None |};
      completed_at "yoga" "2024-01-02 18:00:00";
      completed_at "yoga" "2024-01-03 07:30:00" ]
  = get_longest_streaks
      [ completed_at "yoga" "2024-01-03 07:30:00";
        completed_at "yoga" "2024-01-02 18:00:00" ].
Proof.
  apply get_longest_streaks_log_entries_only.
  vm_compute. apply perm_swap.
Defined.

Lemma logged_on_dec habit_logs habit d :
  logged_on habit_logs habit d ∨ ¬ logged_on habit_logs habit d.
Proof.
  rewrite <-logged_on_habit_dates.
  destruct (decide (d ∈ habit_dates (filter (λ log, is_log log = true) habit_logs)
                         habit)); auto.
Qed.

(** What [calculate_streaks] records for a habit is a streak that ends today
    or yesterday. *)
Lemma calculate_streaks_entry habit_logs today :
  (∀ log, log ∈ habit_logs → is_log log = true → log_date log ≠ Some date_min) →
  ∃ streaks, calculate_streaks habit_logs today = Ok streaks
    ∧ ∀ habit n, streaks !! habit = Some n →
        (0 < n)%nat
        ∧ ∃ last, today - 1 ≤ last ≤ today
            ∧ is_streak (logged_on habit_logs habit) last n.
Proof.
  intros Hmin.
  destruct (calculate_streaks_general habit_logs today Hmin) as (streaks & Hrun & Hs).
  exists streaks. split; [done|]. intros habit n Hn.
  destruct (Hs habit) as (H1 & H2 & H3).
  destruct (logged_on_dec habit_logs habit today) as [Ht|Ht].
  { destruct (H1 Ht) as (m & Hpos & Hm & Hst).
    assert (m = n) as -> by congruence. split; [done|]. exists today.
    split; [lia|done]. }
  destruct (logged_on_dec habit_logs habit (today - 1)) as [Hy|Hy].
  { destruct (H2 Ht Hy) as (m & Hpos & Hm & Hst).
    assert (m = n) as -> by congruence. split; [done|]. exists (today - 1).
    split; [lia|done]. }
  rewrite (H3 Ht Hy) in Hn. done.
Qed.

(** X8. The current streak of a habit never exceeds its longest streak:
    when no completion is dated 0001-01-01, [calculate_streaks] returns a
    mapping, and every habit in it is in the mapping of
    [get_longest_streaks] with a number that is at least as large. *)
Theorem current_streak_le_longest habit_logs today :
  (∀ log, log ∈ habit_logs → is_log log = true → log_date log ≠ Some date_min) →
  ∃ streaks, calculate_streaks habit_logs today = Ok streaks
    ∧ ∀ habit n, streaks !! habit = Some n →
        ∃ longest, get_longest_streaks habit_logs !! habit = Some longest
          ∧ (n ≤ longest)%nat.
Proof.
  intros Hmin.
  destruct (calculate_streaks_entry habit_logs today Hmin) as (streaks & Hrun & Hs).
  exists streaks. split; [done|]. intros habit n Hn.
  destruct (Hs habit n Hn) as (Hpos & last & _ & Hst).
  rewrite get_longest_streaks_lookup.
  pose proof (habit_dates_ascending_sorted
                (filter (λ log, is_log log = true) habit_logs) habit) as Hsorted.
  pose proof (logged_on_habit_dates_ascending habit_logs habit) as HP.
  destruct (habit_dates_ascending _ habit) as [|first rest].
  - destruct Hst as [Hin _]. specialize (Hin 0 ltac:(lia)).
    by apply HP, elem_of_nil in Hin.
  - destruct (longest_loop_start (logged_on habit_logs habit) first rest Hsorted)
      as (Hmax & _).
    { intros x. by rewrite HP. }
    eexists. split; [done|]. by apply (Hmax last).
Qed.

Lemma current_streak_le_longest_witness :
  ∃ streaks,
    calculate_streaks
      [completed_at "yoga" "2023-12-29 18:00:00";
       completed_at "yoga" "2023-12-30 18:00:00";
       completed_at "yoga" "2023-12-31 18:00:00";
       completed_at "yoga" "2024-01-03 18:00:00"] (ymd2ord 2024 1 3)
    = Ok streaks
    ∧ ∀ habit n, streaks !! habit = Some n →
        ∃ longest,
          get_longest_streaks
            [completed_at "yoga" "2023-12-29 18:00:00";
             completed_at "yoga" "2023-12-30 18:00:00";
             completed_at "yoga" "2023-12-31 18:00:00";
             completed_at "yoga" "2024-01-03 18:00:00"] !! habit = Some longest
          ∧ (n ≤ longest)%nat.
Proof.
  apply current_streak_le_longest.
  intros log Hin _.
  repeat (apply elem_of_cons in Hin as [->|Hin]; [vm_compute; discriminate|]).
  by apply elem_of_nil in Hin.
Defined.

Example longest_streak_sample :
  get_longest_streaks
    [completed_at "yoga" "2023-12-29 18:00:00";
     completed_at "yoga" "2023-12-31 18:00:00";
     completed_at "yoga" "2023-12-30 07:00:00";
     completed_at "yoga" "2024-01-03 18:00:00";
     completed_at "reading" "yesterday"]
  = {[ "yoga" := 3%nat ]}.
Proof. by vm_compute. Qed.

Lemma is_streak_below (P Q : Z → Prop) last n :
  (∀ x, x ≤ last → P x ↔ Q x) → is_streak P last n → is_streak Q last n.
Proof.
  intros HPQ [Hin Hout]. split.
  - intros i Hi. apply HPQ; [lia|]. by apply Hin.
  - rewrite <-HPQ by lia. done.
Qed.

(** X9. A completion dated after today, or with a date that cannot be
    read, does not count: with or without such an entry, anywhere in the
    list, [calculate_streaks] returns the same mapping. *)
Theorem future_completion_does_not_count before after entry today :
  (∀ log, log ∈ before ++ entry :: after → is_log log = true →
     log_date log ≠ Some date_min) →
  (∀ d, log_date entry = Some d → today < d) →
  calculate_streaks (before ++ entry :: after) today
  = calculate_streaks (before ++ after) today.
Proof.
  intros Hmin Hfuture.
  assert (∀ log, log ∈ before ++ after → is_log log = true →
            log_date log ≠ Some date_min) as Hmin'.
  { intros log Hin. apply Hmin. rewrite elem_of_app, elem_of_cons.
    apply elem_of_app in Hin. tauto. }
  destruct (calculate_streaks_general _ today Hmin) as (s1 & -> & H1).
  destruct (calculate_streaks_general _ today Hmin') as (s2 & -> & H2).
  f_equal. apply map_eq. intros habit.
  assert (∀ x, x ≤ today →
            logged_on (before ++ entry :: after) habit x
            ↔ logged_on (before ++ after) habit x) as Hsame.
  { intros x Hx. unfold logged_on.
    split; intros (log & Hin & Hlog & Hh & Hd); exists log; (split; [|done]).
    - rewrite elem_of_app, elem_of_cons in Hin. rewrite elem_of_app.
      destruct Hin as [?|[->|?]]; [tauto| |tauto].
      specialize (Hfuture x Hd). lia.
    - rewrite elem_of_app, elem_of_cons. apply elem_of_app in Hin. tauto. }
  destruct (H1 habit) as (A1 & A2 & A3). destruct (H2 habit) as (B1 & B2 & B3).
  destruct (logged_on_dec (before ++ after) habit today) as [Ht|Ht].
  { destruct (B1 Ht) as (m & _ & -> & Hm).
    destruct (A1 (proj2 (Hsame today ltac:(lia)) Ht)) as (n & _ & -> & Hn).
    f_equal. apply (is_streak_unique (logged_on (before ++ after) habit) today); [|done].
    eapply is_streak_below; [|exact Hn]. intros x Hx. apply Hsame. lia. }
  assert (¬ logged_on (before ++ entry :: after) habit today) as Ht'.
  { by rewrite Hsame by lia. }
  destruct (logged_on_dec (before ++ after) habit (today - 1)) as [Hy|Hy].
  { destruct (B2 Ht Hy) as (m & _ & -> & Hm).
    destruct (A2 Ht' (proj2 (Hsame (today - 1) ltac:(lia)) Hy)) as (n & _ & -> & Hn).
    f_equal.
    apply (is_streak_unique (logged_on (before ++ after) habit) (today - 1)); [|done].
    eapply is_streak_below; [|exact Hn]. intros x Hx. apply Hsame. lia. }
  rewrite (B3 Ht Hy). apply A3; [done|]. by rewrite Hsame by lia.
Qed.

Lemma future_completion_does_not_count_witness :
  calculate_streaks
    ([completed_at "yoga" "2024-01-02 18:00:00"]
       ++ completed_at "yoga" "2024-01-04 09:00:00"
       :: [completed_at "yoga" "2024-01-03 18:00:00"]) (ymd2ord 2024 1 3)
  = calculate_streaks
      ([completed_at "yoga" "2024-01-02 18:00:00"]
         ++ [completed_at "yoga" "2024-01-03 18:00:00"]) (ymd2ord 2024 1 3).
Proof.
  apply future_completion_does_not_count.
  - intros log Hin _.
    repeat (apply elem_of_cons in Hin as [->|Hin]; [vm_compute; discriminate|]).
    by apply elem_of_nil in Hin.
  - intros d. vm_compute. intros [= <-]. reflexivity.
Defined.

End LongestStreaks.

(** ** The gate and the executor, command by command *)

Section Commands.
Import Calendar AnalyticsService Helpers HabitService.
Variable load_user_goals : string → gmap string HabitGoal.

(** A command to add, log or delete goes to the confirmation dialog with its
    first habit. *)
Lemma handle_confirmable command current_user now button st habit rest :
  cd_intent command ∈ ["log"; "add"; "delete"] →
  cd_habits command = habit :: rest →
  handle_habit_action load_user_goals command current_user now button st
  = _handle_habit_confirmation load_user_goals habit (cd_duration command)
      (cd_intent command) current_user now button st.
Proof.
  intros Hi Hh. unfold handle_habit_action. rewrite Hh.
  repeat (apply elem_of_cons in Hi as [->|Hi]; [reflexivity|]).
  by apply elem_of_nil in Hi.
Qed.

(** The dialog with the button "yes" pressed: the executor runs on the
    session that holds the new pending action. *)
Lemma confirmation_yes habit duration action_type user now st :
  ∃ text warning,
    _handle_habit_confirmation load_user_goals habit duration action_type user now
      ClickYes st
    = _execute_confirmed_action load_user_goals now
        (emit (Warning warning)
           (set_pending_action
              (Some (Some {| Pending.habit := habit; Pending.duration := duration;
                             Pending.action_text := text;
                             Pending.action_type := action_type;
                             Pending.user := user;
                             Pending.timestamp := now_timestamp now |})) st)).
Proof.
  unfold _handle_habit_confirmation.
  destruct (if String.eqb action_type "log" then _ else _) as [text icon].
  by eexists _, _.
Qed.

Lemma query_habit_reads_only habit user st :
  habit_logs (_query_habit habit user st) = habit_logs st
  ∧ habit_goals (_query_habit habit user st) = habit_goals st
  ∧ pending_action (_query_habit habit user st) = pending_action st
  ∧ ∃ lines, effects (_query_habit habit user st) = effects st ++ lines
      ∧ (length lines ≤ 6)%nat
      ∧ ∀ u logs, SaveUserData u logs ∉ lines.
Proof.
  unfold _query_habit.
  set (logs := filter _ (habit_logs st)).
  assert (∀ (l : list Log.t) st0,
    let st1 := foldl (λ st log,
                        emit (Write ("  • " +:+ Log.action log +:+ " - "
                                     +:+ Log.time log)) st) st0 l in
    habit_logs st1 = habit_logs st0 ∧ habit_goals st1 = habit_goals st0
    ∧ pending_action st1 = pending_action st0
    ∧ ∃ lines, effects st1 = effects st0 ++ lines ∧ length lines = length l
        ∧ ∀ u logs, SaveUserData u logs ∉ lines) as Hfold.
  { induction l as [|log l IH] using rev_ind; intros st0; simpl.
    - repeat split. exists []. rewrite app_nil_r. repeat split.
      intros u l. apply not_elem_of_nil.
    - rewrite foldl_app. simpl.
      destruct (IH st0) as (H1 & H2 & H3 & lines & H4 & H5 & H6).
      repeat split; try done.
      eexists (lines ++ [_]). split; [by rewrite H4, app_assoc|].
      split; [rewrite !length_app; simpl; lia|].
      intros u l' [?|[=]%list_elem_of_singleton]%elem_of_app. by eapply H6. }
  destruct logs as [|log0 logs0] eqn:Hlogs.
  - repeat split. eexists [_]. split; [done|]. split; [simpl; lia|].
    intros u l [=]%list_elem_of_singleton.
  - rewrite <-Hlogs.
    match goal with
    | |- context [foldl ?f ?s ?l] => destruct (Hfold l s) as (H1 & H2 & H3 & lines & H4 & H5 & H6)
    end.
    cbv zeta in *. rewrite H1, H2, H3, H4. repeat split.
    exists (Info ("📊 **" +:+ title habit +:+ "** - Found "
                  +:+ pretty (length (log0 :: logs0)) +:+ " entries:") :: lines).
    split; [simpl; rewrite Hlogs; by rewrite <-app_assoc|].
    split.
    + simpl. rewrite H5, length_drop. lia.
    + intros u l [[=]|?]%elem_of_cons. by eapply H6.
Qed.

(** X10. Without the button "yes", no command changes the log or saves
    it: whatever the command, the user and the session, with the button "no"
    or with no button pressed [handle_habit_action] returns a session with the
    same log and without a new save of the log; the goals are the same too
    unless the command sets a goal; and after "no" on a command to add, log
    or delete, no action is pending any more. *)
Theorem unconfirmed_command_keeps_log command current_user now button st :
  button ≠ ClickYes →
  ∃ st' shown,
    handle_habit_action load_user_goals command current_user now button st = Ok st'
    ∧ habit_logs st' = habit_logs st
    ∧ effects st' = effects st ++ shown
    ∧ (∀ user logs, SaveUserData user logs ∉ shown)
    ∧ (cd_intent command ≠ "set_goal" → habit_goals st' = habit_goals st)
    ∧ (button = ClickNo → cd_intent command ∈ ["add"; "log"; "delete"] →
       cd_habits command ≠ [] → pending_action st' = None).
Proof.
  intros Hb.
  assert (∀ e, (∀ u l, e ≠ SaveUserData u l) → ∀ u l, SaveUserData u l ∉ [e])
    as Hone.
  { intros e He u l Hin%list_elem_of_singleton. by destruct (He u l). }
  assert (∀ u l, SaveUserData u l ∉ ([] : list effect)) as Hnil.
  { intros u l. apply not_elem_of_nil. }
  destruct (decide (cd_intent command ∈ ["add"; "log"; "delete"])) as [Hi|Hi];
    [destruct (cd_habits command) as [|habit rest] eqn:Hh|].
  - (* no habit *)
    assert (handle_habit_action load_user_goals command current_user now button st
            = Ok (emit (Warning ("⚠️ No valid habits recognized. Try mentioning: "
                                 +:+ String.concat ", " (take 5 COMMON_HABITS)
                                 +:+ "...")) st)) as ->.
    { unfold handle_habit_action. rewrite Hh.
      repeat (apply elem_of_cons in Hi as [->|Hi]; [reflexivity|]).
      by apply elem_of_nil in Hi. }
    eexists _, [_]. split; [done|]. split; [done|]. split; [done|].
    split; [by apply Hone|]. split; done.
  - (* the dialog *)
    rewrite (handle_confirmable _ _ _ _ _ habit rest);
      [|rewrite !elem_of_cons in *; tauto|done].
    unfold _handle_habit_confirmation.
    destruct (if String.eqb (cd_intent command) "log" then _ else _) as [text icon].
    destruct button; [|done|].
    + eexists _, [_]. split; [done|]. split; [done|]. split; [done|].
      split; [by apply Hone|]. split; done.
    + eexists _, [_; _; _]. split; [done|]. split; [done|]. simpl.
      split; [by rewrite <-!app_assoc|].
      split; [|done].
      intros u l. rewrite !elem_of_cons. intros [?|[?|[?|[]%elem_of_nil]]]; done.
  - (* the other intents *)
    unfold handle_habit_action.
    destruct (String.eqb (cd_intent command) "dashboard") eqn:E1.
    { eexists _, [_]. split; [done|]. split; [done|]. split; [done|].
      split; [by apply Hone|]. split; [done|]. intros _ Hin. by destruct Hi. }
    destruct (String.eqb (cd_intent command) "set_goal") eqn:E2.
    { apply String.eqb_eq in E2.
      destruct (cd_habits command) as [|habit rest].
      { eexists _, [_]. split; [done|]. split; [done|]. split; [done|].
        split; [by apply Hone|]. split; [done|]. intros _ Hin. by destruct Hi. }
      destruct (0 <? cd_target command).
      - eexists _, [_; _]. split; [done|]. split; [done|]. simpl.
        split; [by rewrite <-!app_assoc|].
        split; [|split; [done|intros _ Hin; by destruct Hi]].
        intros u l. rewrite !elem_of_cons. intros [?|[?|[]%elem_of_nil]]; done.
      - eexists _, [_]. split; [done|]. split; [done|]. split; [done|].
        split; [by apply Hone|]. split; [done|]. intros _ Hin. by destruct Hi. }
    destruct (Text.mem _ _).
    { exists st, []. rewrite app_nil_r.
      repeat split; first [done|intros _ Hin; by destruct Hi]. }
    destruct (cd_habits command) as [|habit rest].
    { eexists _, [_]. split; [done|]. split; [done|]. split; [done|].
      split; [by apply Hone|]. split; [done|]. intros _ Hin. by destruct Hi. }
    assert (Text.mem (cd_intent command) ["add"; "log"; "delete"] = false) as ->.
    { unfold Text.mem. by apply bool_decide_eq_false. }
    destruct (String.eqb (cd_intent command) "query").
    + destruct (query_habit_reads_only habit current_user st)
        as (H1 & H2 & H3 & lines & H4 & _ & H6).
      eexists _, lines. split; [done|].
      repeat split; first [done|intros _ Hin; by destruct Hi].
    + exists st, []. rewrite app_nil_r.
      repeat split; first [done|intros _ Hin; by destruct Hi].
Qed.

Lemma foldl_emit_write (logs : list Log.t) st :
  let st' := foldl (λ st log,
                      emit (Write ("  • " +:+ Log.action log +:+ " - "
                                   +:+ Log.time log)) st) st logs in
  habit_logs st' = habit_logs st ∧ habit_goals st' = habit_goals st
  ∧ pending_action st' = pending_action st
  ∧ show_dashboard st' = show_dashboard st
  ∧ effects st'
    = effects st
      ++ ((λ log, Write ("  • " +:+ Log.action log +:+ " - " +:+ Log.time log))
            <$> logs).
Proof.
  revert st. induction logs as [|log logs IH]; intros st; simpl.
  - by rewrite app_nil_r.
  - destruct (IH (emit (Write ("  • " +:+ Log.action log +:+ " - "
                               +:+ Log.time log)) st))
      as (H1 & H2 & H3 & H4 & H5).
    cbv zeta in *. rewrite H1, H2, H3, H4, H5. simpl.
    by rewrite <-app_assoc.
Qed.

(** X11. A query is answered at once, whatever button is pressed, and only
    shows: the log, the goals and the pending action stay as they are. What
    is shown is one line for each of the last five entries, at most, whose
    habit name contains the queried name, in the order of the log, after a
    line that gives the number of all such entries; or a warning when there
    is no such entry. *)
Theorem query_command_only_shows command current_user now button st habit rest :
  cd_intent command = "query" →
  cd_habits command = habit :: rest →
  ∃ st',
    handle_habit_action load_user_goals command current_user now button st = Ok st'
    ∧ habit_logs st' = habit_logs st
    ∧ habit_goals st' = habit_goals st
    ∧ pending_action st' = pending_action st
    ∧ ∃ found shown,
        found = filter (λ log, Text.contains habit (Log.habit log) = true)
                  (habit_logs st)
        ∧ effects st' = effects st ++ shown
        ∧ match found with
          | [] => ∃ text, shown = [Warning text]
          | _ =>
              ∃ text,
                shown
                = Info text
                  :: ((λ log, Write ("  • " +:+ Log.action log +:+ " - "
                                     +:+ Log.time log))
                        <$> drop (length found - 5) found)
                ∧ (length shown ≤ 6)%nat
          end.
Proof.
  intros Hi Hh. unfold handle_habit_action. rewrite Hi, Hh.
  cbn [String.eqb Ascii.eqb Bool.eqb].
  change (Text.mem "query" ["streak_query"; "progress_query"; "help"; "export";
                            "confirm"; "cancel"]) with false.
  change (Text.mem "query" ["add"; "log"; "delete"]) with false.
  cbv iota. eexists. split; [done|].
  unfold _query_habit.
  remember (filter (λ log, Text.contains habit (Log.habit log) = true)
              (habit_logs st)) as found eqn:Hf.
  destruct found as [|log0 found0].
  { repeat split. exists [], [Warning ("❌ No records found for **" +:+ habit +:+ "**")].
    split; [done|]. split; [done|]. by eexists. }
  match goal with
  | |- context [foldl ?f ?s ?l] =>
      destruct (foldl_emit_write l s) as (H1 & H2 & H3 & _ & H5)
  end.
  cbv zeta in *. rewrite H1, H2, H3, H5. repeat split.
  exists (log0 :: found0). eexists. split; [done|].
  split; [simpl; by rewrite <-app_assoc|].
  eexists. split; [done|].
  cbn [app]. rewrite length_cons, length_fmap, length_drop, !length_cons. lia.
Qed.

(** X12. Only a command to add, to log or to delete opens the dialog or
    reaches the executor: for every other intent, known or not, the button
    plays no role, and the log and the pending action stay as they are. So
    the log changes only under such a command and the button "yes". *)
Theorem only_confirmable_commands_change_the_log command current_user now button st :
  cd_intent command ∉ ["add"; "log"; "delete"] →
  ∃ st',
    handle_habit_action load_user_goals command current_user now button st = Ok st'
    ∧ handle_habit_action load_user_goals command current_user now NoClick st = Ok st'
    ∧ habit_logs st' = habit_logs st
    ∧ pending_action st' = pending_action st.
Proof.
  intros Hi. unfold handle_habit_action.
  destruct (String.eqb (cd_intent command) "dashboard"); [by eexists|].
  destruct (String.eqb (cd_intent command) "set_goal").
  { destruct (cd_habits command) as [|habit rest]; [by eexists|].
    destruct (0 <? cd_target command); by eexists. }
  destruct (Text.mem _ _); [by eexists|].
  destruct (cd_habits command) as [|habit rest]; [by eexists|].
  assert (Text.mem (cd_intent command) ["add"; "log"; "delete"] = false) as ->.
  { unfold Text.mem. by apply bool_decide_eq_false. }
  destruct (String.eqb (cd_intent command) "query"); [|by eexists].
  destruct (query_habit_reads_only habit current_user st) as (H1 & _ & H3 & _).
  by eexists.
Qed.

(** What the executor does with a pending [log]. *)
Lemma execute_log now st action :
  pending_action st = Some (Some action) →
  Pending.action_type action = "log" →
  ∃ st' text,
    _execute_confirmed_action load_user_goals now st = Ok st'
    ∧ habit_logs st'
      = habit_logs st ++ [log_entry (Pending.habit action) (Pending.duration action) now]
    ∧ habit_goals st' = habit_goals st
    ∧ pending_action st' = None
    ∧ show_dashboard st' = show_dashboard st
    ∧ effects st'
      = effects st ++ [Success text; SaveUserData (Pending.user action) (habit_logs st');
                       Rerun].
Proof.
  intros Hp Ht. unfold _execute_confirmed_action. rewrite Hp, Ht.
  cbn [String.eqb Ascii.eqb Bool.eqb].
  eexists _, _. split; [done|]. simpl. repeat split.
  by rewrite <-!app_assoc.
Qed.

Lemma handle_log_yes command current_user now st habit rest :
  cd_intent command = "log" →
  cd_habits command = habit :: rest →
  ∃ st' shown,
    handle_habit_action load_user_goals command current_user now ClickYes st = Ok st'
    ∧ habit_logs st' = habit_logs st ++ [log_entry habit (cd_duration command) now]
    ∧ habit_goals st' = habit_goals st
    ∧ pending_action st' = None
    ∧ effects st'
      = effects st ++ shown ++ [SaveUserData current_user (habit_logs st'); Rerun].
Proof.
  intros Hi Hh.
  rewrite (handle_confirmable _ _ _ _ _ habit rest);
    [|rewrite Hi, !elem_of_cons; tauto|done].
  destruct (confirmation_yes habit (cd_duration command) (cd_intent command)
              current_user now st) as (text & warning & ->).
  match goal with
  | |- context [_execute_confirmed_action _ now ?s] =>
      destruct (execute_log now s _ eq_refl Hi)
        as (st' & text' & -> & Hl & Hg & Hp & _ & He)
  end.
  exists st', [Warning warning; Success text']. split; [done|].
  split; [done|]. split; [done|]. split; [done|].
  rewrite He. simpl. by rewrite <-!app_assoc.
Qed.

(** Two logs that agree, up to today, on the days on which a habit has a
    completion give that habit the same current streak. *)
Lemma calculate_streaks_agree logs1 logs2 today habit :
  (∀ log, log ∈ logs1 → is_log log = true → log_date log ≠ Some date_min) →
  (∀ log, log ∈ logs2 → is_log log = true → log_date log ≠ Some date_min) →
  (∀ x, x ≤ today → logged_on logs1 habit x ↔ logged_on logs2 habit x) →
  ∃ streaks1 streaks2,
    calculate_streaks logs1 today = Ok streaks1
    ∧ calculate_streaks logs2 today = Ok streaks2
    ∧ streaks1 !! habit = streaks2 !! habit.
Proof.
  intros Hmin1 Hmin2 Hsame.
  destruct (calculate_streaks_general _ today Hmin1) as (s1 & -> & H1).
  destruct (calculate_streaks_general _ today Hmin2) as (s2 & -> & H2).
  exists s1, s2. split; [done|]. split; [done|].
  destruct (H1 habit) as (A1 & A2 & A3). destruct (H2 habit) as (B1 & B2 & B3).
  destruct (logged_on_dec logs2 habit today) as [Ht|Ht].
  { destruct (B1 Ht) as (m & _ & -> & Hm).
    destruct (A1 (proj2 (Hsame today ltac:(lia)) Ht)) as (n & _ & -> & Hn).
    f_equal. apply (is_streak_unique (logged_on logs2 habit) today); [|done].
    eapply is_streak_below; [|exact Hn]. intros x Hx. apply Hsame. lia. }
  assert (¬ logged_on logs1 habit today) as Ht' by (by rewrite Hsame by lia).
  destruct (logged_on_dec logs2 habit (today - 1)) as [Hy|Hy].
  { destruct (B2 Ht Hy) as (m & _ & -> & Hm).
    destruct (A2 Ht' (proj2 (Hsame (today - 1) ltac:(lia)) Hy)) as (n & _ & -> & Hn).
    f_equal. apply (is_streak_unique (logged_on logs2 habit) (today - 1)); [|done].
    eapply is_streak_below; [|exact Hn]. intros x Hx. apply Hsame. lia. }
  rewrite (B3 Ht Hy). apply A3; [done|]. by rewrite Hsame by lia.
Qed.

(** X13. A confirmed command to log a habit appends one completion, dated
    by the clock, and nothing else. When the clock reads day [today], the
    streak of the habit computed for [today] is then one more than the number
    of consecutive days with a completion that ended the day before, and the
    streaks of the other habits are what they were. *)
Theorem confirmed_log_extends_streak command current_user now st habit rest today k :
  cd_intent command = "log" →
  cd_habits command = habit :: rest →
  strptime_date (Text.slice_to 10 (now_text now)) = Ok today →
  today ≠ date_min →
  (∀ log, log ∈ habit_logs st → is_log log = true → log_date log ≠ Some date_min) →
  is_streak (logged_on (habit_logs st) habit) (today - 1) k →
  ∃ st' before after,
    handle_habit_action load_user_goals command current_user now ClickYes st = Ok st'
    ∧ habit_logs st' = habit_logs st ++ [log_entry habit (cd_duration command) now]
    ∧ calculate_streaks (habit_logs st) today = Ok before
    ∧ calculate_streaks (habit_logs st') today = Ok after
    ∧ after !! habit = Some (S k)
    ∧ ∀ h, h ≠ habit → after !! h = before !! h.
Proof.
  intros Hi Hh Hnow Hday Hmin Hk.
  destruct (handle_log_yes command current_user now st habit rest Hi Hh)
    as (st' & shown & -> & Hl & _).
  set (entry := log_entry habit (cd_duration command) now) in *.
  assert (log_date entry = Some today) as Hdate.
  { unfold log_date, entry. simpl. by rewrite Hnow. }
  assert (∀ log, log ∈ habit_logs st' → is_log log = true →
            log_date log ≠ Some date_min) as Hmin'.
  { intros log. rewrite Hl, elem_of_app, list_elem_of_singleton.
    intros [Hin| ->]; [by apply Hmin|]. intros _. rewrite Hdate. congruence. }
  assert (∀ h x, logged_on (habit_logs st') h x
                 ↔ logged_on (habit_logs st) h x ∨ (h = habit ∧ x = today)) as Hon.
  { intros h x. unfold logged_on. rewrite Hl. split.
    - intros (log & Hin & Hlog & Hhab & Hd).
      apply elem_of_app in Hin as [Hin|Hin%list_elem_of_singleton]; [left; eauto|].
      subst log. right. split; [done|]. congruence.
    - intros [(log & Hin & H)|[-> ->]].
      + exists log. rewrite elem_of_app. tauto.
      + exists entry. rewrite elem_of_app, list_elem_of_singleton. tauto. }
  destruct (calculate_streaks_general _ today Hmin) as (before & Hb & _).
  destruct (calculate_streaks_general _ today Hmin') as (after & Ha & Hafter).
  exists st', before, after. split; [done|]. split; [done|].
  split; [done|]. split; [done|]. split.
  - destruct (Hafter habit) as (A1 & _).
    destruct A1 as (n & _ & -> & Hn); [apply Hon; by right|].
    f_equal. apply (is_streak_unique (logged_on (habit_logs st') habit) today); [done|].
    destruct Hk as [Hk1 Hk2]. split.
    + intros i Hi'. apply Hon. destruct (decide (i = 0)) as [->|Hne].
      * right. split; [done|lia].
      * left. replace (today - i) with (today - 1 - (i - 1)) by lia.
        apply Hk1. lia.
    + intros [Hold|[_ Heq]]%Hon; [|lia].
      apply Hk2. by replace (today - 1 - Z.of_nat k) with (today - Z.of_nat (S k)) by lia.
  - intros h Hne.
    destruct (calculate_streaks_agree (habit_logs st') (habit_logs st) today h Hmin' Hmin)
      as (s1 & s2 & Hs1 & Hs2 & Heq).
    { intros x _. rewrite Hon. split; [intros [?|[? _]]; done|auto]. }
    congruence.
Qed.

Lemma check_weekly_progress_lookup habit_logs habit_goals now habit :
  check_weekly_progress habit_logs habit_goals now !! habit
  = progress_of (foldl (count_log (week_start now)) ∅ habit_logs) habit
      <$> habit_goals !! habit.
Proof.
  unfold check_weekly_progress. case_decide as He.
  - subst habit_goals. by rewrite !lookup_empty.
  - cbv zeta. rewrite map_lookup_imap. by destruct (habit_goals !! habit).
Qed.

(** X14. When the clock's text is read as a time at or after the Monday
    00:00:00 that starts the week of the report, a confirmed command to log a
    habit raises the completed count of that habit in the weekly report by
    exactly one and leaves the count of every other habit, and every target,
    as it was. *)
Theorem confirmed_log_counts_this_week
    command current_user now st habit rest t report_time habit_goals :
  cd_intent command = "log" →
  cd_habits command = habit :: rest →
  strptime_datetime (now_text now) = Ok t →
  dt_ge t (week_start report_time) = true →
  ∃ st',
    handle_habit_action load_user_goals command current_user now ClickYes st = Ok st'
    ∧ ∀ h p,
        check_weekly_progress (habit_logs st) habit_goals report_time !! h = Some p →
        ∃ p', check_weekly_progress (habit_logs st') habit_goals report_time !! h
              = Some p'
          ∧ Progress.target p' = Progress.target p
          ∧ Progress.completed p'
            = Progress.completed p + (if decide (h = habit) then 1 else 0).
Proof.
  intros Hi Hh Ht Hge.
  destruct (handle_log_yes command current_user now st habit rest Hi Hh)
    as (st' & shown & -> & Hl & _).
  exists st'. split; [done|]. intros h p.
  rewrite !check_weekly_progress_lookup, Hl.
  destruct (habit_goals !! h) as [goal|]; [|done]. simpl.
  intros [= <-]. eexists; split; [done|]. split; [done|].
  unfold progress_of. cbn [Progress.completed].
  rewrite !weekly_counts_lookup, lookup_empty, filter_app, length_app. simpl.
  assert (counts_for (week_start report_time) h
            (log_entry habit (cd_duration command) now)
          = bool_decide (h = habit)) as Hc.
  { unfold counts_for, is_log. simpl. rewrite Ht, Hge, andb_true_r.
    destruct (String.eqb_spec habit h) as [->|Hne];
      [by rewrite bool_decide_eq_true_2|by rewrite bool_decide_eq_false_2]. }
  case_decide as Hd.
  - rewrite filter_cons_True by (rewrite Hc; by apply bool_decide_eq_true).
    simpl. lia.
  - rewrite filter_cons_False.
    + simpl. lia.
    + rewrite Hc. by rewrite bool_decide_eq_false_2.
Qed.

(** X15. A command to set a goal needs a habit and a positive target.
    With both, the goal of the first habit becomes the target of the command,
    whatever it was before, the goals of the other habits stay, the new goals
    are handed to the storage, and the weekly report from then on has an
    entry for the habit with that target while its other entries are
    unchanged. Without a habit, or with a target of 0 or less, the goals stay
    as they are and a warning is shown. Either way the log and the pending
    action are untouched, whatever button is pressed. *)
Theorem set_goal_command command current_user now button st :
  cd_intent command = "set_goal" →
  ∃ st',
    handle_habit_action load_user_goals command current_user now button st = Ok st'
    ∧ habit_logs st' = habit_logs st
    ∧ pending_action st' = pending_action st
    ∧ (∀ habit rest,
         cd_habits command = habit :: rest → 0 < cd_target command →
         goals_in_effect load_user_goals current_user st'
         = <[habit := {| target_per_week := cd_target command;
                         created := now_iso now;
                         category := get_habit_category habit |}]>
             (goals_in_effect load_user_goals current_user st)
         ∧ SaveUserGoals current_user
             (goals_in_effect load_user_goals current_user st') ∈ effects st'
         ∧ ∀ habit_logs report_time,
             (∃ p, check_weekly_progress habit_logs
                     (goals_in_effect load_user_goals current_user st')
                     report_time !! habit = Some p
                ∧ Progress.target p = cd_target command)
             ∧ ∀ h, h ≠ habit →
                 check_weekly_progress habit_logs
                   (goals_in_effect load_user_goals current_user st') report_time !! h
                 = check_weekly_progress habit_logs
                     (goals_in_effect load_user_goals current_user st) report_time !! h)
    ∧ (cd_habits command = [] ∨ cd_target command ≤ 0 →
       habit_goals st' = habit_goals st ∧ warned st').
Proof.
  intros Hi. unfold handle_habit_action. rewrite Hi.
  cbn [String.eqb Ascii.eqb Bool.eqb].
  assert (∀ w, warned (emit (Warning w) st)) as Hw.
  { intros w. exists w. simpl. apply elem_of_app. right. by left. }
  destruct (cd_habits command) as [|habit rest] eqn:Hh.
  { eexists. split; [done|]. split; [done|]. split; [done|].
    split; [done|]. intros _. split; [done|]. apply Hw. }
  destruct (Z.ltb_spec 0 (cd_target command)) as [Hpos|Hneg].
  2:{ eexists. split; [done|]. split; [done|]. split; [done|].
      split; [intros ? ? _ ?; lia|]. intros _. split; [done|]. apply Hw. }
  eexists. split; [done|]. split; [done|]. split; [done|].
  split; [|intros [?|?]; [done|lia]].
  intros habit' rest' [= <- <-] _.
  match goal with
  | |- goals_in_effect _ _ ?s = ?g ∧ _ =>
      assert (goals_in_effect load_user_goals current_user s = g) as Hgoals
        by reflexivity
  end.
  rewrite Hgoals. split; [done|]. split.
  { simpl. rewrite !elem_of_app, !list_elem_of_singleton. auto. }
  intros logs report_time. split.
  - rewrite check_weekly_progress_lookup, lookup_insert_eq. simpl. eauto.
  - intros h Hne. by rewrite !check_weekly_progress_lookup, lookup_insert_ne.
Qed.

Ltac shown_effects :=
  first
    [ by (exists []; rewrite app_nil_r)
    | eexists; split; [simpl; rewrite <-?app_assoc; reflexivity|reflexivity] ].

(** What the executor does whatever the pending action is: it ends with the
    save of the log that the session then holds. *)
Lemma execute_saves now st action :
  pending_action st = Some (Some action) →
  ∃ st' shown,
    _execute_confirmed_action load_user_goals now st = Ok st'
    ∧ pending_action st' = None
    ∧ show_dashboard st' = show_dashboard st
    ∧ effects st'
      = effects st ++ shown
        ++ [SaveUserData (Pending.user action) (habit_logs st'); Rerun].
Proof.
  intros Hp. unfold _execute_confirmed_action. rewrite Hp.
  match goal with
  | |- context [emit (SaveUserData _ (habit_logs ?s)) _] => set (st2 := s)
  end.
  assert (∃ shown, effects st2 = effects st ++ shown
                   ∧ show_dashboard st2 = show_dashboard st) as (shown & He & Hd).
  { subst st2.
    destruct (String.eqb _ "log"); [shown_effects|].
    destruct (String.eqb _ "add").
    { destruct (Text.mem _ _); [shown_effects|].
      destruct (DEFAULT_GOALS !! _); shown_effects. }
    destruct (String.eqb _ "delete"); [|shown_effects].
    cbn [habit_logs set_habit_logs]. destruct (0 <? _)%nat; [|shown_effects].
    cbn [habit_goals emit set_habit_logs].
    destruct (habit_goals st) as [goals|]; [|shown_effects].
    case_decide; shown_effects. }
  exists (emit Rerun (set_pending_action None
            (emit (SaveUserData (Pending.user action) (habit_logs st2)) st2))), shown.
  split; [done|]. split; [done|]. split; [done|].
  simpl. rewrite He. by rewrite <-!app_assoc.
Qed.

(** X16. Every confirmed command to add, log or delete is saved: with the
    button "yes", the run ends with the save, under the current user, of
    exactly the log that the session holds afterwards, followed by the rerun
    of the page, and no action is pending any more. *)
Theorem confirmed_action_is_saved command current_user now st habit rest :
  cd_intent command ∈ ["log"; "add"; "delete"] →
  cd_habits command = habit :: rest →
  ∃ st' shown,
    handle_habit_action load_user_goals command current_user now ClickYes st = Ok st'
    ∧ pending_action st' = None
    ∧ effects st'
      = effects st ++ shown ++ [SaveUserData current_user (habit_logs st'); Rerun].
Proof.
  intros Hi Hh. rewrite (handle_confirmable _ _ _ _ _ habit rest) by done.
  destruct (confirmation_yes habit (cd_duration command) (cd_intent command)
              current_user now st) as (text & warning & ->).
  match goal with
  | |- context [_execute_confirmed_action _ now ?s] =>
      destruct (execute_saves now s _ eq_refl) as (st' & shown & -> & Hp & _ & He)
  end.
  exists st', (Warning warning :: shown). split; [done|]. split; [done|].
  rewrite He. simpl. by rewrite <-!app_assoc.
Qed.

(** X17. A confirmed command to add a habit that has no entry yet appends
    one entry of type [add], which is no completion: the entries of type
    [log] are the same as before. When the habit has a default goal, its goal
    becomes the default, whatever goal it had; otherwise the goals stay as
    they are. *)
Theorem confirmed_add_of_new_habit command current_user now st habit rest :
  cd_intent command = "add" →
  cd_habits command = habit :: rest →
  (∀ log, log ∈ habit_logs st → Log.habit log ≠ habit) →
  ∃ st',
    handle_habit_action load_user_goals command current_user now ClickYes st = Ok st'
    ∧ habit_logs st'
      = habit_logs st ++ [{| Log.habit := habit;
                             Log.action := "Added habit: " +:+ habit;
                             Log.time := now_text now; Log.type := "add";
                             Log.duration := None |}]
    ∧ filter (λ log, is_log log = true) (habit_logs st')
      = filter (λ log, is_log log = true) (habit_logs st)
    ∧ match DEFAULT_GOALS !! habit with
      | Some goal =>
          goals_in_effect load_user_goals current_user st'
          = <[habit := {| target_per_week := goal; created := now_iso now;
                          category := get_habit_category habit |}]>
              (goals_in_effect load_user_goals current_user st)
      | None => habit_goals st' = habit_goals st
      end.
Proof.
  intros Hi Hh Hnew.
  rewrite (handle_confirmable _ _ _ _ _ habit rest);
    [|rewrite Hi, !elem_of_cons; tauto|done].
  destruct (confirmation_yes habit (cd_duration command) (cd_intent command)
              current_user now st) as (text & warning & ->).
  unfold _execute_confirmed_action.
  cbn [pending_action set_pending_action emit Pending.action_type Pending.habit
       Pending.user Pending.duration].
  rewrite Hi. cbn [String.eqb Ascii.eqb Bool.eqb].
  cbn [habit_logs set_pending_action emit].
  assert (Text.mem habit (Log.habit <$> habit_logs st) = false) as ->.
  { unfold Text.mem. apply bool_decide_eq_false.
    intros (log & Heq & Hin)%list_elem_of_fmap. by destruct (Hnew log Hin). }
  eexists. split; [done|].
  destruct (DEFAULT_GOALS !! habit) as [goal|]; simpl.
  - split; [done|]. split; [|done].
    rewrite filter_app, filter_cons_False, filter_nil, app_nil_r; done.
  - split; [done|]. split; [|done].
    rewrite filter_app, filter_cons_False, filter_nil, app_nil_r; done.
Qed.

(** X18. Adding is idempotent: a confirmed command to add a habit that
    already has an entry, of whatever type, changes neither the log nor the
    goals; so the same command confirmed twice in a row leaves, the second
    time, the log and the goals as the first run left them. *)
Theorem confirmed_add_twice command current_user now1 now2 st habit rest :
  cd_intent command = "add" →
  cd_habits command = habit :: rest →
  ∃ st1 st2,
    handle_habit_action load_user_goals command current_user now1 ClickYes st = Ok st1
    ∧ handle_habit_action load_user_goals command current_user now2 ClickYes st1
      = Ok st2
    ∧ habit_logs st2 = habit_logs st1
    ∧ habit_goals st2 = habit_goals st1
    ∧ ((∃ log, log ∈ habit_logs st ∧ Log.habit log = habit) →
       habit_logs st1 = habit_logs st ∧ habit_goals st1 = habit_goals st).
Proof.
  intros Hi Hh.
  assert (∀ now s, (∃ log, log ∈ habit_logs s ∧ Log.habit log = habit) →
    ∃ s', handle_habit_action load_user_goals command current_user now ClickYes s
          = Ok s'
      ∧ habit_logs s' = habit_logs s ∧ habit_goals s' = habit_goals s) as Hnoop.
  { intros now s (log & Hin & Hlog).
    rewrite (handle_confirmable _ _ _ _ _ habit rest);
      [|rewrite Hi, !elem_of_cons; tauto|done].
    destruct (confirmation_yes habit (cd_duration command) (cd_intent command)
                current_user now s) as (text & warning & ->).
    unfold _execute_confirmed_action.
    cbn [pending_action set_pending_action emit Pending.action_type Pending.habit
         Pending.user Pending.duration].
    rewrite Hi. cbn [String.eqb Ascii.eqb Bool.eqb].
    cbn [habit_logs set_pending_action emit].
    assert (Text.mem habit (Log.habit <$> habit_logs s) = true) as ->.
    { unfold Text.mem. apply bool_decide_eq_true, list_elem_of_fmap. eauto. }
    eexists. split; [done|]. done. }
  assert (∃ st1,
    handle_habit_action load_user_goals command current_user now1 ClickYes st = Ok st1
    ∧ ∃ log, log ∈ habit_logs st1 ∧ Log.habit log = habit) as (st1 & H1 & Hhas).
  { rewrite (handle_confirmable _ _ _ _ _ habit rest);
      [|rewrite Hi, !elem_of_cons; tauto|done].
    destruct (confirmation_yes habit (cd_duration command) (cd_intent command)
                current_user now1 st) as (text & warning & ->).
    match goal with
    | |- context [_execute_confirmed_action _ now1 ?s] =>
        destruct (execute_add load_user_goals now1 s _ eq_refl Hi)
          as (st1 & -> & _ & Hhas & _)
    end.
    by exists st1. }
  destruct (Hnoop now2 st1 Hhas) as (st2 & H2 & Hl2 & Hg2).
  exists st1, st2. split; [done|]. split; [done|]. split; [done|].
  split; [done|]. intros Hex.
  destruct (Hnoop now1 st Hex) as (st1' & H1' & Hl1 & Hg1).
  rewrite H1 in H1'. injection H1' as <-. done.
Qed.

(** X19. A timeout is reported once: after [check_session_timeout] has
    reported one, the session holds [None] for the pending action and every
    later check, at whatever time, reports none and changes nothing. And a
    pending action that has timed out at one time has timed out at every
    later time. *)
Theorem timeout_is_reported_once st now :
  (check_session_timeout st now).1 = true →
  (∀ later,
     check_session_timeout (check_session_timeout st now).2 later
     = (false, (check_session_timeout st now).2))
  ∧ (∀ later, (now <= later)%Q → (check_session_timeout st later).1 = true).
Proof.
  unfold check_session_timeout.
  destruct (pending_action st) as [[action|]|] eqn:Hp; [|done..].
  destruct (Qle_bool (now - Pending.timestamp action) 300) eqn:E; [done|].
  intros _. split; [done|]. intros later Hle.
  destruct (Qle_bool (later - Pending.timestamp action) 300) eqn:E'; [|done].
  apply Qle_bool_iff in E'. apply not_true_iff_false in E. destruct E.
  apply Qle_bool_iff. apply Qle_trans with (later - Pending.timestamp action)%Q;
    [|exact E'].
  unfold Qminus. by apply Qplus_le_l.
Qed.

End Commands.

(** ** The weekly report, the categories, the suggestions *)

Section Reports.
Import Calendar AnalyticsService Helpers.

Lemma percentage_full (completed target : Z) :
  0 < target →
  (100 <= inject_Z completed / inject_Z target * 100)%Q ↔ target ≤ completed.
Proof.
  intros Hpos. destruct target as [|t|t]; try lia.
  unfold Qle, Qdiv, Qmult, Qinv, inject_Z. simpl. lia.
Qed.

Lemma percentage_nonneg (completed target : Z) :
  0 < target → 0 ≤ completed →
  (0 <= inject_Z completed / inject_Z target * 100)%Q.
Proof.
  intros Hpos Hc. destruct target as [|t|t]; try lia.
  unfold Qle, Qdiv, Qmult, Qinv, inject_Z. simpl. lia.
Qed.

(** X20. Every entry of the weekly report is consistent: the completed
    count is not negative and the percentage lies between 0 and 100. For a
    positive target the percentage is 100 exactly when the status is
    completed, and the status is not_started exactly when nothing was
    completed. For a target of 0 or less the status is completed and the
    percentage is 0. *)
Theorem progress_entry_is_consistent habit_logs habit_goals now habit p :
  check_weekly_progress habit_logs habit_goals now !! habit = Some p →
  0 ≤ Progress.completed p
  ∧ (0 <= Progress.percentage p)%Q ∧ (Progress.percentage p <= 100)%Q
  ∧ (0 < Progress.target p →
     ((Progress.percentage p == 100)%Q ↔ Progress.status p = "completed")
     ∧ (Progress.status p = "not_started" ↔ Progress.completed p = 0))
  ∧ (Progress.target p ≤ 0 →
     Progress.status p = "completed" ∧ (Progress.percentage p == 0)%Q).
Proof.
  rewrite check_weekly_progress_lookup.
  destruct (habit_goals !! habit) as [goal|]; [|done]. simpl. intros [= <-].
  unfold progress_of. cbn [Progress.completed Progress.percentage Progress.status
                           Progress.target].
  set (completed := default 0 (foldl _ ∅ habit_logs !! habit)).
  assert (0 ≤ completed) as Hc.
  { unfold completed. rewrite weekly_counts_lookup, lookup_empty. simpl. lia. }
  split; [done|].
  destruct (Z.ltb_spec 0 (target_per_week goal)) as [Hpos|Hneg].
  - pose proof (percentage_nonneg completed _ Hpos Hc) as Hnn.
    pose proof (percentage_full completed _ Hpos) as Hfull.
    split; [by apply Q.min_glb|]. split; [apply Q.le_min_l|].
    split; [|lia]. intros _.
    destruct (Z.leb_spec (target_per_week goal) completed) as [Hdone|Hnot].
    + split.
      * split; [done|]. intros _. apply Q.min_l. by apply Hfull.
      * split; [done|]. lia.
    + split.
      * split; [|by destruct (0 <? completed)].
        intros Heq. exfalso.
        assert (100 <= inject_Z completed / inject_Z (target_per_week goal) * 100)%Q
          as Hle; [|apply Hfull in Hle; lia].
        eapply Qle_trans; [|apply Q.le_min_r]. rewrite Heq. apply Qle_refl.
      * destruct (Z.ltb_spec 0 completed); split; (done || lia).
  - split; [done|]. split; [done|]. split; [lia|]. intros _.
    destruct (Z.leb_spec (target_per_week goal) completed); [done|lia].
Qed.

Lemma progress_entry_is_consistent_witness :
  0 ≤ 2
  ∧ (0 <= Qmin 100 (inject_Z 2 / inject_Z 6 * 100))%Q
  ∧ (Qmin 100 (inject_Z 2 / inject_Z 6 * 100) <= 100)%Q
  ∧ (0 < 6 →
     ((Qmin 100 (inject_Z 2 / inject_Z 6 * 100) == 100)%Q
      ↔ "in_progress" = "completed")
     ∧ ("in_progress" = "not_started" ↔ 2 = 0))
  ∧ (6 ≤ 0 →
     "in_progress" = "completed"
     ∧ (Qmin 100 (inject_Z 2 / inject_Z 6 * 100) == 0)%Q).
Proof.
  apply (progress_entry_is_consistent
           [completed_at "yoga" "2024-01-02 18:00:00";
            completed_at "yoga" "2024-01-03 18:00:00";
            completed_at "yoga" "2023-12-31 18:00:00"]
           {[ "yoga" := {| target_per_week := 6; created := "2024-01-01T09:00:00";
                           category := get_habit_category "yoga" |} ]}
           sample_now "yoga"
           {| Progress.completed := 2; Progress.target := 6;
              Progress.percentage := Qmin 100 (inject_Z 2 / inject_Z 6 * 100);
              Progress.status := "in_progress" |}).
  by vm_compute.
Defined.

Lemma category_entry_taxonomy entry habit :
  entry ∈ HABIT_CATEGORIES → habit ∈ entry.2 → habit ∈ COMMON_HABITS.
Proof.
  intros He Hh. change COMMON_HABITS with (concat (snd <$> HABIT_CATEGORIES)).
  apply list_elem_of_In, in_concat. exists (entry.2).
  split; [|by apply list_elem_of_In].
  apply list_elem_of_In, list_elem_of_fmap. by exists entry.
Qed.

Lemma category_habits_taxonomy category habits habit :
  category_habits category = Some habits → habit ∈ habits → habit ∈ COMMON_HABITS.
Proof.
  unfold category_habits.
  destruct (find _ HABIT_CATEGORIES) as [entry|] eqn:Hf; [|done].
  intros [= <-] Hin. apply find_some in Hf as [He _].
  apply (category_entry_taxonomy entry); [by apply list_elem_of_In|done].
Qed.

(** X21. The category of a habit of the taxonomy is a key of the category
    table under which the habit is listed; the category of any other name is
    "Other", which is no key of the table. *)
Theorem get_habit_category_spec habit :
  match category_habits (get_habit_category habit) with
  | Some habits => habit ∈ habits ∧ habit ∈ COMMON_HABITS
  | None => (habit ∉ COMMON_HABITS) ∧ get_habit_category habit = "🔄 Other"
  end.
Proof.
  destruct (decide (habit ∈ COMMON_HABITS)) as [Hin|Hout].
  - assert (forallb (λ h, match category_habits (get_habit_category h) with
                          | Some habits => Text.mem h habits
                          | None => false
                          end) COMMON_HABITS = true) as Hall by (by vm_compute).
    rewrite forallb_forall in Hall.
    specialize (Hall habit (proj1 (list_elem_of_In _ _) Hin)).
    destruct (category_habits _); [|done].
    split; [|done]. unfold Text.mem in Hall. by apply bool_decide_eq_true in Hall.
  - assert (get_habit_category habit = "🔄 Other") as ->; [|done].
    unfold get_habit_category.
    destruct (find _ HABIT_CATEGORIES) as [[category habits]|] eqn:Hf; [|done].
    apply find_some in Hf as [He Hm]. destruct Hout.
    apply (category_entry_taxonomy (category, habits)); [by apply list_elem_of_In|].
    unfold Text.mem in Hm. by apply bool_decide_eq_true in Hm.
Qed.

Lemma suggest_from_ok limit user_habits habits suggestions :
  (∀ habit, habit ∈ habits → habit ∈ COMMON_HABITS) →
  suggestions_ok user_habits suggestions →
  suggestions_ok user_habits (suggest_from limit user_habits habits suggestions).
Proof.
  revert suggestions. induction habits as [|habit rest IH]; intros suggestions Hh Hok.
  { done. }
  assert (∀ h, h ∈ rest → h ∈ COMMON_HABITS) as Hrest.
  { intros h ?. apply Hh. by right. }
  cbn [suggest_from].
  destruct (bool_decide (habit ∉ user_habits)) eqn:Hu; simpl; [|by apply IH].
  unfold Text.mem. destruct (bool_decide (habit ∈ suggestions)) eqn:Hs; simpl;
    [by apply IH|].
  apply bool_decide_eq_true in Hu. apply bool_decide_eq_false in Hs.
  assert (suggestions_ok user_habits (suggestions ++ [habit])) as Hok'.
  { destruct Hok as [Hnd Hall]. split.
    - apply NoDup_app. split; [done|]. split; [|apply NoDup_singleton].
      intros x Hx ->%list_elem_of_singleton. done.
    - intros h [?| ->%list_elem_of_singleton]%elem_of_app; [by apply Hall|].
      split; [|done]. apply Hh. by left. }
  destruct (_ <=? _)%nat; [done|by apply IH].
Qed.

(** X22. Whatever the order in which the categories of the user are gone
    through, [get_smart_suggestions] suggests at most five names, none of
    them twice, all from the taxonomy, and never a habit of which the log
    holds a completion. *)
Theorem get_smart_suggestions_spec set_order habit_logs :
  (length (get_smart_suggestions set_order habit_logs).1 ≤ 5)%nat
  ∧ NoDup (get_smart_suggestions set_order habit_logs).1
  ∧ ∀ habit, habit ∈ (get_smart_suggestions set_order habit_logs).1 →
      habit ∈ COMMON_HABITS
      ∧ ∀ log, log ∈ habit_logs → is_log log = true → Log.habit log ≠ habit.
Proof.
  assert (NoDup POPULAR_HABITS) as Hnd.
  { apply (bool_decide_unpack _). by vm_compute. }
  assert (∀ h, h ∈ POPULAR_HABITS → h ∈ COMMON_HABITS) as Hpop.
  { intros h Hh. unfold POPULAR_HABITS in Hh. rewrite !elem_of_cons in Hh.
    destruct Hh as [->|[->|[->|[->|[->|[]%elem_of_nil]]]]];
      apply (bool_decide_unpack _); by vm_compute. }
  destruct habit_logs as [|log0 logs].
  { simpl. split; [lia|]. split; [done|]. intros h Hh. split; [by apply Hpop|].
    intros log []%elem_of_nil. }
  unfold get_smart_suggestions. cbv beta iota zeta.
  set (habit_logs := log0 :: logs).
  set (user_habits := list_to_set _ : gset string).
  assert (∀ log, log ∈ habit_logs → is_log log = true →
            Log.habit log ∈ user_habits) as Huser.
  { intros log Hin Hlog. apply elem_of_list_to_set, list_elem_of_fmap.
    exists log. split; [done|]. by apply list_elem_of_filter. }
  case_decide as Hempty.
  { simpl. split; [lia|]. split.
    - apply (bool_decide_unpack _). by vm_compute.
    - intros h Hh. split.
      + apply Hpop. unfold POPULAR_HABITS. rewrite !elem_of_cons in *. tauto.
      + intros log Hin Hlog. apply Huser in Hin; [|done].
        rewrite Hempty in Hin. by apply not_elem_of_empty in Hin. }
  match goal with
  | |- context [take 5 ?s] => assert (suggestions_ok user_habits s) as [Hnd' Hall]
  end.
  { apply suggest_from_ok; [done|].
    generalize (set_order (set_map get_habit_category user_habits)).
    intros categories.
    assert (suggestions_ok user_habits []) as Hnil.
    { split; [constructor|]. intros h []%elem_of_nil. }
    revert Hnil. generalize ([] : list string).
    induction categories as [|category categories IH]; intros suggestions Hok;
      [done|].
    simpl. apply IH.
    destruct (category_habits category) as [habits|] eqn:Hc; [|done].
    apply suggest_from_ok; [|done].
    intros h. by apply (category_habits_taxonomy category). }
  cbn [fst]. split; [rewrite length_take; lia|].
  split; [eapply sublist_NoDup; [done|apply sublist_take]|].
  intros h Hh.
  assert (h ∈ suggest_from 5 user_habits POPULAR_HABITS
                (foldl (λ suggestions category,
                          match category_habits category with
                          | Some habits => suggest_from 3 user_habits habits suggestions
                          | None => suggestions
                          end) []
                   (set_order (set_map get_habit_category user_habits)))) as Hin.
  { apply elem_of_take in Hh as (i & Hi & _). by eapply list_elem_of_lookup_2. }
  destruct (Hall h Hin) as [Htax Hnot]. split; [done|].
  intros log Hlog Hislog Heq. apply Hnot. rewrite <-Heq. by apply Huser.
Qed.

End Reports.

(** ** The commands on the sample session *)

Section CommandExamples.
Import Calendar AnalyticsService Helpers HabitService.

Lemma unconfirmed_command_keeps_log_witness :
  ∃ st' shown,
    handle_habit_action no_stored_goals sample_log_yoga "john" sample_clock ClickNo
      sample_idle_session = Ok st'
    ∧ habit_logs st' = habit_logs sample_idle_session
    ∧ effects st' = effects sample_idle_session ++ shown
    ∧ (∀ user logs, SaveUserData user logs ∉ shown)
    ∧ (cd_intent sample_log_yoga ≠ "set_goal" →
       habit_goals st' = habit_goals sample_idle_session)
    ∧ (ClickNo = ClickNo → cd_intent sample_log_yoga ∈ ["add"; "log"; "delete"] →
       cd_habits sample_log_yoga ≠ [] → pending_action st' = None).
Proof.
  apply (unconfirmed_command_keeps_log no_stored_goals sample_log_yoga "john"
           sample_clock ClickNo sample_idle_session).
  discriminate.
Defined.

Lemma query_command_only_shows_witness :
  ∃ st',
    handle_habit_action no_stored_goals sample_query_yoga "john" sample_clock
      ClickYes sample_idle_session = Ok st'
    ∧ habit_logs st' = habit_logs sample_idle_session
    ∧ pending_action st' = None
    ∧ length (effects st') = 2%nat.
Proof.
  destruct (query_command_only_shows no_stored_goals sample_query_yoga "john"
              sample_clock ClickYes sample_idle_session "yoga" [] eq_refl eq_refl)
    as (st' & Hrun & Hlogs & _ & Hp & found & shown & Hfound & Hshown & Hmatch).
  exists st'. split; [exact Hrun|]. split; [exact Hlogs|]. split; [exact Hp|].
  rewrite Hshown. subst found. vm_compute in Hmatch.
  destruct Hmatch as (text & -> & _). reflexivity.
Defined.

Lemma only_confirmable_commands_change_the_log_witness :
  ∃ st',
    handle_habit_action no_stored_goals sample_goal_reading "john" sample_clock
      ClickYes sample_idle_session = Ok st'
    ∧ handle_habit_action no_stored_goals sample_goal_reading "john" sample_clock
        NoClick sample_idle_session = Ok st'
    ∧ habit_logs st' = habit_logs sample_idle_session
    ∧ pending_action st' = pending_action sample_idle_session.
Proof.
  apply only_confirmable_commands_change_the_log.
  apply (bool_decide_unpack _). by vm_compute.
Defined.

Lemma confirmed_log_extends_streak_witness :
  ∃ st' before after,
    handle_habit_action no_stored_goals sample_log_yoga "john" sample_clock ClickYes
      sample_idle_session = Ok st'
    ∧ habit_logs st'
      = habit_logs sample_idle_session
        ++ [log_entry "yoga" (cd_duration sample_log_yoga) sample_clock]
    ∧ calculate_streaks (habit_logs sample_idle_session) (ymd2ord 2024 1 3) = Ok before
    ∧ calculate_streaks (habit_logs st') (ymd2ord 2024 1 3) = Ok after
    ∧ after !! "yoga" = Some 2%nat
    ∧ ∀ h, h ≠ "yoga" → after !! h = before !! h.
Proof.
  apply (confirmed_log_extends_streak no_stored_goals sample_log_yoga "john"
           sample_clock sample_idle_session "yoga" [] (ymd2ord 2024 1 3) 1).
  - reflexivity.
  - reflexivity.
  - reflexivity.
  - discriminate.
  - intros log Hin _.
    repeat (apply elem_of_cons in Hin as [->|Hin]; [vm_compute; discriminate|]).
    by apply elem_of_nil in Hin.
  - split.
    + intros i Hi. assert (i = 0) as -> by lia.
      exists (completed_at "yoga" "2024-01-02 18:00:00").
      split; [left|]. split; [reflexivity|]. split; reflexivity.
    + intros (log & Hin & _ & Hh & Hd).
      apply elem_of_cons in Hin as [->|Hin]; [vm_compute in Hd; discriminate|].
      apply elem_of_cons in Hin as [->|Hin]; [discriminate|].
      by apply elem_of_nil in Hin.
Defined.

Lemma confirmed_log_counts_this_week_witness :
  ∃ st',
    handle_habit_action no_stored_goals sample_log_yoga "john" sample_clock ClickYes
      sample_idle_session = Ok st'
    ∧ ∀ h p,
        check_weekly_progress (habit_logs sample_idle_session)
          {[ "yoga" := {| target_per_week := 6; created := "2024-01-01T09:00:00";
                          category := get_habit_category "yoga" |} ]}
          sample_now !! h = Some p →
        ∃ p', check_weekly_progress (habit_logs st')
                {[ "yoga" := {| target_per_week := 6;
                                created := "2024-01-01T09:00:00";
                                category := get_habit_category "yoga" |} ]}
                sample_now !! h = Some p'
          ∧ Progress.target p' = Progress.target p
          ∧ Progress.completed p'
            = Progress.completed p + (if decide (h = "yoga") then 1 else 0).
Proof.
  apply (confirmed_log_counts_this_week no_stored_goals sample_log_yoga "john"
           sample_clock sample_idle_session "yoga" []
           {| dt_date := ymd2ord 2024 1 3; dt_hour := 18; dt_minute := 0;
              dt_second := 5; dt_microsecond := 0 |}).
  - reflexivity.
  - reflexivity.
  - by vm_compute.
  - by vm_compute.
Defined.

Lemma set_goal_command_witness :
  ∃ st',
    handle_habit_action no_stored_goals sample_goal_reading "john" sample_clock
      NoClick sample_idle_session = Ok st'
    ∧ goals_in_effect no_stored_goals "john" st' !! "reading"
      = Some {| target_per_week := 3; created := "2024-01-03T18:00:05";
                category := "🧠 Mental & Learning" |}
    ∧ habit_logs st' = habit_logs sample_idle_session.
Proof.
  destruct (set_goal_command no_stored_goals sample_goal_reading "john" sample_clock
              NoClick sample_idle_session eq_refl)
    as (st' & Hrun & Hlogs & _ & Hset & _).
  exists st'. split; [exact Hrun|]. split; [|exact Hlogs].
  destruct (Hset "reading" [] eq_refl) as (Hgoals & _); [reflexivity|].
  rewrite Hgoals. reflexivity.
Defined.

Lemma confirmed_action_is_saved_witness :
  ∃ st' shown,
    handle_habit_action no_stored_goals sample_add_coding "john" sample_clock
      ClickYes sample_idle_session = Ok st'
    ∧ pending_action st' = None
    ∧ effects st'
      = effects sample_idle_session ++ shown
        ++ [SaveUserData "john" (habit_logs st'); Rerun].
Proof.
  apply (confirmed_action_is_saved no_stored_goals sample_add_coding "john"
           sample_clock sample_idle_session "coding" ["yoga"]).
  - apply (bool_decide_unpack _). by vm_compute.
  - reflexivity.
Defined.

Lemma confirmed_add_of_new_habit_witness :
  ∃ st',
    handle_habit_action no_stored_goals sample_add_coding "john" sample_clock
      ClickYes sample_idle_session = Ok st'
    ∧ length (habit_logs st') = 3%nat
    ∧ goals_in_effect no_stored_goals "john" st' !! "coding"
      = Some {| target_per_week := 5; created := "2024-01-03T18:00:05";
                category := "💻 Productivity" |}.
Proof.
  destruct (confirmed_add_of_new_habit no_stored_goals sample_add_coding "john"
              sample_clock sample_idle_session "coding" ["yoga"] eq_refl eq_refl)
    as (st' & Hrun & Hlogs & _ & Hgoals).
  - intros log Hin.
    repeat (apply elem_of_cons in Hin as [->|Hin]; [discriminate|]).
    by apply elem_of_nil in Hin.
  - exists st'. split; [exact Hrun|]. split; [by rewrite Hlogs|].
    change (DEFAULT_GOALS !! "coding") with (Some 5) in Hgoals.
    rewrite Hgoals. reflexivity.
Defined.

Lemma confirmed_add_twice_witness :
  ∃ st1 st2,
    handle_habit_action no_stored_goals sample_add_coding "john" sample_clock
      ClickYes sample_idle_session = Ok st1
    ∧ handle_habit_action no_stored_goals sample_add_coding "john" sample_clock
        ClickYes st1 = Ok st2
    ∧ habit_logs st2 = habit_logs st1
    ∧ habit_goals st2 = habit_goals st1.
Proof.
  destruct (confirmed_add_twice no_stored_goals sample_add_coding "john"
              sample_clock sample_clock sample_idle_session "coding" ["yoga"]
              eq_refl eq_refl)
    as (st1 & st2 & H1 & H2 & Hl & Hg & _).
  exists st1, st2. split; [exact H1|]. split; [exact H2|]. split; [exact Hl|exact Hg].
Defined.

Lemma timeout_is_reported_once_witness :
  (∀ later,
     check_session_timeout (check_session_timeout (sample_session "log") 1704300301).2
       later
     = (false, (check_session_timeout (sample_session "log") 1704300301).2))
  ∧ (∀ later, (1704300301 <= later)%Q →
       (check_session_timeout (sample_session "log") later).1 = true).
Proof.
  apply (timeout_is_reported_once (sample_session "log") 1704300301).
  reflexivity.
Defined.

End CommandExamples.

(** ** The files of the users *)

Section UserFiles.
Import AuthService.

Lemma length_append (a b : string) :
  String.length (a +:+ b) = (String.length a + String.length b)%nat.
Proof. induction a as [|c a IH]; [done|]. rewrite append_cons. simpl. by rewrite IH. Qed.

Lemma append_inv_tail (a b s : string) : a +:+ s = b +:+ s → a = b.
Proof.
  revert b. induction a as [|c a IH]; intros [|d b] Heq.
  - done.
  - apply (f_equal String.length) in Heq.
    rewrite append_nil, append_cons in Heq. simpl in Heq.
    rewrite length_append in Heq. lia.
  - apply (f_equal String.length) in Heq.
    rewrite append_nil, append_cons in Heq. simpl in Heq.
    rewrite length_append in Heq. lia.
  - rewrite !append_cons in Heq. injection Heq as -> Heq. f_equal. by apply IH.
Qed.

Lemma endswith_cons c s suffix :
  endswith (String c s) suffix = String.eqb (String c s) suffix || endswith s suffix.
Proof. reflexivity. Qed.

Lemma endswith_append (u suffix : string) : endswith (u +:+ suffix) suffix = true.
Proof.
  induction u as [|c u IH].
  - rewrite append_nil. destruct suffix; [done|].
    by rewrite endswith_cons, String.eqb_refl.
  - rewrite append_cons, endswith_cons, IH. apply orb_true_r.
Qed.

(** A name that ends in "_goals.json" does not end in "_habits.json". *)
Lemma goals_file_is_no_habits_file (u : string) :
  endswith (u +:+ "_goals.json") "_habits.json" = false.
Proof.
  induction u as [|c u IH]; [done|].
  rewrite append_cons, endswith_cons, IH, orb_false_r.
  apply String.eqb_neq. intros Heq.
  assert (u = "") as ->.
  { apply (f_equal String.length) in Heq. simpl in Heq.
    rewrite length_append in Heq. simpl in Heq. destruct u; [done|simpl in Heq; lia]. }
  rewrite append_nil in Heq. by injection Heq.
Qed.

Lemma prefix_append_long (p u q : string) :
  String.prefix p (u +:+ q) = true → (String.length p ≤ String.length u)%nat →
  String.prefix p u = true.
Proof.
  revert u. induction p as [|a p IH]; intros u Hp Hlen.
  - by destruct u.
  - destruct u as [|b u]; [simpl in Hlen; lia|].
    rewrite append_cons in Hp. simpl in *.
    destruct (ascii_dec a b); [|done]. apply IH; [done|lia].
Qed.

(** Where an occurrence of [p] starts inside [v], before [q], and runs into
    [q], the pattern has the first character of [q] at that distance. *)
Lemma prefix_append_short (p v q : string) :
  String.prefix p (v +:+ q) = true → (String.length v < String.length p)%nat →
  String.get (String.length v) p = String.get 0 q.
Proof.
  revert p. induction v as [|c v IH]; intros p Hp Hlen.
  - rewrite append_nil in Hp. destruct p as [|a p]; [simpl in Hlen; lia|].
    destruct q as [|b q]; [done|]. simpl in *.
    destruct (ascii_dec a b) as [->|]; done.
  - destruct p as [|a p]; [simpl in Hlen; lia|].
    rewrite append_cons in Hp. simpl in *.
    destruct (ascii_dec a c); [|done]. apply IH; [done|lia].
Qed.

Lemma contains_cons needle c hay :
  Text.contains needle (String c hay)
  = String.prefix needle (String c hay) || Text.contains needle hay.
Proof. reflexivity. Qed.

Lemma replace_go_skip old new k s :
  (String.length s ≤ k)%nat → replace_go old new k s = "".
Proof.
  revert k. induction s as [|c s IH]; intros k Hk; [done|].
  destruct k as [|k]; [simpl in Hk; lia|]. simpl. apply IH. simpl in Hk. lia.
Qed.

Lemma replace_go_cons old new c s :
  replace_go old new 0 (String c s)
  = if String.prefix old (String c s)
    then new +:+ replace_go old new (String.length old - 1) s
    else String c (replace_go old new 0 s).
Proof. reflexivity. Qed.

(** Taking "_habits.json" off the file name of a user gives the name back. *)
Lemma replace_habits_suffix (u : string) :
  Text.contains "_habits.json" u = false →
  replace "_habits.json" "" (u +:+ "_habits.json") = u.
Proof.
  unfold replace. induction u as [|c u IH]; intros Hu; [done|].
  rewrite contains_cons in Hu. apply orb_false_iff in Hu as [Hp Hu].
  rewrite append_cons, replace_go_cons.
  destruct (String.prefix "_habits.json" (String c (u +:+ "_habits.json"))) eqn:E.
  - exfalso. rewrite <-append_cons in E.
    destruct (le_lt_dec (String.length "_habits.json") (String.length (String c u)))
      as [Hlong|Hshort].
    + apply prefix_append_long in E; [congruence|done].
    + apply prefix_append_short in E; [|done].
      simpl String.length in *.
      do 11 (destruct u as [|? u]; [by vm_compute in E|]).
      simpl in Hshort. lia.
  - f_equal. by apply IH.
Qed.

Lemma omap_cons {A B} (f : A → option B) x l :
  omap f (x :: l)
  = match f x with Some y => y :: omap f l | None => omap f l end.
Proof. reflexivity. Qed.

(** X23. The list of the users is read back from the directory: when the
    directory holds the habits file and the goals file of each user, in any
    order, and no user name contains "_habits.json", [get_all_users] returns
    the names of these users, each as often as it is listed, in ascending
    order. Without the directory the list is empty. *)
Theorem get_all_users_lists_the_users users filenames :
  (∀ u, u ∈ users → Text.contains "_habits.json" u = false) →
  filenames ≡ₚ ((λ u, u +:+ "_habits.json") <$> users)
               ++ ((λ u, u +:+ "_goals.json") <$> users) →
  get_all_users (Some filenames) ≡ₚ users
  ∧ Sorted str_le (get_all_users (Some filenames))
  ∧ get_all_users None = [].
Proof.
  intros Hnames Hperm. split; [|split; [|done]].
  - unfold get_all_users. cbv zeta. rewrite merge_sort_Permutation, Hperm, omap_app.
    assert (∀ l : list string,
              omap (λ filename, if endswith filename "_habits.json"
                                then Some (replace "_habits.json" "" filename)
                                else None)
                ((λ u, u +:+ "_goals.json") <$> l) = []) as ->.
    { induction l as [|u l IH]; [done|].
      rewrite fmap_cons, omap_cons. cbv beta.
      by rewrite goals_file_is_no_habits_file. }
    rewrite app_nil_r. clear Hperm.
    induction users as [|u users IH]; [done|].
    rewrite fmap_cons, omap_cons. cbv beta.
    rewrite endswith_append, replace_habits_suffix by (apply Hnames; by left).
    rewrite IH; [done|]. intros u' Hu'. apply Hnames. by right.
  - apply Sorted_merge_sort. intros a b. apply String.leb_total.
Qed.

Lemma get_all_users_lists_the_users_witness :
  get_all_users
    (Some ["john_habits.json"; "zoe_habits.json"; "john_goals.json";
           "zoe_goals.json"])
  ≡ₚ ["zoe"; "john"]
  ∧ Sorted str_le
      (get_all_users
         (Some ["john_habits.json"; "zoe_habits.json"; "john_goals.json";
                "zoe_goals.json"]))
  ∧ get_all_users None = [].
Proof.
  apply get_all_users_lists_the_users.
  - intros u Hu.
    repeat (apply elem_of_cons in Hu as [->|Hu]; [reflexivity|]).
    by apply elem_of_nil in Hu.
  - simpl. change ("zoe" +:+ "_habits.json") with "zoe_habits.json".
    change ("john" +:+ "_habits.json") with "john_habits.json".
    change ("zoe" +:+ "_goals.json") with "zoe_goals.json".
    change ("john" +:+ "_goals.json") with "john_goals.json".
    etrans; [apply perm_swap|]. do 2 apply perm_skip. apply perm_swap.
Defined.

(** Joining a directory and a relative name puts the same text before the
    name, whatever the name. *)
Lemma path_join_relative (a : string) :
  ∃ d, ∀ b, String.prefix "/" b = false → path_join a b = d +:+ b.
Proof.
  unfold path_join.
  destruct (String.eqb a "" || endswith a "/") eqn:E.
  - exists a. intros b ->. done.
  - exists (a +:+ "/"). intros b ->. by rewrite string_app_assoc.
Qed.

Lemma file_name_relative (u suffix : string) :
  String.prefix "/" u = false → String.prefix "/" suffix = false →
  String.prefix "/" (u +:+ suffix) = false.
Proof.
  intros Hu Hs. destruct u as [|c u]; [rewrite append_nil; exact Hs|].
  rewrite append_cons.
  change (String.prefix "/" (String c (u +:+ suffix)))
    with (if ascii_dec "/" c then String.prefix "" (u +:+ suffix) else false).
  change (String.prefix "/" (String c u))
    with (if ascii_dec "/" c then String.prefix "" u else false) in Hu.
  destruct (ascii_dec "/" c); [|done]. by destruct u.
Qed.

Lemma habits_name_is_no_goals_name (u1 u2 : string) :
  u1 +:+ "_habits.json" ≠ u2 +:+ "_goals.json".
Proof.
  intros Heq.
  pose proof (endswith_append u1 "_habits.json") as He.
  rewrite Heq, goals_file_is_no_habits_file in He. done.
Qed.

(** X24. Users do not share files: for names that do not start with "/",
    two different users have different habits files and different goals
    files, and the habits file of a user is never the goals file of a
    user. *)
Theorem user_files_are_distinct users_dir u1 u2 :
  String.prefix "/" u1 = false →
  String.prefix "/" u2 = false →
  (get_user_file users_dir u1 = get_user_file users_dir u2 → u1 = u2)
  ∧ (get_goals_file users_dir u1 = get_goals_file users_dir u2 → u1 = u2)
  ∧ get_user_file users_dir u1 ≠ get_goals_file users_dir u2.
Proof.
  intros H1 H2. unfold get_user_file, get_goals_file.
  destruct (path_join_relative users_dir) as [d Hd].
  rewrite !Hd by (by apply file_name_relative).
  split; [|split].
  - intros Heq%String.app_inj. by apply append_inv_tail in Heq.
  - intros Heq%String.app_inj. by apply append_inv_tail in Heq.
  - intros Heq%String.app_inj. by apply habits_name_is_no_goals_name in Heq.
Qed.

Lemma user_files_are_distinct_witness :
  (get_user_file "users_data" "john" = get_user_file "users_data" "zoe" →
   "john" = "zoe")
  ∧ (get_goals_file "users_data" "john" = get_goals_file "users_data" "zoe" →
     "john" = "zoe")
  ∧ get_user_file "users_data" "john" ≠ get_goals_file "users_data" "zoe".
Proof.
  apply user_files_are_distinct; reflexivity.
Defined.

Example user_file_sample :
  get_user_file "users_data" "john" = "users_data/john_habits.json"
  ∧ get_user_file "/data" "/data/bob" = get_user_file "/data" "bob"
  ∧ get_all_users (Some ["a_habits.json_habits.json"]) = ["a"].
Proof. by vm_compute. Qed.

End UserFiles.

(** ** The retries of the recording *)

Section Recording.
Import VoiceService.

Lemma recording_loop_spec attempt_outcome fallback_text fallback_button
    rounds attempt max_retries :
  Z.of_nat rounds = max_retries - attempt →
  0 ≤ attempt →
  let result :=
    recording_loop attempt_outcome fallback_text fallback_button rounds attempt
      max_retries in
  (∀ i, attempt ≤ i < max_retries →
     (∀ j, attempt ≤ j < i → retried (attempt_outcome j)) →
     match attempt_outcome i with
     | Recognized text => result = text
     | OSError => result = ""
     | UnknownValueError =>
         i = max_retries - 1 →
         result = _fallback_text_input fallback_text fallback_button
     | _ => i = max_retries - 1 → result = ""
     end)
  ∧ (max_retries ≤ attempt → result = "").
Proof.
  revert attempt. induction rounds as [|rounds IH]; intros attempt Hr Ha.
  { simpl. split; [intros i Hi; lia|done]. }
  cbn [recording_loop]. cbv zeta. split; [|lia].
  intros i Hi Hbefore.
  destruct (decide (i = attempt)) as [->|Hne].
  { destruct (attempt_outcome attempt); try done.
    - intros ->. by rewrite (proj2 (Z.ltb_ge _ _)) by lia.
    - intros ->. by rewrite (proj2 (Z.ltb_ge _ _)) by lia.
    - intros ->. by rewrite (proj2 (Z.ltb_ge _ _)) by lia. }
  assert (retried (attempt_outcome attempt)) as Hretry by (apply Hbefore; lia).
  assert ((attempt <? max_retries - 1) = true) as Hlt by (apply Z.ltb_lt; lia).
  destruct (IH (attempt + 1) ltac:(lia) ltac:(lia)) as [Hnext _].
  specialize (Hnext i ltac:(lia)).
  cbv zeta in Hnext.
  destruct Hretry as [Ho|[Ho|Ho]]; rewrite Ho, Hlt;
    apply Hnext; intros j Hj; apply Hbefore; lia.
Qed.

(** X25. The recording is attempted at most [max_retries] times and the
    first attempt that does not call for a retry decides: the text of the
    first attempt that is recognised is returned; a microphone error ends
    the loop at once with the empty string; and when every attempt fails,
    the result is what the user types into the fallback input and submits if
    the last attempt was not understood, and the empty string otherwise. The
    outcome of an attempt from [max_retries] on plays no role. *)
Theorem robust_voice_recording_spec
    attempt_outcome fallback_text fallback_button duration max_retries :
  let result :=
    _robust_voice_recording attempt_outcome fallback_text fallback_button
      duration max_retries in
  (∀ i, 0 ≤ i < max_retries →
     (∀ j, 0 ≤ j < i → retried (attempt_outcome j)) →
     match attempt_outcome i with
     | Recognized text => result = text
     | OSError => result = ""
     | UnknownValueError =>
         i = max_retries - 1 →
         result = _fallback_text_input fallback_text fallback_button
     | _ => i = max_retries - 1 → result = ""
     end)
  ∧ (max_retries ≤ 0 → result = "")
  ∧ ∀ other_outcome,
      (∀ j, 0 ≤ j < max_retries → other_outcome j = attempt_outcome j) →
      _robust_voice_recording other_outcome fallback_text fallback_button
        duration max_retries = result.
Proof.
  unfold _robust_voice_recording. cbv zeta. split; [|split].
  - destruct (Z.le_gt_cases max_retries 0) as [Hle|Hgt]; [intros i Hi; lia|].
    apply (recording_loop_spec attempt_outcome); lia.
  - intros Hle. replace (Z.to_nat max_retries) with 0%nat by lia. done.
  - intros other Hsame.
    assert (∀ rounds attempt,
              Z.of_nat rounds = max_retries - attempt → 0 ≤ attempt →
              recording_loop other fallback_text fallback_button rounds attempt
                max_retries
              = recording_loop attempt_outcome fallback_text fallback_button rounds
                  attempt max_retries) as Hloop.
    { induction rounds as [|rounds IH]; intros attempt Hr Ha; [done|].
      cbn [recording_loop]. rewrite Hsame by lia.
      rewrite (IH (attempt + 1)) by lia. done. }
    destruct (Z.le_gt_cases max_retries 0) as [Hle|Hgt].
    + replace (Z.to_nat max_retries) with 0%nat by lia. done.
    + apply Hloop; lia.
Qed.

Example robust_voice_recording_sample :
  _robust_voice_recording
    (λ attempt, if attempt =? 2 then UnknownValueError else RequestError)
    "I did reading" true 7 3 = "I did reading"
  ∧ _robust_voice_recording
      (λ attempt, if attempt =? 1 then Recognized "add yoga" else OtherError)
      "" false 7 3 = "add yoga"
  ∧ _robust_voice_recording
      (λ attempt, if attempt =? 1 then OSError else Recognized "add yoga")
      "" false 7 3 = "add yoga"
  ∧ _robust_voice_recording
      (λ attempt, if attempt =? 0 then OSError else Recognized "add yoga")
      "" false 7 3 = "".
Proof. by vm_compute. Qed.

End Recording.

(** ** A spoken "yes" or "no" *)

Section SpokenAnswers.
Import AIService Helpers HabitService.

(** X26. A spoken or typed "yes" or "no" neither confirms nor cancels:
    when the text is answered by the step for confirmations or by the step
    for cancellations, the command has the intent confirm or cancel, and
    [handle_habit_action] returns the session as it is, pending action
    included, whatever button is pressed. Only the buttons of the dialog
    confirm or cancel. *)
Theorem spoken_answer_is_inert raw_text reply :
  AIService.goal_patterns GOAL_PATTERNS (Text.strip (Text.lower raw_text)) = None →
  Text.any_in STREAK_KEYWORDS (Text.strip (Text.lower raw_text)) = false →
  Text.any_in PROGRESS_KEYWORDS (Text.strip (Text.lower raw_text)) = false →
  Text.any_in DASHBOARD_KEYWORDS (Text.strip (Text.lower raw_text)) = false →
  Text.any_in ["yes"; "confirm"; "correct"; "that's right"; "yep"]
    (Text.strip (Text.lower raw_text))
  || Text.any_in ["no"; "cancel"; "wrong"; "not correct"; "nope"]
       (Text.strip (Text.lower raw_text)) = true →
  ∃ cmd command,
    parse_voice_command raw_text reply = Ok cmd
    ∧ command_data_of cmd = Some command
    ∧ cd_intent command ∈ ["confirm"; "cancel"]
    ∧ ∀ load_user_goals current_user now button st,
        handle_habit_action load_user_goals command current_user now button st
        = Ok st.
Proof.
  intros Hg Hs Hp Hd Hyn.
  unfold parse_voice_command, _enhanced_voice_parsing. rewrite Hg, Hs, Hp, Hd.
  destruct (Text.any_in ["yes"; "confirm"; "correct"; "that's right"; "yep"] _).
  - eexists _, _. split; [done|]. split; [done|]. split; [by left|done].
  - rewrite orb_false_l in Hyn. rewrite Hyn.
    eexists _, _. split; [done|]. split; [done|]. split; [right; by left|done].
Qed.

Lemma spoken_answer_is_inert_witness :
  ∃ cmd command,
    parse_voice_command "Yes, do it" OracleFailed = Ok cmd
    ∧ command_data_of cmd = Some command
    ∧ cd_intent command ∈ ["confirm"; "cancel"]
    ∧ ∀ load_user_goals current_user now button st,
        handle_habit_action load_user_goals command current_user now button st
        = Ok st.
Proof.
  apply (spoken_answer_is_inert "Yes, do it" OracleFailed); reflexivity.
Defined.

End SpokenAnswers.
